(** * BFI Southbank screening scraper: a shallow embedding of [bfi_calendar.py]

    The development follows the source file from top to bottom: the Python
    built-ins the scraper calls, the data model (enumerations, [Venue],
    [Screening] and the persisted dictionary), the row decoder, the cookie
    store reader with its domain list, the page test of the extractor, the
    multi-day scrape loop, and then the properties.

    Conventions.
    - A Python [str] is a Rocq [string] read as a sequence of code points
      below 256, one per character.  On that range the character classes
      used by [str.strip], [str.isdigit] and [int] are finite and are
      written out in full.
    - A Python [int] is a [Z].
    - A function that can raise returns a [result]; exceptions are the
      constructors of [exn]. *)

From Stdlib Require Import ZArith Ascii String List Sorted Permutation Lia.
From stdpp Require Import base option list strings gmap.

#[local] Set Warnings "-clear-no-such-hyp".

Local Open Scope Z_scope.

(* ================================================================== *)
(** * Exceptions and results *)
(* ================================================================== *)

Inductive exn : Type :=
  | IndexError
  | ValueError
  | KeyError
  | TypeError
  | OverflowError
  | RuntimeError (msg : string)
  | HTTPError (status : Z)
  | ConnectionError
  | OSError
  | DatabaseError.

Inductive result (A : Type) : Type :=
  | Ok (a : A)
  | Raise (e : exn).
Arguments Ok {A} a.
Arguments Raise {A} e.

#[global] Instance result_ret : MRet result := fun A a => Ok a.
#[global] Instance result_bind : MBind result := fun A B f m =>
  match m with
  | Ok a => f a
  | Raise e => Raise e
  end.

#[global] Instance result_fmap : FMap result := fun A B f m =>
  match m with
  | Ok a => Ok (f a)
  | Raise e => Raise e
  end.

Definition is_ok {A} (r : result A) : bool :=
  match r with Ok _ => true | Raise _ => false end.

(* ================================================================== *)
(** * The Python built-ins the scraper relies on *)
(* ================================================================== *)

Module Py.

Definition code (c : ascii) : N := N_of_ascii c.

Definition code_in (c : ascii) (l : list N) : bool :=
  existsb (N.eqb (code c)) l.

(** [str.isspace] on one character: U+0009..U+000D, U+001C..U+001F,
    U+0020, U+0085 and U+00A0. *)
Definition isspace (c : ascii) : bool :=
  code_in c [9; 10; 11; 12; 13; 28; 29; 30; 31; 32; 133; 160]%N.

Fixpoint lstrip_by (ws : ascii -> bool) (s : string) : string :=
  match s with
  | EmptyString => EmptyString
  | String c r => if ws c then lstrip_by ws r else s
  end.

Fixpoint rstrip_by (ws : ascii -> bool) (s : string) : string :=
  match s with
  | EmptyString => EmptyString
  | String c r =>
      match rstrip_by ws r with
      | EmptyString => if ws c then EmptyString else String c EmptyString
      | r' => String c r'
      end
  end.

Definition strip_by (ws : ascii -> bool) (s : string) : string :=
  rstrip_by ws (lstrip_by ws s).

(** [s.strip()] *)
Definition strip (s : string) : string := strip_by isspace s.

(** [s.split(sep)] for a one-character separator: the empty string
    splits into one empty piece. *)
Fixpoint split (sep : ascii) (s : string) : list string :=
  match s with
  | EmptyString => [EmptyString]
  | String c r =>
      if Ascii.eqb c sep then EmptyString :: split sep r
      else match split sep r with
           | h :: t => String c h :: t
           | [] => [String c EmptyString]
           end
  end.

(** [needle in hay] on strings. *)
Fixpoint contains (needle hay : string) : bool :=
  String.prefix needle hay ||
  match hay with
  | EmptyString => false
  | String _ r => contains needle r
  end.

(** [s1 == s2] on strings. *)
Definition str_eq (s1 s2 : string) : bool := String.eqb s1 s2.

(** [x in xs] where [xs] is a tuple or a set of strings. *)
Definition str_in (x : string) (xs : list string) : bool :=
  existsb (str_eq x) xs.

(** Truthiness of a string: [not s] holds of the empty string only. *)
Definition truthy (s : string) : bool :=
  match s with EmptyString => false | _ => true end.

(** Value of a decimal digit ['0'..'9']. *)
Definition decimal (c : ascii) : option Z :=
  let n := code c in
  if ((48 <=? n) && (n <=? 57))%N then Some (Z.of_N n - 48) else None.

(** [c.isdigit()]: the decimal digits and the superscript digits
    U+00B2, U+00B3 and U+00B9, which have the Unicode digit property
    without being decimal. *)
Definition isdigit_char (c : ascii) : bool :=
  match decimal c with
  | Some _ => true
  | None => code_in c [178; 179; 185]%N
  end.

Fixpoint all_chars (p : ascii -> bool) (s : string) : bool :=
  match s with
  | EmptyString => true
  | String c r => p c && all_chars p r
  end.

(** [s.isdigit()]: at least one character, all of them digits. *)
Definition isdigit (s : string) : bool :=
  truthy s && all_chars isdigit_char s.

(** Digits of an integer literal once the first digit is read: each
    further digit may be preceded by one underscore. *)
Fixpoint int_digits (acc : Z) (s : string) : option Z :=
  match s with
  | EmptyString => Some acc
  | String c r =>
      match decimal c with
      | Some d => int_digits (10 * acc + d) r
      | None =>
          if Ascii.eqb c "_" then
            match r with
            | String c' r' =>
                match decimal c' with
                | Some d => int_digits (10 * acc + d) r'
                | None => None
                end
            | EmptyString => None
            end
          else None
      end
  end.

Definition int_unsigned (s : string) : option Z :=
  match s with
  | String c r =>
      match decimal c with
      | Some d => int_digits d r
      | None => None
      end
  | EmptyString => None
  end.

(** White space [int] skips around a literal: the ASCII white space
    U+0009..U+000D and U+0020, and U+0085 and U+00A0; the separators
    U+001C..U+001F are not skipped. *)
Definition int_space (c : ascii) : bool :=
  code_in c [9; 10; 11; 12; 13; 32; 133; 160]%N.

(** [int(s)] in base ten, without the interpreter's configurable limit
    on the number of digits. *)
Definition int (s : string) : result Z :=
  let body := strip_by int_space s in
  let signed :=
    match body with
    | String c r =>
        if Ascii.eqb c "-" then (true, r)
        else if Ascii.eqb c "+" then (false, r)
        else (false, body)
    | EmptyString => (false, body)
    end in
  match int_unsigned signed.2 with
  | Some n => Ok (if signed.1 then - n else n)
  | None => Raise ValueError
  end.

(** [s[i:j]] for constant [0 <= i <= j]. *)
Definition slice (i j : nat) (s : string) : string :=
  String.substring i (j - i) s.

(** [xs[i]] for a constant index [i >= 0]. *)
Definition index {A} (xs : list A) (i : nat) : result A :=
  match xs !! i with
  | Some x => Ok x
  | None => Raise IndexError
  end.

(** [sep.join(xs)] *)
Fixpoint join (sep : string) (xs : list string) : string :=
  match xs with
  | [] => EmptyString
  | [x] => x
  | x :: r => x +:+ sep +:+ join sep r
  end.

(** [xs[-n:]] for a constant [n > 0]. *)
Definition last_n {A} (n : nat) (xs : list A) : list A :=
  drop (length xs - n) xs.

End Py.

(* ================================================================== *)
(** * [html.unescape] *)
(* ================================================================== *)

(** The standard library's scan for character references
    [&(#[0-9]+;?|#[xX][0-9a-fA-F]+;?|[^\t\n\f <&#;]{1,32};?)] and its
    replacement function.  The entity table [html5] holds the entries of
    [html.entities.html5] whose replacement text lies below U+0100, and a
    numeric reference is replaced when its replacement lies below U+0100:
    the model agrees with the library on every string the library
    unescapes to text below U+0100.  Any other reference denotes text
    outside this model's strings and is left as it stands. *)
Module Html.

(** The one-character string at a code point. *)
Definition chr (n : N) : string := String (ascii_of_N n) EmptyString.

Definition html5 : list (string * string) :=
  [ ("AElig", chr 198); ("AElig;", chr 198); ("AMP", "&"); ("AMP;", "&");
    ("Aacute", chr 193); ("Aacute;", chr 193); ("Acirc", chr 194);
    ("Acirc;", chr 194); ("Agrave", chr 192); ("Agrave;", chr 192);
    ("Aring", chr 197); ("Aring;", chr 197); ("Atilde", chr 195);
    ("Atilde;", chr 195); ("Auml", chr 196); ("Auml;", chr 196);
    ("COPY", chr 169); ("COPY;", chr 169); ("Ccedil", chr 199);
    ("Ccedil;", chr 199); ("Cedilla;", chr 184); ("CenterDot;", chr 183);
    ("DiacriticalAcute;", chr 180); ("DiacriticalGrave;", "`");
    ("Dot;", chr 168); ("DoubleDot;", chr 168); ("ETH", chr 208);
    ("ETH;", chr 208); ("Eacute", chr 201); ("Eacute;", chr 201);
    ("Ecirc", chr 202); ("Ecirc;", chr 202); ("Egrave", chr 200);
    ("Egrave;", chr 200); ("Euml", chr 203); ("Euml;", chr 203); ("GT", ">");
    ("GT;", ">"); ("Hat;", "^"); ("Iacute", chr 205); ("Iacute;", chr 205);
    ("Icirc", chr 206); ("Icirc;", chr 206); ("Igrave", chr 204);
    ("Igrave;", chr 204); ("Iuml", chr 207); ("Iuml;", chr 207); ("LT", "<");
    ("LT;", "<"); ("NewLine;", chr 10); ("NonBreakingSpace;", chr 160);
    ("Ntilde", chr 209); ("Ntilde;", chr 209); ("Oacute", chr 211);
    ("Oacute;", chr 211); ("Ocirc", chr 212); ("Ocirc;", chr 212);
    ("Ograve", chr 210); ("Ograve;", chr 210); ("Oslash", chr 216);
    ("Oslash;", chr 216); ("Otilde", chr 213); ("Otilde;", chr 213);
    ("Ouml", chr 214); ("Ouml;", chr 214); ("PlusMinus;", chr 177);
    ("QUOT", chr 34); ("QUOT;", chr 34); ("REG", chr 174); ("REG;", chr 174);
    ("THORN", chr 222); ("THORN;", chr 222); ("Tab;", chr 9);
    ("Uacute", chr 218); ("Uacute;", chr 218); ("Ucirc", chr 219);
    ("Ucirc;", chr 219); ("Ugrave", chr 217); ("Ugrave;", chr 217);
    ("UnderBar;", "_"); ("Uuml", chr 220); ("Uuml;", chr 220);
    ("VerticalLine;", "|"); ("Yacute", chr 221); ("Yacute;", chr 221);
    ("aacute", chr 225); ("aacute;", chr 225); ("acirc", chr 226);
    ("acirc;", chr 226); ("acute", chr 180); ("acute;", chr 180);
    ("aelig", chr 230); ("aelig;", chr 230); ("agrave", chr 224);
    ("agrave;", chr 224); ("amp", "&"); ("amp;", "&"); ("angst;", chr 197);
    ("apos;", "'"); ("aring", chr 229); ("aring;", chr 229); ("ast;", "*");
    ("atilde", chr 227); ("atilde;", chr 227); ("auml", chr 228);
    ("auml;", chr 228); ("brvbar", chr 166); ("brvbar;", chr 166);
    ("bsol;", "\"); ("ccedil", chr 231); ("ccedil;", chr 231);
    ("cedil", chr 184); ("cedil;", chr 184); ("cent", chr 162);
    ("cent;", chr 162); ("centerdot;", chr 183); ("circledR;", chr 174);
    ("colon;", ":"); ("comma;", ","); ("commat;", "@"); ("copy", chr 169);
    ("copy;", chr 169); ("curren", chr 164); ("curren;", chr 164);
    ("deg", chr 176); ("deg;", chr 176); ("die;", chr 168);
    ("div;", chr 247); ("divide", chr 247); ("divide;", chr 247);
    ("dollar;", "$"); ("eacute", chr 233); ("eacute;", chr 233);
    ("ecirc", chr 234); ("ecirc;", chr 234); ("egrave", chr 232);
    ("egrave;", chr 232); ("equals;", "="); ("eth", chr 240);
    ("eth;", chr 240); ("euml", chr 235); ("euml;", chr 235); ("excl;", "!");
    ("fjlig;", "fj"); ("frac12", chr 189); ("frac12;", chr 189);
    ("frac14", chr 188); ("frac14;", chr 188); ("frac34", chr 190);
    ("frac34;", chr 190); ("grave;", "`"); ("gt", ">"); ("gt;", ">");
    ("half;", chr 189); ("iacute", chr 237); ("iacute;", chr 237);
    ("icirc", chr 238); ("icirc;", chr 238); ("iexcl", chr 161);
    ("iexcl;", chr 161); ("igrave", chr 236); ("igrave;", chr 236);
    ("iquest", chr 191); ("iquest;", chr 191); ("iuml", chr 239);
    ("iuml;", chr 239); ("laquo", chr 171); ("laquo;", chr 171);
    ("lbrace;", "{"); ("lbrack;", "["); ("lcub;", "{"); ("lowbar;", "_");
    ("lpar;", "("); ("lsqb;", "["); ("lt", "<"); ("lt;", "<");
    ("macr", chr 175); ("macr;", chr 175); ("micro", chr 181);
    ("micro;", chr 181); ("midast;", "*"); ("middot", chr 183);
    ("middot;", chr 183); ("nbsp", chr 160); ("nbsp;", chr 160);
    ("not", chr 172); ("not;", chr 172); ("ntilde", chr 241);
    ("ntilde;", chr 241); ("num;", "#"); ("oacute", chr 243);
    ("oacute;", chr 243); ("ocirc", chr 244); ("ocirc;", chr 244);
    ("ograve", chr 242); ("ograve;", chr 242); ("ordf", chr 170);
    ("ordf;", chr 170); ("ordm", chr 186); ("ordm;", chr 186);
    ("oslash", chr 248); ("oslash;", chr 248); ("otilde", chr 245);
    ("otilde;", chr 245); ("ouml", chr 246); ("ouml;", chr 246);
    ("para", chr 182); ("para;", chr 182); ("percnt;", "%");
    ("period;", "."); ("plus;", "+"); ("plusmn", chr 177);
    ("plusmn;", chr 177); ("pm;", chr 177); ("pound", chr 163);
    ("pound;", chr 163); ("quest;", "?"); ("quot", chr 34);
    ("quot;", chr 34); ("raquo", chr 187); ("raquo;", chr 187);
    ("rbrace;", "}"); ("rbrack;", "]"); ("rcub;", "}"); ("reg", chr 174);
    ("reg;", chr 174); ("rpar;", ")"); ("rsqb;", "]"); ("sect", chr 167);
    ("sect;", chr 167); ("semi;", ";"); ("shy", chr 173); ("shy;", chr 173);
    ("sol;", "/"); ("strns;", chr 175); ("sup1", chr 185);
    ("sup1;", chr 185); ("sup2", chr 178); ("sup2;", chr 178);
    ("sup3", chr 179); ("sup3;", chr 179); ("szlig", chr 223);
    ("szlig;", chr 223); ("thorn", chr 254); ("thorn;", chr 254);
    ("times", chr 215); ("times;", chr 215); ("uacute", chr 250);
    ("uacute;", chr 250); ("ucirc", chr 251); ("ucirc;", chr 251);
    ("ugrave", chr 249); ("ugrave;", chr 249); ("uml", chr 168);
    ("uml;", chr 168); ("uuml", chr 252); ("uuml;", chr 252);
    ("verbar;", "|"); ("vert;", "|"); ("yacute", chr 253);
    ("yacute;", chr 253); ("yen", chr 165); ("yen;", chr 165);
    ("yuml", chr 255); ("yuml;", chr 255) ].

Definition entity (name : string) : option string :=
  snd <$> List.find (fun kv => Py.str_eq kv.1 name) html5.

(** Longest prefix of at most [n] characters, all satisfying [p], and
    what follows it. *)
Fixpoint span (n : nat) (p : ascii -> bool) (s : string) : string * string :=
  match n, s with
  | S k, String c r =>
      if p c then let '(a, b) := span k p r in (String c a, b)
      else (EmptyString, s)
  | _, _ => (EmptyString, s)
  end.

Definition is_dec (c : ascii) : bool := bool_decide (is_Some (Py.decimal c)).

Definition hex_val (c : ascii) : option Z :=
  let n := Py.code c in
  if ((48 <=? n) && (n <=? 57))%N then Some (Z.of_N n - 48)
  else if ((65 <=? n) && (n <=? 70))%N then Some (Z.of_N n - 55)
  else if ((97 <=? n) && (n <=? 102))%N then Some (Z.of_N n - 87)
  else None.

Definition is_hex (c : ascii) : bool := bool_decide (is_Some (hex_val c)).

(** [[^\t\n\f <&#;]] *)
Definition name_char (c : ascii) : bool :=
  negb (Py.code_in c [9; 10; 12; 32; 60; 38; 35; 59]%N).

Definition opt_semi (rest : string) : string :=
  match rest with
  | String c _ => if Ascii.eqb c ";" then ";" else EmptyString
  | EmptyString => EmptyString
  end.

(** The text captured by group 1 when the pattern matches right after
    an ampersand. *)
Definition charref (r : string) : option string :=
  match r with
  | String c r1 =>
      if Ascii.eqb c "#" then
        let '(ds, rest) := span (String.length r1) is_dec r1 in
        if Py.truthy ds then Some ("#" +:+ ds +:+ opt_semi rest)
        else
          match r1 with
          | String x r2 =>
              if Ascii.eqb x "x" || Ascii.eqb x "X" then
                let '(hs, rest) := span (String.length r2) is_hex r2 in
                if Py.truthy hs
                then Some ("#" +:+ String x hs +:+ opt_semi rest)
                else None
              else None
          | EmptyString => None
          end
      else
        let '(nm, rest) := span 32 name_char r in
        if Py.truthy nm then Some (nm +:+ opt_semi rest) else None
  | EmptyString => None
  end.

Fixpoint number (base : Z) (digit : ascii -> option Z) (acc : Z) (s : string) : Z :=
  match s with
  | String c r =>
      match digit c with
      | Some d => number base digit (base * acc + d) r
      | None => acc
      end
  | EmptyString => acc
  end.

(** Replacement of the code point [num], when it lies in the model. *)
Definition numeric (num : Z) : option string :=
  if bool_decide (num = 13) then Some (String (ascii_of_N 13) EmptyString)
  else if bool_decide (num ∈ [129; 141; 143; 144; 157])
    then Some (String (ascii_of_N (Z.to_N num)) EmptyString)
  else if bool_decide (num = 0 ∨ 128 <= num <= 159) then None
  else if bool_decide (num <= 8 ∨ num = 11 ∨ 14 <= num <= 31 ∨ num = 127)
    then Some EmptyString
  else Some (String (ascii_of_N (Z.to_N num)) EmptyString).

(** The named branch: the name itself, else its longest proper prefix of
    two characters or more that is an entity, else the text unchanged. *)
Fixpoint longest_prefix (x : nat) (s : string) : option string :=
  match x with
  | S (S k as x') =>
      match entity (Py.slice 0 x s) with
      | Some v => Some (v +:+ String.substring x (String.length s - x) s)
      | None => longest_prefix x' s
      end
  | _ => None
  end.

Definition replace_charref (s : string) : string :=
  match s with
  | String c r =>
      if Ascii.eqb c "#" then
        let num :=
          match r with
          | String x r' =>
              if Ascii.eqb x "x" || Ascii.eqb x "X"
              then number 16 hex_val 0 r'
              else number 10 Py.decimal 0 r
          | EmptyString => 0
          end in
        if bool_decide (255 < num) then "&" +:+ s
        else default ("&" +:+ s) (numeric num)
      else
        match entity s with
        | Some v => v
        | None => default ("&" +:+ s) (longest_prefix (String.length s - 1) s)
        end
  | EmptyString => "&"
  end.

(** [_charref.sub(_replace_charref, s)]: [skip] counts the characters of
    a reference already replaced. *)
Fixpoint sub (skip : nat) (s : string) : string :=
  match s with
  | EmptyString => EmptyString
  | String c r =>
      match skip with
      | S k => sub k r
      | O =>
          if Ascii.eqb c "&" then
            match charref r with
            | Some g => replace_charref g +:+ sub (String.length g) r
            | None => String c (sub 0 r)
            end
          else String c (sub 0 r)
      end
  end.

Definition unescape (s : string) : string := sub 0 s.

End Html.

(* ================================================================== *)
(** * [datetime.datetime] *)
(* ================================================================== *)

(** Naive date-times, as the scraper builds them.  Microseconds are always
    zero in this program and are left out. *)
Module Datetime.

Record t : Type := mk
  { year : Z; month : Z; day : Z; hour : Z; minute : Z; second : Z }.

#[global] Instance eq_dec : EqDecision t.
Proof. solve_decision. Defined.

Definition is_leap (y : Z) : bool :=
  (y mod 4 =? 0) && (negb (y mod 100 =? 0) || (y mod 400 =? 0)).

Definition days_in_month (y m : Z) : Z :=
  if bool_decide (m = 2) then (if is_leap y then 29 else 28)
  else if bool_decide (m ∈ [4; 6; 9; 11]) then 30
  else 31.

Definition c_int (z : Z) : bool := (- 2 ^ 31 <=? z) && (z <=? 2 ^ 31 - 1).

Definition in_range (y m d hh mm ss : Z) : bool :=
  (1 <=? y) && (y <=? 9999) && (1 <=? m) && (m <=? 12) &&
  (1 <=? d) && (d <=? days_in_month y m) &&
  (0 <=? hh) && (hh <=? 23) && (0 <=? mm) && (mm <=? 59) &&
  (0 <=? ss) && (ss <=? 59).

(** The constructor: arguments that do not fit a C [int] raise
    [OverflowError], other arguments out of range raise [ValueError]. *)
Definition make (y m d hh mm ss : Z) : result t :=
  if forallb c_int [y; m; d; hh; mm; ss] then
    if in_range y m d hh mm ss then Ok (mk y m d hh mm ss)
    else Raise ValueError
  else Raise OverflowError.

(** [dt.datetime(y, m, d, hh, mm)] *)
Definition datetime (y m d hh mm : Z) : result t := make y m d hh mm 0.

Definition digit (n : Z) : ascii := ascii_of_N (Z.to_N (48 + n mod 10)).

Definition pad2 (n : Z) (k : string) : string :=
  String (digit (n / 10)) (String (digit n) k).

Definition pad4 (n : Z) (k : string) : string :=
  String (digit (n / 1000)) (String (digit (n / 100)) (pad2 n k)).

(** [d.isoformat()]: [YYYY-MM-DDTHH:MM:SS]. *)
Definition isoformat (d : t) : string :=
  pad4 (year d) (String "-" (pad2 (month d) (String "-" (pad2 (day d)
    (String "T" (pad2 (hour d) (String ":" (pad2 (minute d)
      (String ":" (pad2 (second d) EmptyString))))))))))%char.

Definition num2 (a b : ascii) : option Z :=
  x ← Py.decimal a; y ← Py.decimal b; Some (10 * x + y).

Definition num4 (a b c d : ascii) : option Z :=
  x ← num2 a b; y ← num2 c d; Some (100 * x + y).

(** [datetime.fromisoformat(s)] on the shape [isoformat] writes for whole
    seconds, [YYYY-MM-DD?HH:MM:SS] with any one character between date
    and time.  The other shapes the library reads (a date alone, a
    shorter time, fractions, offsets) are never written by [to_dict] and
    are not modelled: they read as [ValueError] here. *)
Definition fromisoformat (s : string) : result t :=
  match list_ascii_of_string s with
  | [y1; y2; y3; y4; h1; m1; m2; h2; d1; d2; _; H1; H2; c1; M1; M2; c2; S1; S2] =>
      if Ascii.eqb h1 "-" && Ascii.eqb h2 "-" &&
         Ascii.eqb c1 ":" && Ascii.eqb c2 ":" then
        match num4 y1 y2 y3 y4, num2 m1 m2, num2 d1 d2,
              num2 H1 H2, num2 M1 M2, num2 S1 S2 with
        | Some y, Some m, Some d, Some hh, Some mm, Some ss =>
            make y m d hh mm ss
        | _, _, _, _, _, _ => Raise ValueError
        end
      else Raise ValueError
  | _ => Raise ValueError
  end.

(** [a <= b]: comparison of the fields in order, as tuples compare. *)
Definition fields (d : t) : list Z :=
  [year d; month d; day d; hour d; minute d; second d].

Fixpoint tuple_leb (a b : list Z) : bool :=
  match a, b with
  | x :: a', y :: b' => (x <? y) || ((x =? y) && tuple_leb a' b')
  | [], _ => true
  | _ :: _, [] => false
  end.

Definition leb (a b : t) : bool := tuple_leb (fields a) (fields b).

End Datetime.

(* ================================================================== *)
(** * Data models *)
(* ================================================================== *)

Definition normalise_venue_short (short : string) : string :=
  if negb (Py.truthy short) then EmptyString
  else
    let s := Py.strip short in
    if Py.str_in s ["Southbank NFT2 GA"; "NFT2 GA"] then "NFT2"
    else s.

Definition UNWANTED_KEYWORDS : list string :=
  [ "Closed captions"; "Releases"; "Audio description"; "English subtitles";
    "Descriptive subtitles (open captions)"; "Previews";
    "Relaxed (sensory) screenings" ].

Definition filter_keywords (keywords : list string) : list string :=
  List.filter (fun k => negb (Py.str_in (Py.strip k) UNWANTED_KEYWORDS)) keywords.

Module Availability.

Inductive t : Type := EXCELLENT | GOOD | LIMITED | SOLD_OUT | UNKNOWN.

#[global] Instance eq_dec : EqDecision t.
Proof. solve_decision. Defined.

Definition value (m : t) : string :=
  match m with
  | EXCELLENT => "E"
  | GOOD => "G"
  | LIMITED => "L"
  | SOLD_OUT => "S"
  | UNKNOWN => "?"
  end.

(** The members in definition order, as iterating the class yields them. *)
Definition members : list t := [EXCELLENT; GOOD; LIMITED; SOLD_OUT; UNKNOWN].

Definition from_code (code : string) : t :=
  default UNKNOWN (List.find (fun member => Py.str_eq (value member) code) members).

End Availability.

Module SalesStatus.

Inductive t : Type := ON_SALE | NOT_ON_SALE | UNKNOWN.

#[global] Instance eq_dec : EqDecision t.
Proof. solve_decision. Defined.

Definition value (m : t) : string :=
  match m with
  | ON_SALE => "S"
  | NOT_ON_SALE => "N"
  | UNKNOWN => "?"
  end.

Definition members : list t := [ON_SALE; NOT_ON_SALE; UNKNOWN].

Definition from_code (code : string) : t :=
  default UNKNOWN (List.find (fun member => Py.str_eq (value member) code) members).

End SalesStatus.

Module Venue.

Record t : Type := mk { id : string; name : string; short_name : string }.

#[global] Instance eq_dec : EqDecision t.
Proof. solve_decision. Defined.

(** [__eq__] as [@dataclass] generates it: the tuples of all fields are
    compared.  The class body defines [__hash__] only. *)
Definition eq (v1 v2 : t) : bool :=
  Py.str_eq (id v1) (id v2) && Py.str_eq (name v1) (name v2)
  && Py.str_eq (short_name v1) (short_name v2).

(** [__hash__]: [hash(self.id)], over the interpreter's string hash. *)
Definition hash (str_hash : string -> Z) (v : t) : Z := str_hash (id v).

End Venue.

(** Values stored in the persisted dictionary of a screening. *)
Inductive pyval : Type :=
  | VNone
  | VStr (s : string)
  | VInt (z : Z)
  | VList (l : list string).

Module Screening.

Record t : Type := mk
  { id : string;
    title : string;
    datetime : Datetime.t;
    venue : Venue.t;
    availability : Availability.t;
    sales_status : SalesStatus.t;
    seats_available : option Z;
    keywords : list string;
    min_price : option string;
    max_price : option string;
    article_url : option string }.

#[global] Instance eq_dec : EqDecision t.
Proof. solve_decision. Defined.

Definition is_available (self : t) : bool :=
  negb (bool_decide (availability self = Availability.SOLD_OUT)).

Definition opt_str (o : option string) : pyval :=
  match o with Some s => VStr s | None => VNone end.

Definition opt_int (o : option Z) : pyval :=
  match o with Some z => VInt z | None => VNone end.

Definition to_dict (self : t) : gmap string pyval :=
  list_to_map
    [ ("id", VStr (id self)); ("title", VStr (title self));
      ("datetime", VStr (Datetime.isoformat (datetime self)));
      ("venue_id", VStr (Venue.id (venue self)));
      ("venue_name", VStr (Venue.name (venue self)));
      ("venue_short", VStr (Venue.short_name (venue self)));
      ("availability", VStr (Availability.value (availability self)));
      ("sales_status", VStr (SalesStatus.value (sales_status self)));
      ("seats_available", opt_int (seats_available self));
      ("keywords", VList (keywords self));
      ("min_price", opt_str (min_price self));
      ("max_price", opt_str (max_price self));
      ("article_url", opt_str (article_url self)) ].

(** [data[key]] where a string is stored.  A value of another type than
    [to_dict] writes is outside the model and reads as [TypeError]. *)
Definition item (data : gmap string pyval) (key : string) : result string :=
  match data !! key with
  | Some (VStr s) => Ok s
  | Some _ => Raise TypeError
  | None => Raise KeyError
  end.

(** [data.get(key)] for an optional string. *)
Definition get_str (data : gmap string pyval) (key : string) : result (option string) :=
  match data !! key with
  | Some (VStr s) => Ok (Some s)
  | Some VNone | None => Ok None
  | Some _ => Raise TypeError
  end.

(** [data.get(key)] for an optional integer. *)
Definition get_int (data : gmap string pyval) (key : string) : result (option Z) :=
  match data !! key with
  | Some (VInt z) => Ok (Some z)
  | Some VNone | None => Ok None
  | Some _ => Raise TypeError
  end.

(** [data.get(key, [])] for a list of strings. *)
Definition get_list (data : gmap string pyval) (key : string) : result (list string) :=
  match data !! key with
  | Some (VList l) => Ok l
  | None => Ok []
  | Some _ => Raise TypeError
  end.

Definition from_dict (data : gmap string pyval) : result t :=
  id_ ← item data "id";
  title_ ← item data "title";
  datetime_ ← item data "datetime" ≫= Datetime.fromisoformat;
  venue_id ← item data "venue_id";
  venue_name ← item data "venue_name";
  venue_short ← item data "venue_short";
  availability_ ← item data "availability";
  sales_status_ ← item data "sales_status";
  seats ← get_int data "seats_available";
  keywords_ ← get_list data "keywords";
  min_price_ ← get_str data "min_price";
  max_price_ ← get_str data "max_price";
  article_url_ ← get_str data "article_url";
  Ok (mk id_ title_ datetime_
        (Venue.mk venue_id venue_name (normalise_venue_short venue_short))
        (Availability.from_code availability_)
        (SalesStatus.from_code sales_status_)
        seats (filter_keywords keywords_)
        min_price_ max_price_ article_url_).

End Screening.

(* ================================================================== *)
(** * Field mapping *)
(* ================================================================== *)

(** Column indices for the searchResults array. *)
Module Fields.
Definition ID : nat := 0.
Definition TITLE : nat := 5.
Definition TIME : nat := 8.
Definition DAY : nat := 9.
Definition MONTH : nat := 10.
Definition YEAR : nat := 11.
Definition SALES_STATUS : nat := 14.
Definition AVAILABILITY : nat := 15.
Definition SEATS_AVAILABLE : nat := 16.
Definition KEYWORDS : nat := 17.
Definition ARTICLE_URL : nat := 18.
Definition VENUE_ID : nat := 62.
Definition VENUE_NAME : nat := 63.
Definition VENUE_SHORT : nat := 64.
Definition MIN_PRICE : nat := 80.
Definition MAX_PRICE : nat := 81.
End Fields.

(** A row of the page's array: the site writes every field as a string. *)
Abbreviation row := (list string).

(** [row[i] if len(row) > i else d] *)
Definition field_or {A} (f : string -> A) (d : A) (r : row) (i : nat) : result A :=
  if (i <? length r)%nat then f <$> Py.index r i else Ok d.

(** The date-time of a row: the first statement of [parse_screening]. *)
Definition screening_dt (r : row) : result Datetime.t :=
  year ← Py.index r Fields.YEAR ≫= Py.int;
  month ← Py.index r Fields.MONTH ≫= Py.int;
  day ← Py.index r Fields.DAY ≫= Py.int;
  hour ← Py.index r Fields.TIME ≫= (fun t => Py.int (Py.slice 0 2 t));
  minute ← Py.index r Fields.TIME ≫= (fun t => Py.int (Py.slice 3 5 t));
  Datetime.datetime year (month + 1) day hour minute.

(** [int(seats_raw) if seats_raw and str(seats_raw).isdigit() else None] *)
Definition seats_of (seats_raw : option string) : result (option Z) :=
  match seats_raw with
  | Some s => if Py.truthy s && Py.isdigit s then Some <$> Py.int s else Ok None
  | None => Ok None
  end.

(** Parse a single row from searchResults into a [Screening]. *)
Definition parse_screening (r : row) : result Screening.t :=
  screening_dt_ ← screening_dt r;
  keywords_raw ← field_or (fun s => s) EmptyString r Fields.KEYWORDS;
  let keywords :=
    filter_keywords
      (map Py.strip
         (List.filter (fun k => Py.truthy (Py.strip k)) (Py.split "," keywords_raw))) in
  seats_raw ← field_or Some None r Fields.SEATS_AVAILABLE;
  seats ← seats_of seats_raw;
  id_ ← Py.index r Fields.ID;
  title_ ← Html.unescape <$> Py.index r Fields.TITLE;
  venue_id ← field_or (fun s => s) EmptyString r Fields.VENUE_ID;
  venue_name ← field_or (fun s => s) EmptyString r Fields.VENUE_NAME;
  venue_short ← field_or (fun s => s) EmptyString r Fields.VENUE_SHORT;
  availability_ ← Availability.from_code <$> Py.index r Fields.AVAILABILITY;
  sales_status_ ← SalesStatus.from_code <$> Py.index r Fields.SALES_STATUS;
  min_price_ ← field_or Some None r Fields.MIN_PRICE;
  max_price_ ← field_or Some None r Fields.MAX_PRICE;
  article_url_ ← field_or Some None r Fields.ARTICLE_URL;
  Ok (Screening.mk id_ title_ screening_dt_
        (Venue.mk venue_id venue_name (normalise_venue_short venue_short))
        availability_ sales_status_ seats keywords
        min_price_ max_price_ article_url_).

(** The row of the scenario, sixteen fields long. *)
Definition scenario_row : row :=
  [ "123"; "Film &amp; Title"; "14:30"; "5"; "0"; "2024"; "S"; "G"; "42";
    "Previews, Q&A"; "path/x"; "v1"; "NFT1"; "NFT1"; "5"; "10" ].

(** The same sixteen values, each at the column the schema assigns to it,
    in a row of 82 fields whose other fields are empty. *)
Definition scenario_columns : list nat :=
  [ Fields.ID; Fields.TITLE; Fields.TIME; Fields.DAY; Fields.MONTH;
    Fields.YEAR; Fields.SALES_STATUS; Fields.AVAILABILITY;
    Fields.SEATS_AVAILABLE; Fields.KEYWORDS; Fields.ARTICLE_URL;
    Fields.VENUE_ID; Fields.VENUE_NAME; Fields.VENUE_SHORT;
    Fields.MIN_PRICE; Fields.MAX_PRICE ].

Definition place (r : row) (cell : nat * string) : row := <[cell.1 := cell.2]> r.

Definition scenario_row_at_schema : row :=
  foldl place (replicate 82 EmptyString) (zip scenario_columns scenario_row).

Definition scenario_record : Screening.t :=
  Screening.mk "123" "Film & Title" (Datetime.mk 2024 1 5 14 30 0)
    (Venue.mk "v1" "NFT1" "NFT1") Availability.GOOD SalesStatus.ON_SALE
    (Some 42) ["Q&A"] (Some "5") (Some "10") (Some "path/x").

(* ================================================================== *)
(** * Cookie handling *)
(* ================================================================== *)

(** The domain list [load_cookies] builds before it queries the store:
    the exact host and its leading-dot form, then a parent domain. *)
Definition two_part_tlds : list string :=
  ["org.uk"; "co.uk"; "ac.uk"; "gov.uk"; "com.au"; "co.nz"; "co.jp"].

Definition parent_domain (domain : string) : option string :=
  let parts := Py.split "." domain in
  if (2 <=? length parts)%nat then
    let potential_tld := Py.join "." (Py.last_n 2 parts) in
    if Py.str_in potential_tld two_part_tlds && (3 <? length parts)%nat
    then Some (Py.join "." (Py.last_n 3 parts))
    else if (2 <? length parts)%nat
    then Some (Py.join "." (Py.last_n 2 parts))
    else None
  else None.

Definition domains_to_search (domain : string) : list string :=
  [domain; "." +:+ domain] ++
  match parent_domain domain with
  | Some parent =>
      if Py.truthy parent && negb (Py.str_eq parent domain)
      then ["." +:+ parent; parent]
      else []
  | None => []
  end.

(** ** The file system and the store, as [load_cookies] sees them

    The state is the set of paths that exist.  What the outside world
    decides (the profile found, whether the copy and the connection
    succeed, the table read back) is the environment [Store.env]. *)
Module Store.

Record cookie : Type := Cookie { name : string; value : string; host : string }.

Record env : Type := Env
  { profile_path : option string;   (* get_firefox_profile_path() *)
    copy_fails : bool;              (* shutil.copy2 raises *)
    connect_fails : bool;           (* sqlite3.connect raises *)
    moz_cookies : option (list cookie) (* the table; None: unreadable *) }.

End Store.

Definition M (A : Type) : Type := gset string -> result A * gset string.

#[global] Instance M_ret : MRet M := fun A a fs => (Ok a, fs).
#[global] Instance M_bind : MBind M := fun A B f m fs =>
  match m fs with
  | (Ok a, fs') => f a fs'
  | (Raise e, fs') => (Raise e, fs')
  end.

Definition raise {A} (e : exn) : M A := fun fs => (Raise e, fs).

Definition lift {A} (r : result A) : M A := fun fs => (r, fs).

(** [path.exists()] *)
Definition path_exists (path : string) : M bool :=
  fun fs => (Ok (bool_decide (path ∈ fs)), fs).

(** [path.unlink()] *)
Definition unlink (path : string) : M unit :=
  fun fs => if bool_decide (path ∈ fs) then (Ok (), fs ∖ {[path]})
            else (Raise OSError, fs).

(** [shutil.copy2(src, dst)] *)
Definition copy2 (fails : bool) (src dst : string) : M unit :=
  fun fs => if fails || negb (bool_decide (src ∈ fs)) then (Raise OSError, fs)
            else (Ok (), {[dst]} ∪ fs).

(** [try: body finally: final] *)
Definition try_finally {A} (body : M A) (final : M unit) : M A :=
  fun fs =>
    let '(r, fs1) := body fs in
    match final fs1 with
    | (Ok _, fs2) => (r, fs2)
    | (Raise e, fs2) => (Raise e, fs2)
    end.

Definition temp_db : string := "/tmp/firefox_cookies_temp.sqlite".

(** The errors [load_cookies] raises itself, with their messages
    abridged. *)
Definition no_profile : exn :=
  RuntimeError "Could not find Firefox profile. Make sure Firefox is installed.".
Definition no_database : exn := RuntimeError "Firefox cookies database not found".
Definition no_cookies : exn := RuntimeError "No cookies found".

(** [SELECT name, value, host FROM moz_cookies WHERE host IN (...)] *)
Definition select_cookies (e : Store.env) (domains : list string) : result (list Store.cookie) :=
  match Store.moz_cookies e with
  | Some table => Ok (List.filter (fun c => Py.str_in (Store.host c) domains) table)
  | None => Raise DatabaseError
  end.

Definition collect (rows : list Store.cookie) : gmap string string :=
  foldl (fun cookies c => <[Store.name c := Store.value c]> cookies) ∅ rows.

(** The body of the [try] statement of [load_cookies]: connect, query,
    collect. *)
Definition query_store (e : Store.env) (domain : string) : M (gmap string string) :=
  lift (if Store.connect_fails e then Raise DatabaseError else Ok ());;
  rows ← lift (select_cookies e (domains_to_search domain));
  let cookies := collect rows in
  if bool_decide (cookies = ∅) then raise no_cookies
  else mret cookies.

(** Its [finally] clause. *)
Definition remove_temp : M unit :=
  present ← path_exists temp_db;
  if present : bool then unlink temp_db else mret ().

(** Extract cookies for a domain from Firefox's cookie database. *)
Definition load_cookies (e : Store.env) (domain : string) : M (gmap string string) :=
  match Store.profile_path e with
  | None => raise no_profile
  | Some profile =>
      let cookies_db := profile +:+ "/cookies.sqlite" in
      found ← path_exists cookies_db;
      if negb found then raise no_database
      else
        copy2 (Store.copy_fails e) cookies_db temp_db;;
        try_finally (query_store e domain) remove_temp
  end.

(* ================================================================== *)
(** * HTTP request handling and HTML parsing *)
(* ================================================================== *)

Record response : Type := Response { status_code : Z; text : string }.

(** The errors of the fetch and of the extractor, the first message
    abridged. *)
Definition cookies_expired : exn := RuntimeError "Cloudflare returned 403".
Definition challenge : exn :=
  RuntimeError "Hit Cloudflare challenge. Cookies may be expired.".

Section Scrape.

(** [requests.get] for the day at the given offset from the start date:
    the transport either raises or delivers a response. *)
Variable get : gmap string string -> nat -> result response.

(** The rows embedded in a page that carries listing data: the capture
    of the [searchResults] array, its quote and comma repair and
    [json.loads], with a parse failure read as no rows. *)
Variable embedded_rows : string -> list row.

(** Fetch screening data for a single day. *)
Definition fetch_single_day (day_offset : nat) (cookies : gmap string string) : result string :=
  response ← get cookies day_offset;
  if bool_decide (status_code response = 403) then Raise cookies_expired
  else if bool_decide (400 <= status_code response < 600)
  then Raise (HTTPError (status_code response))
  else Ok (text response).

(** Extract the searchResults array from the page's JavaScript. *)
Definition extract_search_results (html_content : string) : result (list row) :=
  if negb (Py.contains "articleContext" html_content) then
    if Py.contains "cf-browser-verification" html_content
       || Py.contains "challenge-platform" html_content
    then Raise challenge
    else Ok []
  else Ok (embedded_rows html_content).

(** [for x in xs: body], threading the loop's variables. *)
Fixpoint for_each {A S} (xs : list A) (body : S -> A -> result S) (st : S) : result S :=
  match xs with
  | [] => Ok st
  | x :: rest => st' ← body st x; for_each rest body st'
  end.

(** The loop variables: [all_screenings] and [seen_ids]. *)
Definition acc : Type := list Screening.t * gset string.

(** One turn of the loop over a day's rows. *)
Definition row_step (st : acc) (r : row) : result acc :=
  match parse_screening r with
  | Ok screening =>
      if Py.str_eq (Py.strip (Screening.title screening)) "Library Research Session"
      then Ok st
      else if bool_decide (Screening.id screening ∉ st.2)
      then Ok (st.1 ++ [screening], {[Screening.id screening]} ∪ st.2)
      else Ok st
  | Raise IndexError | Raise ValueError => Ok st
  | Raise e => Raise e
  end.

(** One turn of the loop over the days. *)
Definition day_step (cookies : gmap string string) (st : acc) (day_offset : nat) : result acc :=
  html_content ← fetch_single_day day_offset cookies;
  rows ← extract_search_results html_content;
  for_each rows row_step st.

(** [xs.sort(key=...)]: the sort is stable, and a stable sort has one
    possible result (lemma [sort_by_datetime_determined]); this one is
    computed by insertion. *)
Fixpoint insert_by {A} (leb : A -> A -> bool) (x : A) (xs : list A) : list A :=
  match xs with
  | [] => [x]
  | y :: rest => if leb x y then x :: xs else y :: insert_by leb x rest
  end.

Definition sort_by {A} (leb : A -> A -> bool) (xs : list A) : list A :=
  foldr (insert_by leb) [] xs.

Definition by_datetime (a b : Screening.t) : bool :=
  Datetime.leb (Screening.datetime a) (Screening.datetime b).

(** The collection after the loop over the days and before the sort. *)
Definition gather (cookies : gmap string string) (days_ahead : Z) : result (list Screening.t) :=
  fst <$> for_each (seq 0 (Z.to_nat days_ahead)) (day_step cookies) ([], ∅).

(** Scrape screenings for a date range, day by day. *)
Definition scrape_screenings (e : Store.env) (days_ahead : Z) : M (list Screening.t) :=
  cookies ← load_cookies e "whatson.bfi.org.uk";
  all_screenings ← lift (gather cookies days_ahead);
  mret (sort_by by_datetime all_screenings).

End Scrape.


(* ================================================================== *)
(** * What the aggregation loop is fed *)
(* ================================================================== *)

(** The entry of the listing that is not a screening. *)
Definition is_placeholder (s : Screening.t) : bool :=
  Py.str_eq (Py.strip (Screening.title s)) "Library Research Session".

(** The records a day's rows contribute to the loop: the rows that decode,
    less the placeholder entries. *)
Definition decoded (rows : list row) : list Screening.t :=
  flat_map (fun r => match parse_screening r with
                     | Ok s => if is_placeholder s then [] else [s]
                     | Raise _ => []
                     end) rows.

(** The records of the day at [day_offset], when its page is fetched and
    its rows are extracted. *)
Definition day_records (get : gmap string string -> nat -> result response)
    (embedded_rows : string -> list row) (cookies : gmap string string)
    (day_offset : nat) : result (list Screening.t) :=
  html_content ← fetch_single_day get day_offset cookies;
  rows ← extract_search_results embedded_rows html_content;
  Ok (decoded rows).

(** [s] occurs in [stream] with no record of the same identifier before it. *)
Definition first_seen (s : Screening.t) (stream : list Screening.t) : Prop :=
  exists before after,
    stream = before ++ s :: after
    /\ ~ In (Screening.id s) (map Screening.id before).

(** The records of [stream] whose identifier is neither in [seen] nor
    carried by an earlier record of [stream]. *)
Fixpoint kept (seen : gset string) (stream : list Screening.t) : list Screening.t :=
  match stream with
  | [] => []
  | s :: rest =>
      if bool_decide (Screening.id s ∉ seen)
      then s :: kept ({[Screening.id s]} ∪ seen) rest
      else kept seen rest
  end.

(** The identifiers carried by the records of [stream]. *)
Definition ids (stream : list Screening.t) : gset string :=
  list_to_set (map Screening.id stream).

(** Two elements with the same sort key: each is below the other. *)
Definition same_key {A} (leb : A -> A -> bool) (x y : A) : bool :=
  leb x y && leb y x.

(** [a.datetime <= b.datetime] *)
Definition datetime_le (a b : Screening.t) : Prop := by_datetime a b = true.

(** The records of [xs] at the instant [dt], in the order of [xs]. *)
Definition at_instant (dt : Datetime.t) (xs : list Screening.t) : list Screening.t :=
  List.filter (fun s => bool_decide (Screening.datetime s = dt)) xs.

(* ================================================================== *)
(** * Concrete inputs *)
(* ================================================================== *)

(** U+00B2, superscript two. *)
Definition superscript_two : string := String (ascii_of_N 178) EmptyString.

(** Seventeen fields: the required columns of the scenario and a seat
    count that is a digit without being decimal. *)
Definition row_superscript_seats : row :=
  take 16 scenario_row_at_schema ++ [superscript_two].

(** A row of sixteen fields with the required columns only. *)
Definition required_row (id_ title_ time_ day_ month_ year_ sales_ availability_ : string) : row :=
  foldl place (replicate 16 EmptyString)
    (zip [Fields.ID; Fields.TITLE; Fields.TIME; Fields.DAY; Fields.MONTH;
          Fields.YEAR; Fields.SALES_STATUS; Fields.AVAILABILITY]
         [id_; title_; time_; day_; month_; year_; sales_; availability_]).

Definition demo_env : Store.env :=
  Store.Env (Some "/home/u/.mozilla/firefox/abc.default-release") false false
    (Some [ Store.Cookie "cf_clearance" "token" ".bfi.org.uk";
            Store.Cookie "other" "x" "example.com" ]).

Definition demo_fs : gset string :=
  {[ "/home/u/.mozilla/firefox/abc.default-release/cookies.sqlite" ]}.

(** Two days that both list identifier "999", with different availability
    codes, the second day also listing an earlier screening. *)
Definition two_days_get (cookies : gmap string string) (day_offset : nat) : result response :=
  match day_offset with
  | O => Ok (Response 200 "articleContext day0")
  | _ => Ok (Response 200 "articleContext day1")
  end.

Definition two_days_rows (html_content : string) : list row :=
  if Py.contains "day0" html_content
  then [ required_row "999" "Vertigo" "18:00" "6" "0" "2024" "S" "G" ]
  else [ required_row "999" "Vertigo" "18:00" "6" "0" "2024" "S" "S";
         required_row "1000" "Psycho" "14:30" "5" "0" "2024" "S" "L" ].

(** The venue of a row too short to name one. *)
Definition no_venue : Venue.t := Venue.mk EmptyString EmptyString EmptyString.

Definition vertigo : Screening.t :=
  Screening.mk "999" "Vertigo" (Datetime.mk 2024 1 6 18 0 0) no_venue
    Availability.GOOD SalesStatus.ON_SALE None [] None None None.

Definition psycho : Screening.t :=
  Screening.mk "1000" "Psycho" (Datetime.mk 2024 1 5 14 30 0) no_venue
    Availability.LIMITED SalesStatus.ON_SALE None [] None None None.

(** The second day's version of "999", sold out. *)
Definition vertigo_sold_out : Screening.t :=
  Screening.mk "999" "Vertigo" (Datetime.mk 2024 1 6 18 0 0) no_venue
    Availability.SOLD_OUT SalesStatus.ON_SALE None [] None None None.

Definition demo_cookies : gmap string string := {[ "cf_clearance" := "token" ]}.

(** A first day answered with status 500, a second day with a listing. *)
Definition failing_day_get (cookies : gmap string string) (day_offset : nat) : result response :=
  match day_offset with
  | O => Ok (Response 500 EmptyString)
  | _ => Ok (Response 200 "articleContext day1")
  end.

(** Stores for the exits of [load_cookies]: no cookie for the host, a
    connection that fails, a table that cannot be read. *)
Definition env_no_match : Store.env :=
  Store.Env (Some "/home/u/.mozilla/firefox/abc.default-release") false false
    (Some [Store.Cookie "other" "x" "example.com"]).

Definition env_no_connection : Store.env :=
  Store.Env (Some "/home/u/.mozilla/firefox/abc.default-release") false true
    (Some [Store.Cookie "cf_clearance" "token" ".bfi.org.uk"]).

Definition env_unreadable : Store.env :=
  Store.Env (Some "/home/u/.mozilla/firefox/abc.default-release") false false None.


(* ================================================================== *)
(** * The rest of the module *)
(* ================================================================== *)

(** ** [str.lower] *)

(** On code points below 256 [lower] works character by character: the
    letters A to Z and U+00C0 to U+00DE, the multiplication sign U+00D7
    apart, move up by 32. *)
Definition lower_char (c : ascii) : ascii :=
  let n := Py.code c in
  if ((65 <=? n) && (n <=? 90))%N
     || ((192 <=? n) && (n <=? 222) && negb (n =? 215))%N
  then ascii_of_N (n + 32)
  else c.

Fixpoint lower (s : string) : string :=
  match s with
  | EmptyString => EmptyString
  | String c r => String (lower_char c) (lower r)
  end.

(** ** Properties of a [Screening] *)

(** [self.datetime.strftime("%H:%M")] *)
Definition time_str (self : Screening.t) : string :=
  Datetime.pad2 (Datetime.hour (Screening.datetime self))
    (String ":" (Datetime.pad2 (Datetime.minute (Screening.datetime self)) EmptyString)).

(** ** The Firefox profile *)

(** What [get_firefox_profile_path] asks of the host: the platform name,
    the home directory, the APPDATA variable, whether a path exists and
    the entries of a directory, in the order [iterdir] yields them.  A
    path is the list of its components. *)
Module Host.

Record item : Type := Item { name : string; is_dir : bool }.

Record env : Type := Env
  { system : string;
    home : list string;
    APPDATA : option string;
    path_exists : list string -> bool;
    iterdir : list string -> result (list item) }.

End Host.

(** [Path(s)]: the empty string is the path with no component. *)
Definition Path (s : string) : list string :=
  if Py.truthy s then [s] else [].

Definition firefox_dir (h : Host.env) : option (list string) :=
  if Py.str_eq (Host.system h) "Linux"
  then Some (Host.home h ++ [".mozilla"; "firefox"])
  else if Py.str_eq (Host.system h) "Darwin"
  then Some (Host.home h ++ ["Library"; "Application Support"; "Firefox"; "Profiles"])
  else if Py.str_eq (Host.system h) "Windows"
  then Some (Path (default EmptyString (Host.APPDATA h)) ++ ["Mozilla"; "Firefox"; "Profiles"])
  else None.

(** [item.is_dir() and (".default" in item.name or "default" in item.name.lower())] *)
Definition is_profile_dir (i : Host.item) : bool :=
  Host.is_dir i
  && (Py.contains ".default" (Host.name i)
      || Py.contains "default" (lower (Host.name i))).

(** Find the default Firefox profile directory. *)
Definition get_firefox_profile_path (h : Host.env) : result (option (list string)) :=
  match firefox_dir h with
  | None => Ok None
  | Some dir =>
      if negb (Host.path_exists h dir) then Ok None
      else
        items ← Host.iterdir h dir;
        let profile_dirs := List.filter is_profile_dir items in
        match List.find (fun profile => Py.contains ".default-release" (Host.name profile))
                profile_dirs with
        | Some profile => Ok (Some (dir ++ [Host.name profile]))
        | None =>
            match profile_dirs with
            | profile :: _ => Ok (Some (dir ++ [Host.name profile]))
            | [] => Ok None
            end
        end
  end.

(** ** Filtering *)

(** [if criterion: results = ...] for an optional string: [None] and the
    empty string leave the results as they are. *)
Definition when_given (criterion : option string)
    (keep : string -> Screening.t -> bool) (results : list Screening.t) : list Screening.t :=
  match criterion with
  | Some c => if Py.truthy c then List.filter (keep c) results else results
  | None => results
  end.

Definition venue_matches (venue : string) (s : Screening.t) : bool :=
  let venue_lower := lower venue in
  Py.contains venue_lower (lower (Venue.short_name (Screening.venue s)))
  || Py.contains venue_lower (lower (Venue.name (Screening.venue s))).

Definition title_matches (title_contains : string) (s : Screening.t) : bool :=
  let title_lower := lower title_contains in
  Py.contains title_lower (lower (Screening.title s)).

Definition keyword_matches (keyword : string) (s : Screening.t) : bool :=
  let keyword_lower := lower keyword in
  existsb (fun k => Py.contains keyword_lower (lower k)) (Screening.keywords s).

(** Filter screenings by various criteria. *)
Definition filter_screenings (screenings : list Screening.t) (venue : option string)
    (available_only : bool) (title_contains keyword : option string) : list Screening.t :=
  let results := screenings in
  let results := when_given venue venue_matches results in
  let results :=
    if available_only then List.filter Screening.is_available results else results in
  let results := when_given title_contains title_matches results in
  let results := when_given keyword keyword_matches results in
  results.

(** ** Persistence *)

(** The catalog file holds JSON text.  The model keeps the value that
    text denotes: [json.dumps] and [json.loads] are inverse to each other
    on what [save_screenings] writes (strings, integers, [None], lists
    and dictionaries keyed by strings). *)
Inductive catval : Type :=
  | CStr (s : string)
  | CInt (z : Z)
  | CScreenings (l : list (gmap string pyval)).

(** [xs = [f(x) for x in xs]] where [f] can raise. *)
Fixpoint traverse {A B} (f : A -> result B) (xs : list A) : result (list B) :=
  match xs with
  | [] => Ok []
  | x :: rest => y ← f x; ys ← traverse f rest; Ok (y :: ys)
  end.

(** Save screenings to JSON file: [now] is [dt.datetime.now().isoformat()],
    the state is the content of the files that exist. *)
Definition save_screenings (now : string) (screenings : list Screening.t) (path : string)
    (files : gmap string (gmap string catval)) : gmap string (gmap string catval) :=
  let data : gmap string catval :=
    list_to_map
      [ ("fetched_at", CStr now);
        ("count", CInt (Z.of_nat (length screenings)));
        ("screenings", CScreenings (map Screening.to_dict screenings)) ] in
  <[path := data]> files.

(** Load screenings from JSON file. *)
Definition load_screenings (path : string)
    (files : gmap string (gmap string catval)) : result (list Screening.t) :=
  match files !! path with
  | None => Ok []
  | Some data =>
      match data !! "screenings" with
      | Some (CScreenings l) => traverse Screening.from_dict l
      | None | Some (CStr EmptyString) => Ok []
      | Some _ => Raise TypeError
      end
  end.

(* ================================================================== *)
(** * Vocabulary of the further properties *)
(* ================================================================== *)

(** The errors the row decoder can raise. *)
Definition decode_error (e : exn) : Prop :=
  e = IndexError \/ e = ValueError \/ e = OverflowError.

(** The keywords the decoder draws from the raw keyword field. *)
Definition keywords_of (keywords_raw : string) : list string :=
  filter_keywords
    (map Py.strip
       (List.filter (fun k => Py.truthy (Py.strip k)) (Py.split "," keywords_raw))).

(** The keys [from_dict] reads with [data[key]]. *)
Definition required_keys : list string :=
  [ "id"; "title"; "datetime"; "venue_id"; "venue_name"; "venue_short";
    "availability"; "sales_status" ].

(** A stored cookie whose host is searched for [domain]. *)
Definition searched (domain : string) (c : Store.cookie) : bool :=
  Py.str_in (Store.host c) (domains_to_search domain).

(** A row whose year does not fit a C [int], and a listing that holds it
    after a row that decodes. *)
Definition overflow_row : row :=
  required_row "7" "Late show" "18:00" "6" "0" "2147483648" "S" "G".

Definition overflow_rows (html_content : string) : list row :=
  [ required_row "999" "Vertigo" "18:00" "6" "0" "2024" "S" "G"; overflow_row ].

(** A store with two cookies of one name on searched hosts. *)
Definition env_two_values : Store.env :=
  Store.Env (Some "/home/u/.mozilla/firefox/abc.default-release") false false
    (Some [ Store.Cookie "sid" "old" "whatson.bfi.org.uk";
            Store.Cookie "sid" "new" ".bfi.org.uk" ]).

(** A directory entry named as a release profile. *)
Definition is_release_profile (i : Host.item) : bool :=
  is_profile_dir i && Py.contains ".default-release" (Host.name i).

(** A Firefox directory with a file, a plain profile and a release
    profile. *)
Definition linux_host : Host.env :=
  Host.Env "Linux" ["/home/u"] None
    (fun _ => true)
    (fun _ => Ok [ Host.Item "profiles.ini" false;
                   Host.Item "k3x.Default" true;
                   Host.Item "abc.default-release" true ]).

(** A criterion holds of a record when it is not given, or is the empty
    string, or matches. *)
Definition given (criterion : option string) (keep : string -> Screening.t -> bool)
    (s : Screening.t) : bool :=
  match criterion with
  | Some c => if Py.truthy c then keep c s else true
  | None => true
  end.

(** The conjunction of the criteria of [filter_screenings]. *)
Definition satisfies (venue : option string) (available_only : bool)
    (title_contains keyword : option string) (s : Screening.t) : bool :=
  given venue venue_matches s
  && (negb available_only || Screening.is_available s)
  && given title_contains title_matches s
  && given keyword keyword_matches s.

(** Records for the filter: two venues, one sold out. *)
Definition rear_window : Screening.t :=
  Screening.mk "1001" "Rear Window" (Datetime.mk 2024 1 5 20 45 0)
    (Venue.mk "v2" "BFI IMAX" "IMAX") Availability.SOLD_OUT SalesStatus.ON_SALE
    (Some 0) ["Hitchcock"; "35mm"] None None None.

Definition the_birds : Screening.t :=
  Screening.mk "1002" "The Birds" (Datetime.mk 2024 1 7 18 10 0)
    (Venue.mk "v1" "NFT1" "NFT1") Availability.GOOD SalesStatus.ON_SALE
    (Some 120) ["Hitchcock"] None None None.
(* ================================================================== *)
(** * The embedding on concrete inputs *)
(* ================================================================== *)

Example int_forms :
  map Py.int ["42"; " -7 "; "1_000"; "007"; "+5"]
  = [Ok 42; Ok (-7); Ok 1000; Ok 7; Ok 5]
  /\ map Py.int [EmptyString; "v1"; "1__0"; "_1"; "1_"; "+ 5"; "5.0"]
     = repeat (Raise ValueError) 7.
Proof. split; reflexivity. Qed.

Example split_forms :
  Py.split "," EmptyString = [EmptyString] /\ Py.split "," "a,,b" = ["a"; EmptyString; "b"]
  /\ Py.split "," "Previews, Q&A" = ["Previews"; " Q&A"].
Proof. repeat split; reflexivity. Qed.

Example unescape_forms :
  map Html.unescape
    ["Film &amp; Title"; "&ampfoo"; "&amp"; "&am;"; "&#;"; "&#x41"; "&#65x";
     "&&amp;"; "& amp;"; "&Amp;"; "&#0065;"; "a &lt; b &gt; c"]
  = ["Film & Title"; "&foo"; "&"; "&am;"; "&#;"; "A"; "Ax";
     "&&"; "& amp;"; "&Amp;"; "A"; "a < b > c"].
Proof. reflexivity. Qed.

Example unescape_numeric :
  Html.unescape "&#178;" = superscript_two /\ Html.unescape "&#xB2" = superscript_two
  /\ Html.unescape "a&#7;b" = "ab" /\ Html.unescape "&#128;" = "&#128;".
Proof. repeat split; reflexivity. Qed.

Example datetime_forms :
  Datetime.isoformat (Datetime.mk 2024 1 5 14 30 0) = "2024-01-05T14:30:00"
  /\ Datetime.fromisoformat "2024-01-05T14:30:00" = Ok (Datetime.mk 2024 1 5 14 30 0)
  /\ Datetime.datetime 2023 2 29 0 0 = Raise ValueError
  /\ Datetime.datetime 2024 2 29 23 59 = Ok (Datetime.mk 2024 2 29 23 59 0)
  /\ Datetime.datetime 2024 1 5 (2 ^ 31) 0 = Raise OverflowError.
Proof. repeat split; reflexivity. Qed.

(* ================================================================== *)
(** * Properties of the built-ins *)
(* ================================================================== *)

Section Strings.

Variable ws : ascii -> bool.

Lemma rstrip_by_keep c r :
  ws c = false -> Py.rstrip_by ws (String c r) = String c (Py.rstrip_by ws r).
Proof. intros Hc. simpl. rewrite Hc. now destruct (Py.rstrip_by ws r). Qed.

Lemma rstrip_by_idem s : Py.rstrip_by ws (Py.rstrip_by ws s) = Py.rstrip_by ws s.
Proof.
  induction s as [| c r IH]; [reflexivity |].
  simpl. destruct (Py.rstrip_by ws r) as [| c' r'] eqn:E.
  - destruct (ws c) eqn:Hc; [reflexivity |]. simpl. now rewrite Hc.
  - simpl in IH |- *. now rewrite IH.
Qed.

Lemma lstrip_by_head s :
  match Py.lstrip_by ws s with
  | EmptyString => True
  | String c _ => ws c = false
  end.
Proof.
  induction s as [| c r IH]; [exact I |].
  simpl. destruct (ws c) eqn:Hc; [exact IH | exact Hc].
Qed.

Lemma lstrip_by_fixed c r : ws c = false -> Py.lstrip_by ws (String c r) = String c r.
Proof. intros Hc. simpl. now rewrite Hc. Qed.

Lemma strip_by_idem s : Py.strip_by ws (Py.strip_by ws s) = Py.strip_by ws s.
Proof.
  unfold Py.strip_by. pose proof (lstrip_by_head s) as Hh.
  destruct (Py.lstrip_by ws s) as [| c r]; [reflexivity |].
  rewrite (rstrip_by_keep _ _ Hh), (lstrip_by_fixed _ _ Hh).
  rewrite <- (rstrip_by_keep _ _ Hh). apply rstrip_by_idem.
Qed.

End Strings.

Lemma strip_idem s : Py.strip (Py.strip s) = Py.strip s.
Proof. apply strip_by_idem. Qed.

Lemma str_eq_true a b : Py.str_eq a b = true <-> a = b.
Proof. apply String.eqb_eq. Qed.

Lemma str_eq_refl a : Py.str_eq a a = true.
Proof. apply String.eqb_refl. Qed.

Lemma filter_idem {A} (p : A -> bool) xs :
  List.filter p (List.filter p xs) = List.filter p xs.
Proof.
  induction xs as [| x xs IH]; [reflexivity |].
  cbn [List.filter]. destruct (p x) eqn:E; [| exact IH].
  cbn [List.filter]. now rewrite E, IH.
Qed.

Lemma filter_keywords_idem ks : filter_keywords (filter_keywords ks) = filter_keywords ks.
Proof. apply filter_idem. Qed.

Lemma normalise_venue_short_idem short :
  normalise_venue_short (normalise_venue_short short) = normalise_venue_short short.
Proof.
  destruct short as [| c r]; [reflexivity |].
  set (short := String c r).
  assert (normalise_venue_short short
          = if Py.str_in (Py.strip short) ["Southbank NFT2 GA"; "NFT2 GA"]
            then "NFT2" else Py.strip short) as -> by reflexivity.
  destruct (Py.str_in (Py.strip short) _) eqn:E; [reflexivity |].
  unfold normalise_venue_short.
  destruct (Py.truthy (Py.strip short)) eqn:T; cbn [negb].
  - now rewrite strip_idem, E.
  - destruct (Py.strip short); [reflexivity | discriminate].
Qed.

Lemma availability_from_code_value a : Availability.from_code (Availability.value a) = a.
Proof. now destruct a. Qed.

Lemma sales_status_from_code_value a : SalesStatus.from_code (SalesStatus.value a) = a.
Proof. now destruct a. Qed.

(** ** Reading back what [isoformat] writes *)

Ltac div_lia := Z.div_mod_to_equations; lia.

Lemma decimal_digit k :
  0 <= k < 10 -> Py.decimal (ascii_of_N (Z.to_N (48 + k))) = Some k.
Proof.
  intros H.
  assert (k = 0 \/ k = 1 \/ k = 2 \/ k = 3 \/ k = 4 \/ k = 5 \/ k = 6
          \/ k = 7 \/ k = 8 \/ k = 9) as Hk by lia.
  repeat (destruct Hk as [-> | Hk]; [reflexivity |]). now subst.
Qed.

Lemma decimal_of_digit n : Py.decimal (Datetime.digit n) = Some (n mod 10).
Proof. apply decimal_digit, Z.mod_pos_bound. lia. Qed.

Lemma num2_pad2 n :
  0 <= n < 100 -> Datetime.num2 (Datetime.digit (n / 10)) (Datetime.digit n) = Some n.
Proof.
  intros H. unfold Datetime.num2. rewrite !decimal_of_digit. cbn.
  f_equal. div_lia.
Qed.

Lemma num4_pad4 n :
  0 <= n < 10000 ->
  Datetime.num4 (Datetime.digit (n / 1000)) (Datetime.digit (n / 100))
                (Datetime.digit (n / 10)) (Datetime.digit n) = Some n.
Proof.
  intros H. unfold Datetime.num4, Datetime.num2. rewrite !decimal_of_digit. cbn.
  f_equal. div_lia.
Qed.

Lemma make_ok y m d hh mm ss dt :
  Datetime.make y m d hh mm ss = Ok dt ->
  dt = Datetime.mk y m d hh mm ss /\ Datetime.in_range y m d hh mm ss = true.
Proof.
  unfold Datetime.make. destruct (forallb _ _); [| discriminate].
  destruct (Datetime.in_range _ _ _ _ _ _); [| discriminate].
  intros [= <-]. now split.
Qed.

Lemma fromisoformat_isoformat y m d hh mm ss dt :
  Datetime.make y m d hh mm ss = Ok dt ->
  Datetime.fromisoformat (Datetime.isoformat dt) = Ok dt.
Proof.
  intros Hmk. destruct (make_ok _ _ _ _ _ _ _ Hmk) as [-> Hr].
  pose proof Hr as Hr'. unfold Datetime.in_range in Hr'.
  repeat (apply andb_prop in Hr' as [Hr' ?]).
  assert (Datetime.days_in_month y m <= 31).
  { unfold Datetime.days_in_month.
    destruct (Datetime.is_leap y); repeat case_bool_decide; lia. }
  unfold Datetime.isoformat, Datetime.fromisoformat, Datetime.pad4, Datetime.pad2.
  cbn [list_ascii_of_string Datetime.year Datetime.month Datetime.day
       Datetime.hour Datetime.minute Datetime.second].
  cbn [Ascii.eqb Bool.eqb andb].
  rewrite num4_pad4, !num2_pad2 by lia.
  exact Hmk.
Qed.

(** ** Inversion of the result monad *)

Lemma bind_ok {A B} (m : result A) (f : A -> result B) b :
  m ≫= f = Ok b -> exists a, m = Ok a /\ f a = Ok b.
Proof. destruct m as [a | e]; [| discriminate]. intros H. now exists a. Qed.

Lemma fmap_ok {A B} (f : A -> B) (m : result A) b :
  f <$> m = Ok b -> exists a, m = Ok a /\ b = f a.
Proof. destruct m as [a | e]; [| discriminate]. intros [= <-]. now exists a. Qed.

Ltac inv_ok H :=
  let a := fresh "a" in
  let Ha := fresh "H" a in
  first
    [ apply bind_ok in H as (a & Ha & H)
    | apply fmap_ok in H as (a & Ha & H) ].

(** What a decoded record is made of. *)
Lemma parse_screening_ok r s :
  parse_screening r = Ok s ->
  screening_dt r = Ok (Screening.datetime s)
  /\ (exists raw, Screening.keywords s = filter_keywords raw)
  /\ (exists short, Venue.short_name (Screening.venue s) = normalise_venue_short short).
Proof.
  unfold parse_screening. intros H.
  repeat inv_ok H. injection H as <-. cbn.
  split; [assumption |]. split; eauto.
Qed.

Lemma screening_dt_ok r dt :
  screening_dt r = Ok dt -> exists y m d hh mm, Datetime.make y m d hh mm 0 = Ok dt.
Proof.
  unfold screening_dt. intros H. repeat inv_ok H.
  unfold Datetime.datetime in H. eauto 6.
Qed.

(** ** The persisted dictionary *)

Lemma from_dict_to_dict s :
  Screening.from_dict (Screening.to_dict s)
  = (dt ← Datetime.fromisoformat (Datetime.isoformat (Screening.datetime s));
     Ok (Screening.mk (Screening.id s) (Screening.title s) dt
           (Venue.mk (Venue.id (Screening.venue s)) (Venue.name (Screening.venue s))
              (normalise_venue_short (Venue.short_name (Screening.venue s))))
           (Availability.from_code (Availability.value (Screening.availability s)))
           (SalesStatus.from_code (SalesStatus.value (Screening.sales_status s)))
           (Screening.seats_available s)
           (filter_keywords (Screening.keywords s))
           (Screening.min_price s) (Screening.max_price s) (Screening.article_url s))).
Proof.
  unfold Screening.from_dict, Screening.item, Screening.get_int,
    Screening.get_str, Screening.get_list.
  replace (Screening.to_dict s !! "id") with (Some (VStr (Screening.id s))) by reflexivity.
  replace (Screening.to_dict s !! "title") with (Some (VStr (Screening.title s))) by reflexivity.
  replace (Screening.to_dict s !! "datetime")
    with (Some (VStr (Datetime.isoformat (Screening.datetime s)))) by reflexivity.
  replace (Screening.to_dict s !! "venue_id")
    with (Some (VStr (Venue.id (Screening.venue s)))) by reflexivity.
  replace (Screening.to_dict s !! "venue_name")
    with (Some (VStr (Venue.name (Screening.venue s)))) by reflexivity.
  replace (Screening.to_dict s !! "venue_short")
    with (Some (VStr (Venue.short_name (Screening.venue s)))) by reflexivity.
  replace (Screening.to_dict s !! "availability")
    with (Some (VStr (Availability.value (Screening.availability s)))) by reflexivity.
  replace (Screening.to_dict s !! "sales_status")
    with (Some (VStr (SalesStatus.value (Screening.sales_status s)))) by reflexivity.
  replace (Screening.to_dict s !! "seats_available")
    with (Some (Screening.opt_int (Screening.seats_available s))) by reflexivity.
  replace (Screening.to_dict s !! "keywords")
    with (Some (VList (Screening.keywords s))) by reflexivity.
  replace (Screening.to_dict s !! "min_price")
    with (Some (Screening.opt_str (Screening.min_price s))) by reflexivity.
  replace (Screening.to_dict s !! "max_price")
    with (Some (Screening.opt_str (Screening.max_price s))) by reflexivity.
  replace (Screening.to_dict s !! "article_url")
    with (Some (Screening.opt_str (Screening.article_url s))) by reflexivity.
  cbn [mbind result_bind].
  destruct (Datetime.fromisoformat _) as [dt | e]; [| reflexivity].
  now destruct (Screening.seats_available s), (Screening.min_price s),
    (Screening.max_price s), (Screening.article_url s).
Qed.

(** ** The temporary copy of the cookie store *)

Example load_cookies_exits :
  load_cookies demo_env "whatson.bfi.org.uk" demo_fs
    = (Ok {[ "cf_clearance" := "token" ]}, demo_fs)
  /\ load_cookies env_no_match "whatson.bfi.org.uk" demo_fs = (Raise no_cookies, demo_fs)
  /\ load_cookies env_no_connection "whatson.bfi.org.uk" demo_fs = (Raise DatabaseError, demo_fs)
  /\ load_cookies env_unreadable "whatson.bfi.org.uk" demo_fs = (Raise DatabaseError, demo_fs)
  /\ load_cookies demo_env "whatson.bfi.org.uk" ∅ = (Raise no_database, ∅).
Proof. repeat split; vm_compute; reflexivity. Qed.

Lemma run_bind {A B} (m : M A) (f : A -> M B) fs :
  (m ≫= f) fs = match m fs with
                | (Ok a, fs') => f a fs'
                | (Raise e, fs') => (Raise e, fs')
                end.
Proof. reflexivity. Qed.

Lemma run_path_exists path fs :
  path_exists path fs = (Ok (bool_decide (path ∈ fs)), fs).
Proof. reflexivity. Qed.

(** The [finally] clause never raises and removes the temporary copy. *)
Lemma remove_temp_run fs : remove_temp fs = (Ok (), fs ∖ {[temp_db]}).
Proof.
  unfold remove_temp. rewrite run_bind, run_path_exists.
  case_bool_decide as Hin.
  - unfold unlink. now rewrite (bool_decide_eq_true_2 _ Hin).
  - unfold mret, M_ret. f_equal. set_solver.
Qed.

(** The [try] body reads the store and touches no file. *)
Lemma query_store_files e domain fs : (query_store e domain fs).2 = fs.
Proof.
  unfold query_store. rewrite run_bind. unfold lift at 1.
  destruct (Store.connect_fails e); [reflexivity |].
  rewrite run_bind. unfold lift.
  destruct (select_cookies e (domains_to_search domain)); [| reflexivity].
  now case_bool_decide.
Qed.

Lemma try_finally_files {A} (body : M A) fs :
  (try_finally body remove_temp fs).2 = (body fs).2 ∖ {[temp_db]}.
Proof.
  unfold try_finally. destruct (body fs) as [r fs1].
  now rewrite remove_temp_run.
Qed.

Lemma try_finally_result {A} (body : M A) fs :
  (try_finally body remove_temp fs).1 = (body fs).1.
Proof.
  unfold try_finally. destruct (body fs) as [r fs1].
  now rewrite remove_temp_run.
Qed.

(** ** The stable sort *)

Section Sorting.

Context {A : Type} (leb : A -> A -> bool).

Lemma insert_by_perm x xs : Permutation (x :: xs) (insert_by leb x xs).
Proof.
  induction xs as [| y rest IH]; cbn; [reflexivity |].
  destruct (leb x y); [reflexivity |].
  rewrite perm_swap. now apply perm_skip.
Qed.

Lemma sort_by_perm xs : Permutation xs (sort_by leb xs).
Proof.
  induction xs as [| x rest IH]; cbn; [constructor |].
  rewrite <- insert_by_perm. now apply perm_skip.
Qed.

Hypothesis leb_total : forall a b, leb a b = true \/ leb b a = true.

Lemma insert_by_sorted x xs :
  Sorted (fun a b => leb a b = true) xs ->
  Sorted (fun a b => leb a b = true) (insert_by leb x xs).
Proof.
  induction xs as [| y rest IH]; cbn; intros Hs.
  - repeat constructor.
  - destruct (leb x y) eqn:E.
    + constructor; [assumption | now constructor].
    + apply Sorted_inv in Hs as [Hrest Hhd].
      constructor; [now apply IH |].
      destruct rest as [| z rest']; cbn.
      * constructor. destruct (leb_total x y); congruence.
      * destruct (leb x z).
        -- constructor. destruct (leb_total x y); congruence.
        -- constructor. now apply HdRel_inv in Hhd.
Qed.

Lemma sort_by_sorted xs : Sorted (fun a b => leb a b = true) (sort_by leb xs).
Proof.
  induction xs as [| x rest IH]; cbn; [constructor |].
  now apply insert_by_sorted.
Qed.

(** Stability: a class [p] of records that are below one another keeps
    its order. *)
Variable p : A -> bool.
Hypothesis p_leb : forall a b, p a = true -> p b = true -> leb a b = true.

Lemma insert_by_filter x xs :
  List.filter p (insert_by leb x xs) = List.filter p (x :: xs).
Proof.
  induction xs as [| y rest IH]; [reflexivity |].
  cbn [insert_by]. destruct (leb x y) eqn:E; [reflexivity |].
  cbn [List.filter] in IH |- *. rewrite IH.
  destruct (p x) eqn:Px, (p y) eqn:Py; try reflexivity.
  rewrite (p_leb x y Px Py) in E. discriminate.
Qed.

Lemma sort_by_filter xs : List.filter p (sort_by leb xs) = List.filter p xs.
Proof.
  induction xs as [| x rest IH]; [reflexivity |].
  cbn [sort_by foldr]. fold (sort_by leb rest).
  rewrite insert_by_filter. cbn [List.filter]. now rewrite IH.
Qed.

End Sorting.

(** A stable sort has one possible result: two sorted rearrangements of a
    list that keep the order within every class of equal keys are the
    same list.  [list.sort] is stable, so [sort_by] returns what it
    returns, whatever the algorithm. *)
Section StableUnique.

Context {A : Type} (leb : A -> A -> bool).

Hypothesis leb_trans : forall a b c, leb a b = true -> leb b c = true -> leb a c = true.

Lemma sorted_head_least a xs y :
  Sorted (fun a b => leb a b = true) (a :: xs) -> In y xs -> leb a y = true.
Proof.
  intros Hs Hy. apply Sorted_StronglySorted in Hs.
  - apply StronglySorted_inv in Hs as [_ Hall].
    rewrite List.Forall_forall in Hall. now apply Hall.
  - intros x1 x2 x3. apply leb_trans.
Qed.

Lemma stable_sorted_unique xs ys :
  Sorted (fun a b => leb a b = true) xs ->
  Sorted (fun a b => leb a b = true) ys ->
  Permutation xs ys ->
  (forall x, List.filter (same_key leb x) xs = List.filter (same_key leb x) ys) ->
  xs = ys.
Proof.
  revert ys. induction xs as [| a xs IH]; intros ys Hxs Hys Hperm Hst.
  - now apply Permutation_nil in Hperm.
  - destruct ys as [| b ys]; [now apply Permutation_sym, Permutation_nil in Hperm |].
    assert (a = b) as <-.
    { assert (In a (b :: ys)) as [Heq | Ha]
        by (apply (Permutation_in a Hperm); now left); [now symmetry |].
      assert (In b (a :: xs)) as [Heq | Hb]
        by (apply (Permutation_in b (Permutation_sym Hperm)); now left);
        [assumption |].
      pose proof (sorted_head_least _ _ _ Hys Ha) as Hba.
      pose proof (sorted_head_least _ _ _ Hxs Hb) as Hab.
      pose proof (leb_trans _ _ _ Hab Hba) as Haa.
      specialize (Hst a). cbn in Hst. unfold same_key in Hst.
      rewrite Haa, Hab, Hba in Hst. cbn in Hst. now injection Hst. }
    f_equal. apply IH.
    + now apply Sorted_inv in Hxs.
    + now apply Sorted_inv in Hys.
    + now apply Permutation_cons_inv in Hperm.
    + intros x. specialize (Hst x). cbn in Hst.
      destruct (same_key leb x a); [now injection Hst | exact Hst].
Qed.

Hypothesis leb_total : forall a b, leb a b = true \/ leb b a = true.

Lemma sort_by_unique xs ys :
  Sorted (fun a b => leb a b = true) ys ->
  Permutation xs ys ->
  (forall x, List.filter (same_key leb x) ys = List.filter (same_key leb x) xs) ->
  ys = sort_by leb xs.
Proof.
  intros Hys Hperm Hst. apply stable_sorted_unique; [assumption | | |].
  - now apply sort_by_sorted.
  - rewrite <- Hperm. apply sort_by_perm.
  - intros x. rewrite Hst. symmetry. apply sort_by_filter.
    unfold same_key. intros a b [_ Ha]%andb_true_iff [Hb _]%andb_true_iff.
    exact (leb_trans _ _ _ Ha Hb).
Qed.

End StableUnique.

Lemma tuple_leb_total a b :
  length a = length b -> Datetime.tuple_leb a b = true \/ Datetime.tuple_leb b a = true.
Proof.
  revert b. induction a as [| x a IH]; intros [| y b] Hlen; try discriminate; cbn.
  - now left.
  - injection Hlen as Hlen. destruct (IH b Hlen) as [H | H]; rewrite H;
      destruct (Z.ltb_spec x y), (Z.ltb_spec y x), (Z.eqb_spec x y), (Z.eqb_spec y x);
      cbn; try lia; auto.
Qed.

Lemma tuple_leb_refl a : Datetime.tuple_leb a a = true.
Proof.
  induction a as [| x a IH]; [reflexivity |].
  cbn. rewrite IH, Z.eqb_refl. now destruct (x <? x).
Qed.

Lemma tuple_leb_trans a b c :
  Datetime.tuple_leb a b = true -> Datetime.tuple_leb b c = true ->
  Datetime.tuple_leb a c = true.
Proof.
  revert b c. induction a as [| x a IH]; intros [| y b] [| z c]; cbn;
    try (reflexivity || discriminate).
  intros Hab Hbc.
  apply orb_true_iff in Hab as [Hab | [Hab Hab']%andb_true_iff];
    apply orb_true_iff in Hbc as [Hbc | [Hbc Hbc']%andb_true_iff];
    apply orb_true_iff;
    rewrite ?Z.ltb_lt, ?Z.eqb_eq, ?andb_true_iff, ?Z.ltb_lt, ?Z.eqb_eq in *.
  - left. lia.
  - left. lia.
  - left. lia.
  - right. split; [lia | now apply (IH b c)].
Qed.

Lemma by_datetime_trans a b c :
  by_datetime a b = true -> by_datetime b c = true -> by_datetime a c = true.
Proof. apply tuple_leb_trans. Qed.

Lemma by_datetime_total a b : by_datetime a b = true \/ by_datetime b a = true.
Proof. now apply tuple_leb_total. Qed.

Lemma by_datetime_same a b :
  Screening.datetime a = Screening.datetime b -> by_datetime a b = true.
Proof. unfold by_datetime, Datetime.leb. intros ->. apply tuple_leb_refl. Qed.

(** Whatever stable sort orders the collection by date-time, it returns
    the list [sort_by by_datetime] returns. *)
Lemma sort_by_datetime_determined (xs ys : list Screening.t) :
  Sorted datetime_le ys ->
  Permutation xs ys ->
  (forall x, List.filter (same_key by_datetime x) ys
             = List.filter (same_key by_datetime x) xs) ->
  ys = sort_by by_datetime xs.
Proof.
  apply sort_by_unique.
  - apply by_datetime_trans.
  - apply by_datetime_total.
Qed.

(** ** First seen wins *)

Lemma elem_of_ids i stream : i ∈ ids stream <-> In i (map Screening.id stream).
Proof. unfold ids. now rewrite elem_of_list_to_set, list_elem_of_In. Qed.

Lemma ids_app xs ys : ids (xs ++ ys) = ids xs ∪ ids ys.
Proof. unfold ids. rewrite map_app. set_solver. Qed.

Lemma ids_nil : ids [] = ∅.
Proof. reflexivity. Qed.

Lemma ids_cons x xs : ids (x :: xs) = {[Screening.id x]} ∪ ids xs.
Proof. reflexivity. Qed.

Lemma kept_app seen xs ys :
  kept seen (xs ++ ys) = kept seen xs ++ kept (seen ∪ ids xs) ys.
Proof.
  revert seen. induction xs as [| x xs IH]; intros seen; cbn [kept app].
  - rewrite ids_nil. do 2 f_equal. set_solver.
  - rewrite ids_cons.
    replace (seen ∪ ({[Screening.id x]} ∪ ids xs))
      with ({[Screening.id x]} ∪ seen ∪ ids xs) by set_solver.
    case_bool_decide as Hx; rewrite IH; [reflexivity |].
    do 2 f_equal. set_solver.
Qed.

Lemma kept_fresh seen xs s :
  In s (kept seen xs) -> Screening.id s ∉ seen.
Proof.
  revert seen. induction xs as [| x xs IH]; intros seen; cbn; [tauto |].
  case_bool_decide as Hx.
  - intros [<- | Hin]; [assumption |]. apply IH in Hin. set_solver.
  - apply IH.
Qed.

Lemma kept_NoDup seen xs : NoDup (map Screening.id (kept seen xs)).
Proof.
  revert seen. induction xs as [| x xs IH]; intros seen; cbn; [constructor |].
  case_bool_decide; [| apply IH].
  cbn. constructor; [| apply IH].
  rewrite list_elem_of_In, in_map_iff. intros (s & Hid & Hin).
  apply kept_fresh in Hin. set_solver.
Qed.

Lemma kept_first_seen seen xs s :
  In s (kept seen xs) <->
  exists before after,
    xs = before ++ s :: after
    /\ ~ In (Screening.id s) (map Screening.id before)
    /\ Screening.id s ∉ seen.
Proof.
  revert seen. induction xs as [| x xs IH]; intros seen; cbn.
  - split; [tauto |]. intros (before & after & Heq & _). now destruct before.
  - case_bool_decide as Hx.
    + cbn. rewrite IH. split.
      * intros [<- | (before & after & -> & Hb & Hs)].
        -- exists [], xs. cbn. auto.
        -- exists (x :: before), after. cbn. split; [reflexivity |].
           split; [| set_solver]. intros [Heq | Hin]; [| tauto]. set_solver.
      * intros (before & after & Heq & Hb & Hs).
        destruct before as [| b before]; cbn in Heq; injection Heq as -> ->.
        -- now left.
        -- right. exists before, after. cbn in Hb. split; [reflexivity |].
           split; [tauto |]. set_solver.
    + rewrite IH. split.
      * intros (before & after & -> & Hb & Hs).
        exists (x :: before), after. cbn. split; [reflexivity |].
        split; [| assumption]. intros [Heq | Hin]; [| tauto].
        apply Hs. now rewrite <- Heq.
      * intros (before & after & Heq & Hb & Hs).
        destruct before as [| b before]; cbn in Heq; injection Heq as -> ->.
        -- contradiction.
        -- exists before, after. cbn in Hb. tauto.
Qed.

(** ** The loops of [scrape_screenings] *)

Section Loops.

Variable get : gmap string string -> nat -> result response.
Variable embedded_rows : string -> list row.
Variable cookies : gmap string string.

Lemma for_each_app {X S} (xs ys : list X) (body : S -> X -> result S) st :
  for_each (xs ++ ys) body st = for_each xs body st ≫= for_each ys body.
Proof.
  revert st. induction xs as [| x xs IH]; intros st; [reflexivity |].
  cbn [app for_each]. destruct (body st x) as [st' | e]; [apply IH | reflexivity].
Qed.

(** A turn over a row that completes keeps what the row contributes. *)
Lemma row_step_ok st r st' :
  row_step st r = Ok st' ->
  st'.1 = st.1 ++ kept st.2 (decoded [r])
  /\ st'.2 = st.2 ∪ ids (decoded [r]).
Proof.
  unfold row_step, decoded. cbn [flat_map]. rewrite app_nil_r.
  fold (is_placeholder).
  destruct (parse_screening r) as [s | e].
  - change (Py.str_eq (Py.strip (Screening.title s)) "Library Research Session")
      with (is_placeholder s).
    destruct (is_placeholder s).
    + intros [= <-]. cbn. rewrite app_nil_r. split; [reflexivity |].
      unfold ids. set_solver.
    + cbn [kept]. case_bool_decide as Hs; intros [= <-]; cbn.
      * split; [reflexivity |]. unfold ids. cbn. set_solver.
      * rewrite app_nil_r. split; [reflexivity |]. unfold ids. cbn. set_solver.
  - destruct e; try discriminate; intros [= <-]; cbn; rewrite app_nil_r;
      (split; [reflexivity |]); unfold ids; set_solver.
Qed.

Lemma decoded_cons r rows : decoded (r :: rows) = decoded [r] ++ decoded rows.
Proof. unfold decoded. cbn [flat_map]. now rewrite app_nil_r. Qed.

Lemma rows_loop_ok rows st st' :
  for_each rows row_step st = Ok st' ->
  st'.1 = st.1 ++ kept st.2 (decoded rows)
  /\ st'.2 = st.2 ∪ ids (decoded rows).
Proof.
  revert st. induction rows as [| r rows IH]; intros st; cbn [for_each].
  - intros [= <-]. cbn. rewrite app_nil_r. split; [reflexivity |].
    unfold ids. set_solver.
  - intros H. inv_ok H. apply row_step_ok in Ha as [Ha1 Ha2].
    apply IH in H as [H1 H2].
    rewrite decoded_cons, kept_app, ids_app, H1, H2, Ha1, Ha2.
    rewrite <- app_assoc. split; [reflexivity | set_solver].
Qed.

Lemma day_step_ok st i st' :
  day_step get embedded_rows cookies st i = Ok st' ->
  exists recs,
    day_records get embedded_rows cookies i = Ok recs
    /\ st'.1 = st.1 ++ kept st.2 recs
    /\ st'.2 = st.2 ∪ ids recs.
Proof.
  unfold day_step, day_records. intros H. repeat inv_ok H.
  rewrite Ha. cbn. rewrite Ha0. cbn.
  exists (decoded a0). split; [reflexivity |]. now apply rows_loop_ok.
Qed.

Lemma days_loop_ok offsets st st' :
  for_each offsets (day_step get embedded_rows cookies) st = Ok st' ->
  exists days,
    Forall2 (fun i recs => day_records get embedded_rows cookies i = Ok recs)
      offsets days
    /\ st'.1 = st.1 ++ kept st.2 (concat days)
    /\ st'.2 = st.2 ∪ ids (concat days).
Proof.
  revert st. induction offsets as [| i offsets IH]; intros st; cbn [for_each].
  - intros [= <-]. exists []. cbn. rewrite app_nil_r.
    split; [constructor |]. split; [reflexivity |]. unfold ids. set_solver.
  - intros H. inv_ok H.
    apply day_step_ok in Ha as (recs & Hrecs & Ha1 & Ha2).
    apply IH in H as (days & Hdays & H1 & H2).
    exists (recs :: days). split; [now constructor |].
    cbn [concat]. rewrite kept_app, ids_app, H1, H2, Ha1, Ha2.
    rewrite <- app_assoc. split; [reflexivity | set_solver].
Qed.

Lemma gather_ok days_ahead all_screenings :
  gather get embedded_rows cookies days_ahead = Ok all_screenings ->
  exists days,
    Forall2 (fun i recs => day_records get embedded_rows cookies i = Ok recs)
      (seq 0 (Z.to_nat days_ahead)) days
    /\ all_screenings = kept ∅ (concat days).
Proof.
  unfold gather. intros H. inv_ok H. injection H as <-.
  apply days_loop_ok in Ha as (days & Hdays & H1 & _).
  exists days. split; [assumption |]. now rewrite H1.
Qed.

(** A day that raises ends the loop over the days with its error. *)
Lemma gather_raises days_ahead i st e :
  (i < Z.to_nat days_ahead)%nat ->
  for_each (seq 0 i) (day_step get embedded_rows cookies) ([], ∅) = Ok st ->
  fetch_single_day get i cookies ≫= extract_search_results embedded_rows = Raise e ->
  gather get embedded_rows cookies days_ahead = Raise e.
Proof.
  intros Hi Hbefore Hday. unfold gather.
  replace (Z.to_nat days_ahead) with (i + S (Z.to_nat days_ahead - S i))%nat by lia.
  rewrite seq_app, for_each_app, Hbefore. cbn [mbind result_bind plus seq for_each].
  unfold day_step.
  destruct (fetch_single_day get i cookies) as [html_content | e']; cbn in Hday |- *.
  - now rewrite Hday.
  - now injection Hday as ->.
Qed.

End Loops.

Lemma scrape_screenings_ok get embedded_rows e days_ahead fs result :
  (scrape_screenings get embedded_rows e days_ahead fs).1 = Ok result ->
  exists cookies all_screenings,
    (load_cookies e "whatson.bfi.org.uk" fs).1 = Ok cookies
    /\ gather get embedded_rows cookies days_ahead = Ok all_screenings
    /\ result = sort_by by_datetime all_screenings.
Proof.
  unfold scrape_screenings. rewrite run_bind.
  destruct (load_cookies e "whatson.bfi.org.uk" fs) as [[cookies | err] fs1];
    [| discriminate].
  rewrite run_bind. unfold lift.
  destruct (gather get embedded_rows cookies days_ahead)
    as [all_screenings | err] eqn:Hg; [| discriminate].
  unfold mret, M_ret. cbn [fst]. intros [= <-].
  exists cookies, all_screenings. repeat split. exact Hg.
Qed.

Example two_days_same_identifier :
  day_records two_days_get two_days_rows demo_cookies 0 = Ok [vertigo]
  /\ day_records two_days_get two_days_rows demo_cookies 1 = Ok [vertigo_sold_out; psycho]
  /\ gather two_days_get two_days_rows demo_cookies 2 = Ok [vertigo; psycho]
  /\ (scrape_screenings two_days_get two_days_rows demo_env 2 demo_fs).1
     = Ok [psycho; vertigo].
Proof. repeat split; vm_compute; reflexivity. Qed.

(** ** Rows shorter than the price columns *)

Lemma is_dec_not_space c : Html.is_dec c = true -> Py.int_space c = false.
Proof. destruct c as [[] [] [] [] [] [] [] []]; (reflexivity || discriminate). Qed.

Lemma is_dec_not_sign c :
  Html.is_dec c = true -> Ascii.eqb c "-" = false /\ Ascii.eqb c "+" = false.
Proof.
  destruct c as [[] [] [] [] [] [] [] []]; (now split) || discriminate.
Qed.

Lemma is_dec_decimal c : Html.is_dec c = true -> exists d, Py.decimal c = Some d.
Proof.
  unfold Html.is_dec. intros H. apply bool_decide_eq_true_1 in H as [d Hd]. eauto.
Qed.

Lemma rstrip_by_fixed ws s :
  Py.all_chars (fun c => negb (ws c)) s = true -> Py.rstrip_by ws s = s.
Proof.
  induction s as [| c r IH]; [reflexivity |].
  cbn [Py.all_chars]. intros [Hc Hr]%andb_true_iff.
  apply negb_true_iff in Hc. now rewrite rstrip_by_keep, IH.
Qed.

Lemma all_chars_impl (p q : ascii -> bool) s :
  (forall c, p c = true -> q c = true) ->
  Py.all_chars p s = true -> Py.all_chars q s = true.
Proof.
  intros Hpq. induction s as [| c r IH]; [reflexivity |].
  cbn. intros [Hc Hr]%andb_true_iff. now rewrite (Hpq c Hc), IH.
Qed.

Lemma int_digits_decimal acc s :
  Py.all_chars Html.is_dec s = true -> exists n, Py.int_digits acc s = Some n.
Proof.
  revert acc. induction s as [| c r IH]; intros acc; cbn; [eauto |].
  intros [Hc Hr]%andb_true_iff.
  destruct (is_dec_decimal c Hc) as [d ->]. now apply IH.
Qed.

(** [int] accepts every non-empty string of decimal digits. *)
Lemma int_decimal s :
  Py.truthy s = true -> Py.all_chars Html.is_dec s = true ->
  exists n, Py.int s = Ok n.
Proof.
  intros Hs Hd. destruct s as [| c r]; [discriminate |].
  pose proof Hd as Hd'. cbn in Hd'. apply andb_true_iff in Hd' as [Hc Hr].
  assert (Py.strip_by Py.int_space (String c r) = String c r) as Hstrip.
  { unfold Py.strip_by.
    rewrite lstrip_by_fixed by now apply is_dec_not_space.
    apply rstrip_by_fixed. apply (all_chars_impl Html.is_dec); [| exact Hd].
    intros c' Hc'. now rewrite (is_dec_not_space c' Hc'). }
  unfold Py.int. rewrite Hstrip.
  destruct (is_dec_not_sign c Hc) as [-> ->]. cbn [fst snd Py.int_unsigned].
  destruct (is_dec_decimal c Hc) as [d ->].
  destruct (int_digits_decimal d r Hr) as [n ->]. eauto.
Qed.

Lemma index_lt {X} (xs : list X) i :
  (i < length xs)%nat -> exists x, xs !! i = Some x /\ Py.index xs i = Ok x.
Proof.
  intros Hi. unfold Py.index.
  destruct (lookup_lt_is_Some_2 xs i Hi) as [x Hx]. rewrite Hx. eauto.
Qed.

Lemma field_or_present {X} (f : string -> X) d r i :
  (i < length r)%nat ->
  exists x, r !! i = Some x /\ field_or f d r i = Ok (f x).
Proof.
  intros Hi. unfold field_or. rewrite (proj2 (Nat.ltb_lt _ _) Hi).
  destruct (index_lt r i Hi) as (x & Hx & ->). eauto.
Qed.

Lemma field_or_absent {X} (f : string -> X) d r i :
  (length r <= i)%nat -> field_or f d r i = Ok d.
Proof. intros Hi. unfold field_or. now rewrite (proj2 (Nat.ltb_ge _ _) Hi). Qed.

(** A guarded field never raises. *)
Lemma field_or_total {X} (f : string -> X) d r i :
  exists x, field_or f d r i = Ok x /\ ((length r <= i)%nat -> x = d).
Proof.
  destruct (Nat.lt_ge_cases i (length r)) as [Hi | Hi].
  - destruct (field_or_present f d r i Hi) as (x & _ & ->).
    exists (f x). split; [reflexivity | lia].
  - rewrite (field_or_absent f d r i Hi). eauto.
Qed.

(** Decoding a row that has its required columns, a well-formed
    date-time and fewer than 80 fields: when the seat count, if it is
    present and passes [isdigit], is made of decimal digits, decoding
    succeeds, and every optional field whose column lies beyond the row
    is absent or empty. *)
Lemma parse_screening_short_row (r : row) (dt : Datetime.t) :
  (Fields.AVAILABILITY < length r < Fields.MIN_PRICE)%nat ->
  screening_dt r = Ok dt ->
  (forall s, r !! Fields.SEATS_AVAILABLE = Some s -> Py.isdigit s = true ->
             Py.all_chars Html.is_dec s = true) ->
  exists s,
    parse_screening r = Ok s
    /\ Screening.datetime s = dt
    /\ Screening.min_price s = None /\ Screening.max_price s = None
    /\ ((length r <= Fields.SEATS_AVAILABLE)%nat -> Screening.seats_available s = None)
    /\ ((length r <= Fields.KEYWORDS)%nat -> Screening.keywords s = [])
    /\ ((length r <= Fields.ARTICLE_URL)%nat -> Screening.article_url s = None)
    /\ ((length r <= Fields.VENUE_ID)%nat -> Venue.id (Screening.venue s) = EmptyString)
    /\ ((length r <= Fields.VENUE_NAME)%nat -> Venue.name (Screening.venue s) = EmptyString)
    /\ ((length r <= Fields.VENUE_SHORT)%nat -> Venue.short_name (Screening.venue s) = EmptyString).
Proof.
  unfold Fields.AVAILABILITY, Fields.MIN_PRICE. intros Hlen Hdt Hseats.
  unfold parse_screening. rewrite Hdt. cbn [mbind result_bind].
  destruct (field_or_total (fun s => s) EmptyString r Fields.KEYWORDS) as (kw & -> & Hkw).
  cbn [mbind result_bind].
  assert (exists seats, (field_or Some None r Fields.SEATS_AVAILABLE ≫= seats_of) = Ok seats
                        /\ ((length r <= Fields.SEATS_AVAILABLE)%nat -> seats = None))
    as (seats & Hs & Hsnone).
  { destruct (Nat.lt_ge_cases Fields.SEATS_AVAILABLE (length r)) as [Hi | Hi].
    - destruct (field_or_present Some None r _ Hi) as (x & Hx & ->).
      cbn [mbind result_bind seats_of].
      destruct (Py.truthy x && Py.isdigit x) eqn:E.
      + apply andb_true_iff in E as [Ht Hd].
        destruct (int_decimal x Ht (Hseats x Hx Hd)) as [n ->].
        exists (Some n). split; [reflexivity | lia].
      + exists None. now split.
    - rewrite (field_or_absent Some None r _ Hi). exists None. now split. }
  unfold mbind, result_bind in Hs |- *.
  destruct (field_or Some None r Fields.SEATS_AVAILABLE) as [seats_raw | e];
    [| discriminate].
  rewrite Hs.
  destruct (index_lt r Fields.ID) as (id_ & _ & ->); [unfold Fields.ID; lia |].
  destruct (index_lt r Fields.TITLE) as (title_ & _ & ->); [unfold Fields.TITLE; lia |].
  cbn [fmap result_fmap].
  destruct (field_or_total (fun s => s) EmptyString r Fields.VENUE_ID) as (vid & -> & Hvid).
  destruct (field_or_total (fun s => s) EmptyString r Fields.VENUE_NAME) as (vname & -> & Hvname).
  destruct (field_or_total (fun s => s) EmptyString r Fields.VENUE_SHORT) as (vshort & -> & Hvshort).
  destruct (index_lt r Fields.AVAILABILITY) as (av & _ & ->);
    [unfold Fields.AVAILABILITY; lia |].
  destruct (index_lt r Fields.SALES_STATUS) as (sa & _ & ->);
    [unfold Fields.SALES_STATUS; lia |].
  cbn [fmap result_fmap].
  rewrite (field_or_absent Some None r Fields.MIN_PRICE) by (unfold Fields.MIN_PRICE; lia).
  rewrite (field_or_absent Some None r Fields.MAX_PRICE) by (unfold Fields.MAX_PRICE; lia).
  destruct (field_or_total Some None r Fields.ARTICLE_URL) as (url & -> & Hurl).
  eexists. split; [reflexivity |]. cbn.
  repeat split; try assumption.
  - intros Hk. now rewrite (Hkw Hk).
  - intros Hv. now rewrite (Hvshort Hv).
Qed.

Example short_row_decodes :
  parse_screening (required_row "999" "Vertigo" "18:00" "6" "0" "2024" "S" "G") = Ok vertigo.
Proof. reflexivity. Qed.

(** ** The domain list on hosts of four labels or more *)

Lemma split_cons sep s : exists h t, Py.split sep s = h :: t.
Proof.
  induction s as [| c r (h & t & IH)]; cbn; [eauto |].
  destruct (Ascii.eqb c sep); [eauto |]. rewrite IH. eauto.
Qed.

Lemma join_cons sep x y ys :
  Py.join sep (x :: y :: ys) = x +:+ sep +:+ Py.join sep (y :: ys).
Proof. reflexivity. Qed.

(** Joining the labels of a string with the dot gives the string back. *)
Lemma join_split s : Py.join "." (Py.split "." s) = s.
Proof.
  induction s as [| c r IH]; [reflexivity |].
  cbn [Py.split]. destruct (split_cons "." r) as (h & t & Hr).
  rewrite Hr in IH |- *. destruct (Ascii.eqb_spec c "."%char) as [-> | _].
  - now rewrite join_cons, IH.
  - destruct t as [| y ys].
    + cbn [Py.join] in IH |- *. now rewrite IH.
    + rewrite join_cons in IH |- *. now rewrite <- IH.
Qed.

Lemma append_cons c s1 s2 : String c s1 +:+ s2 = String c (s1 +:+ s2).
Proof. reflexivity. Qed.

Lemma length_append s1 s2 :
  String.length (s1 +:+ s2) = (String.length s1 + String.length s2)%nat.
Proof.
  induction s1 as [| c r IH]; [reflexivity |].
  rewrite append_cons. cbn [String.length]. now rewrite IH.
Qed.

Lemma append_assoc s1 s2 s3 : (s1 +:+ s2) +:+ s3 = s1 +:+ s2 +:+ s3.
Proof.
  induction s1 as [| c r IH]; [reflexivity |].
  rewrite !append_cons. now rewrite IH.
Qed.

Lemma join_snoc sep pre x y ys :
  Py.join sep (pre ++ x :: y :: ys)
  = Py.join sep (pre ++ [x]) +:+ sep +:+ Py.join sep (y :: ys).
Proof.
  induction pre as [| p pre IH]; [reflexivity |].
  cbn [app]. destruct pre as [| q pre'].
  - cbn [app] in *. rewrite !join_cons. cbn [Py.join].
    now rewrite !append_assoc.
  - cbn [app] in *. rewrite !join_cons, IH.
    now rewrite !append_assoc.
Qed.

Lemma last_n_app {X} (pre suf : list X) n :
  length suf = n -> Py.last_n n (pre ++ suf) = suf.
Proof.
  intros <-. unfold Py.last_n. rewrite length_app.
  replace (length pre + length suf - length suf)%nat with (length pre) by lia.
  apply drop_app_length.
Qed.

(** For a host of four labels or more whose last two labels form a known
    suffix, the list is the host, its dotted form, and the dotted and bare
    forms of the last three labels, a parent that differs from the host.
    The list has no duplicate unless the host is the dotted parent itself
    (a host of four labels whose first label is empty). *)
Lemma domains_known_suffix (domain : string) (pre : list string) (x l3 l2 l1 : string) :
  Py.split "." domain = pre ++ [x; l3; l2; l1] ->
  Py.str_in (Py.join "." [l2; l1]) two_part_tlds = true ->
  let parent := Py.join "." [l3; l2; l1] in
  domains_to_search domain = [domain; "." +:+ domain; "." +:+ parent; parent]
  /\ parent <> domain
  /\ (domain <> "." +:+ parent -> NoDup (domains_to_search domain)).
Proof.
  intros Hsplit Htld parent.
  assert (domain = Py.join "." (pre ++ [x]) +:+ "." +:+ parent) as Hdom.
  { rewrite <- (join_split domain), Hsplit. apply join_snoc. }
  assert (parent <> domain) as Hne.
  { intros Heq. apply (f_equal String.length) in Hdom.
    rewrite <- Heq, !length_append in Hdom. cbn in Hdom. lia. }
  assert (parent_domain domain = Some parent) as Hp.
  { assert (Py.last_n 2 (pre ++ [x; l3; l2; l1]) = [l2; l1]) as H2.
    { replace (pre ++ [x; l3; l2; l1]) with ((pre ++ [x; l3]) ++ [l2; l1])
        by now rewrite <- app_assoc.
      now apply last_n_app. }
    assert (Py.last_n 3 (pre ++ [x; l3; l2; l1]) = [l3; l2; l1]) as H3.
    { replace (pre ++ [x; l3; l2; l1]) with ((pre ++ [x]) ++ [l3; l2; l1])
        by now rewrite <- app_assoc.
      now apply last_n_app. }
    unfold parent_domain. rewrite Hsplit, H2, H3, Htld, length_app. cbn [length andb].
    replace (2 <=? length pre + 4)%nat with true by (symmetry; apply Nat.leb_le; lia).
    now replace (3 <? length pre + 4)%nat with true by (symmetry; apply Nat.ltb_lt; lia). }
  assert (domains_to_search domain = [domain; "." +:+ domain; "." +:+ parent; parent])
    as Hds.
  { unfold domains_to_search. rewrite Hp.
    assert (Py.truthy parent = true) as ->
      by (subst parent; destruct l3; reflexivity).
    cbn [andb].
    destruct (Py.str_eq parent domain) eqn:E; [| reflexivity].
    now apply str_eq_true in E. }
  split; [exact Hds |]. split; [exact Hne |].
  intros Hdot. rewrite Hds.
  assert (String.length parent < String.length domain)%nat as Hlt.
  { rewrite Hdom, !length_append. cbn. lia. }
  clearbody parent.
  rewrite !NoDup_cons, !elem_of_cons, !elem_of_nil.
  repeat split; try apply NoDup_nil_2;
    intros H; repeat destruct H as [H | H]; try contradiction;
    apply (f_equal String.length) in H; rewrite ?length_append in H;
    cbn in H; lia.
Qed.

Example domains_known_suffix_instance :
  domains_to_search "whatson.bfi.org.uk"
  = ["whatson.bfi.org.uk"; ".whatson.bfi.org.uk"; ".bfi.org.uk"; "bfi.org.uk"].
Proof.
  apply (domains_known_suffix "whatson.bfi.org.uk" [] "whatson" "bfi" "org" "uk");
    reflexivity.
Qed.


(* ================================================================== *)
(** * The claims *)
(* ================================================================== *)

(** C1 (the claim as stated fails).  The sixteen-field row of the
    scenario does not decode: column 11, where the schema reads the year,
    holds the venue identifier "v1", and [int] raises [ValueError]. *)
Lemma C1_literal_row_raises : parse_screening scenario_row = Raise ValueError.
Proof. reflexivity. Qed.

(** C1 (amended).  The row of 82 fields that holds the sixteen values of
    the scenario at the columns of the schema (0, 5, 8, 9, 10, 11, 14, 15,
    16, 17, 18, 62, 63, 64, 80, 81) decodes to the record with title
    "Film & Title", date-time 2024-01-05T14:30, availability good, sales
    status on sale, 42 seats and the keywords ["Q&A"]. *)
Theorem C1_row_at_schema_decodes :
  length scenario_row_at_schema = 82%nat
  /\ Forall (fun cell => scenario_row_at_schema !! cell.1 = Some cell.2)
       (zip scenario_columns scenario_row)
  /\ parse_screening scenario_row_at_schema = Ok scenario_record
  /\ Screening.title scenario_record = "Film & Title"
  /\ Datetime.isoformat (Screening.datetime scenario_record) = "2024-01-05T14:30:00"
  /\ Screening.availability scenario_record = Availability.GOOD
  /\ Screening.sales_status scenario_record = SalesStatus.ON_SALE
  /\ Screening.seats_available scenario_record = Some 42
  /\ Screening.keywords scenario_record = ["Q&A"].
Proof.
  split; [reflexivity |]. split; [| repeat split; reflexivity].
  repeat constructor.
Qed.

(** C2 (the claim as stated fails).  The first of two days is answered
    with status 500, an ordinary error, and the second day lists two
    screenings: the run ends with the error of the first day and returns
    no records. *)
Lemma C2_ordinary_error_ends_run :
  fetch_single_day failing_day_get 0 demo_cookies = Raise (HTTPError 500)
  /\ day_records failing_day_get two_days_rows demo_cookies 1
     = Ok [vertigo_sold_out; psycho]
  /\ (scrape_screenings failing_day_get two_days_rows demo_env 2 demo_fs).1
     = Raise (HTTPError 500).
Proof. repeat split; vm_compute; reflexivity. Qed.

(** C2 (amended).  When the days before day [i] have gone through and
    the fetch or the extraction of day [i] raises, whether an ordinary
    error or the challenge, the whole multi-day fetch ends with that
    error: the day is not skipped, the later days are not fetched and no
    collection is returned. *)
Theorem C2_failed_day_ends_run
    (get : gmap string string -> nat -> result response)
    (embedded_rows : string -> list row) (e : Store.env) (days_ahead : Z)
    (fs fs' : gset string) (cookies : gmap string string) (i : nat)
    (st : acc) (err : exn) :
  load_cookies e "whatson.bfi.org.uk" fs = (Ok cookies, fs') ->
  (i < Z.to_nat days_ahead)%nat ->
  for_each (seq 0 i) (day_step get embedded_rows cookies) ([], ∅) = Ok st ->
  fetch_single_day get i cookies ≫= extract_search_results embedded_rows = Raise err ->
  scrape_screenings get embedded_rows e days_ahead fs = (Raise err, fs').
Proof.
  intros Hc Hi Hbefore Hday. unfold scrape_screenings.
  rewrite run_bind, Hc, run_bind. unfold lift.
  now rewrite (gather_raises get embedded_rows cookies days_ahead i st err Hi Hbefore Hday).
Qed.

Lemma C2_failed_day_ends_run_witness :
  scrape_screenings failing_day_get two_days_rows demo_env 2 demo_fs
  = (Raise (HTTPError 500), demo_fs).
Proof.
  apply (C2_failed_day_ends_run failing_day_get two_days_rows demo_env 2
           demo_fs demo_fs demo_cookies 0 ([], ∅) (HTTPError 500)).
  - vm_compute. reflexivity.
  - vm_compute. lia.
  - reflexivity.
  - reflexivity.
Defined.

(** C3 (the code departs from the claim).  The host "bfi.org.uk" ends
    with the known suffix "org.uk" and is its own registrable domain, yet
    the list gains the bare suffix "org.uk" and ".org.uk": with three
    labels the test on the known suffixes is skipped and the two-label
    branch is taken. *)
Theorem C3_three_label_host :
  Py.str_in (Py.join "." (Py.last_n 2 (Py.split "." "bfi.org.uk"))) two_part_tlds = true
  /\ parent_domain "bfi.org.uk" = Some "org.uk"
  /\ domains_to_search "bfi.org.uk" = ["bfi.org.uk"; ".bfi.org.uk"; ".org.uk"; "org.uk"].
Proof. repeat split; reflexivity. Qed.

(** C4.  A record built by the row decoder survives the persisted
    format: [Screening.from_dict] after [Screening.to_dict] returns the
    same record, and the short venue code it carries is a fixed point of
    [normalise_venue_short], the normalisation applied again on load. *)
Theorem C4_catalog_round_trip (r : row) (s : Screening.t) :
  parse_screening r = Ok s ->
  Screening.from_dict (Screening.to_dict s) = Ok s
  /\ normalise_venue_short (Venue.short_name (Screening.venue s))
     = Venue.short_name (Screening.venue s).
Proof.
  intros Hs. destruct (parse_screening_ok _ _ Hs) as (Hdt & [raw Hk] & [short Hv]).
  destruct (screening_dt_ok _ _ Hdt) as (y & m & d & hh & mm & Hmk).
  assert (normalise_venue_short (Venue.short_name (Screening.venue s))
          = Venue.short_name (Screening.venue s)) as Hn
    by (rewrite Hv; apply normalise_venue_short_idem).
  split; [| exact Hn].
  rewrite from_dict_to_dict, (fromisoformat_isoformat _ _ _ _ _ _ _ Hmk).
  cbn [mbind result_bind].
  rewrite Hn, availability_from_code_value, sales_status_from_code_value.
  rewrite Hk, filter_keywords_idem, <- Hk.
  now destruct s as [? ? ? [? ? ?] ? ? ? ? ? ? ?].
Qed.

Lemma C4_catalog_round_trip_witness :
  parse_screening scenario_row_at_schema = Ok scenario_record
  /\ Screening.from_dict (Screening.to_dict scenario_record) = Ok scenario_record.
Proof.
  split; [reflexivity |].
  apply (C4_catalog_round_trip scenario_row_at_schema scenario_record).
  reflexivity.
Defined.

(** C5.  When the scrape returns, no two records of the result carry the
    same identifier, and a record is in the result exactly when it is the
    first record with its identifier in the sequence of the days' decoded
    records, taken day after day: a later record with an identifier
    already seen is dropped, whether its other fields agree or not, within
    one day or across days. *)
Theorem C5_first_seen_wins
    (get : gmap string string -> nat -> result response)
    (embedded_rows : string -> list row) (e : Store.env) (days_ahead : Z)
    (fs : gset string) (result : list Screening.t) :
  (scrape_screenings get embedded_rows e days_ahead fs).1 = Ok result ->
  exists cookies days,
    (load_cookies e "whatson.bfi.org.uk" fs).1 = Ok cookies
    /\ Forall2 (fun i recs => day_records get embedded_rows cookies i = Ok recs)
         (seq 0 (Z.to_nat days_ahead)) days
    /\ NoDup (map Screening.id result)
    /\ forall s, In s result <-> first_seen s (concat days).
Proof.
  intros H.
  apply scrape_screenings_ok in H as (cookies & all_screenings & Hc & Hg & ->).
  apply gather_ok in Hg as (days & Hdays & ->).
  exists cookies, days. split; [assumption |]. split; [assumption |].
  pose proof (sort_by_perm by_datetime (kept ∅ (concat days))) as Hperm.
  split.
  - rewrite <- (Permutation_map Screening.id Hperm). apply kept_NoDup.
  - intros s. rewrite <- (Permutation_in' (eq_refl s) Hperm), kept_first_seen.
    unfold first_seen. split.
    + intros (before & after & Heq & Hb & _). eauto.
    + intros (before & after & Heq & Hb). exists before, after.
      repeat split; [assumption .. |]. set_solver.
Qed.

Lemma C5_first_seen_wins_witness :
  exists cookies days,
    (load_cookies demo_env "whatson.bfi.org.uk" demo_fs).1 = Ok cookies
    /\ Forall2 (fun i recs => day_records two_days_get two_days_rows cookies i = Ok recs)
         (seq 0 (Z.to_nat 2)) days
    /\ NoDup (map Screening.id [psycho; vertigo])
    /\ forall s, In s [psycho; vertigo] <-> first_seen s (concat days).
Proof.
  apply (C5_first_seen_wins two_days_get two_days_rows demo_env 2 demo_fs).
  vm_compute. reflexivity.
Defined.

(** C6.  When the scrape returns, every record of the result is at or
    before the next one in date-time, the result is a rearrangement of
    the collection gathered by the loop, and the records of any one
    instant are in the order in which the loop appended them. *)
Theorem C6_sorted_and_stable
    (get : gmap string string -> nat -> result response)
    (embedded_rows : string -> list row) (e : Store.env) (days_ahead : Z)
    (fs : gset string) (result : list Screening.t) :
  (scrape_screenings get embedded_rows e days_ahead fs).1 = Ok result ->
  Sorted datetime_le result
  /\ exists cookies all_screenings,
       (load_cookies e "whatson.bfi.org.uk" fs).1 = Ok cookies
       /\ gather get embedded_rows cookies days_ahead = Ok all_screenings
       /\ Permutation all_screenings result
       /\ forall dt, at_instant dt result = at_instant dt all_screenings.
Proof.
  intros H.
  apply scrape_screenings_ok in H as (cookies & all_screenings & Hc & Hg & ->).
  split.
  - apply sort_by_sorted, by_datetime_total.
  - exists cookies, all_screenings. repeat split; [assumption .. | |].
    + apply sort_by_perm.
    + intros dt. unfold at_instant. apply sort_by_filter.
      intros a b Ha Hb. apply bool_decide_eq_true_1 in Ha, Hb.
      apply by_datetime_same. congruence.
Qed.

Lemma C6_sorted_and_stable_witness : Sorted datetime_le [psycho; vertigo].
Proof.
  apply (C6_sorted_and_stable two_days_get two_days_rows demo_env 2 demo_fs).
  vm_compute. reflexivity.
Defined.

(** C7 (the claim as stated fails).  A page that carries the listing
    marker "articleContext" is never tested for the challenge marker: here
    the page contains "challenge-platform" and the result is the empty
    list of rows. *)
Lemma C7_marker_on_listing_page :
  Py.contains "challenge-platform"
    "articleContext: { searchResults : [ ], searchFilters } /cdn-cgi/challenge-platform/" = true
  /\ extract_search_results (fun _ => [])
       "articleContext: { searchResults : [ ], searchFilters } /cdn-cgi/challenge-platform/"
     = Ok [].
Proof. split; reflexivity. Qed.

(** C7 (amended).  For every page without the listing marker
    "articleContext": if it contains "challenge-platform" the extractor
    raises the challenge error, and if it contains neither challenge
    marker the extractor returns the empty list; the two results differ. *)
Theorem C7_challenge_without_listing (embedded_rows : string -> list row) (html_content : string) :
  Py.contains "articleContext" html_content = false ->
  (Py.contains "challenge-platform" html_content = true ->
     extract_search_results embedded_rows html_content = Raise challenge)
  /\ (Py.contains "challenge-platform" html_content = false ->
      Py.contains "cf-browser-verification" html_content = false ->
      extract_search_results embedded_rows html_content = Ok [])
  /\ Raise challenge <> Ok ([] : list row).
Proof.
  intros Hno. unfold extract_search_results. rewrite Hno. cbn [negb].
  split; [| split].
  - intros ->. now rewrite orb_true_r.
  - now intros -> ->.
  - discriminate.
Qed.

Lemma C7_challenge_without_listing_witness :
  extract_search_results (fun _ => [["1"]]) "<script src=/cdn-cgi/challenge-platform/x.js>"
  = Raise challenge.
Proof.
  apply (C7_challenge_without_listing (fun _ => [["1"]]) "<script src=/cdn-cgi/challenge-platform/x.js>");
    reflexivity.
Defined.

(** C8 (the code departs from the claim).  A row of seventeen fields with
    well-formed required values and the seat count U+00B2: [isdigit]
    accepts the superscript digit, [int] does not, and decoding raises
    [ValueError] instead of leaving the seat count absent. *)
Theorem C8_superscript_seat_count_raises :
  length row_superscript_seats = 17%nat
  /\ screening_dt row_superscript_seats = Ok (Datetime.mk 2024 1 5 14 30 0)
  /\ row_superscript_seats !! Fields.SEATS_AVAILABLE = Some superscript_two
  /\ Py.isdigit superscript_two = true
  /\ Py.int superscript_two = Raise ValueError
  /\ parse_screening row_superscript_seats = Raise ValueError.
Proof. repeat split; reflexivity. Qed.

(** C9.  Once the store is copied to the temporary path, [load_cookies]
    leaves no file at that path, whatever way it ends: with the cookies,
    with the error of a failed connection or query, or with the error of
    an empty result.  The other files are as they were. *)
Theorem C9_temporary_copy_removed (e : Store.env) (domain profile : string)
    (fs : gset string) :
  Store.profile_path e = Some profile ->
  profile +:+ "/cookies.sqlite" ∈ fs ->
  Store.copy_fails e = false ->
  (temp_db ∉ (load_cookies e domain fs).2)
  /\ (load_cookies e domain fs).2 = fs ∖ {[temp_db]}.
Proof.
  intros Hp Hdb Hcopy.
  assert ((load_cookies e domain fs).2 = fs ∖ {[temp_db]}) as Hfs.
  { unfold load_cookies. rewrite Hp.
    rewrite run_bind, run_path_exists, (bool_decide_eq_true_2 _ Hdb). cbn [negb].
    rewrite run_bind. unfold copy2.
    rewrite Hcopy, (bool_decide_eq_true_2 _ Hdb). cbn [negb orb].
    rewrite try_finally_files, query_store_files. set_solver. }
  split; [| exact Hfs]. rewrite Hfs. set_solver.
Qed.

Lemma C9_temporary_copy_removed_witness :
  temp_db ∉ (load_cookies demo_env "whatson.bfi.org.uk" ({[temp_db]} ∪ demo_fs)).2.
Proof.
  apply (C9_temporary_copy_removed demo_env "whatson.bfi.org.uk"
           "/home/u/.mozilla/firefox/abc.default-release" ({[temp_db]} ∪ demo_fs)).
  - reflexivity.
  - vm_compute. reflexivity.
  - reflexivity.
Defined.

(** C10 (the claim as stated fails).  Two venues with the same identifier
    and different names are not equal. *)
Lemma C10_same_id_not_equal :
  Venue.id (Venue.mk "v1" "NFT1" "NFT1") = Venue.id (Venue.mk "v1" "NFT3" "NFT3")
  /\ Venue.eq (Venue.mk "v1" "NFT1" "NFT1") (Venue.mk "v1" "NFT3" "NFT3") = false.
Proof. split; reflexivity. Qed.

(** C10 (amended).  Two venues are equal exactly when their identifier,
    name and short code are all equal; the hash is the hash of the
    identifier, so venues with the same identifier hash alike whatever
    their name and short code. *)
Theorem C10_venue_eq_and_hash (str_hash : string -> Z) (v1 v2 : Venue.t) :
  (Venue.eq v1 v2 = true <->
     Venue.id v1 = Venue.id v2 /\ Venue.name v1 = Venue.name v2
     /\ Venue.short_name v1 = Venue.short_name v2)
  /\ (Venue.eq v1 v2 = true <-> v1 = v2)
  /\ (Venue.id v1 = Venue.id v2 -> Venue.hash str_hash v1 = Venue.hash str_hash v2).
Proof.
  assert (Venue.eq v1 v2 = true <->
          Venue.id v1 = Venue.id v2 /\ Venue.name v1 = Venue.name v2
          /\ Venue.short_name v1 = Venue.short_name v2) as Heq.
  { unfold Venue.eq. rewrite !andb_true_iff, !str_eq_true. tauto. }
  split; [exact Heq |]. split.
  - rewrite Heq. destruct v1, v2; cbn. split.
    + now intros (-> & -> & ->).
    + now intros [= -> -> ->].
  - unfold Venue.hash. now intros ->.
Qed.

Lemma C10_venue_eq_and_hash_witness :
  Venue.hash (fun s => Z.of_nat (String.length s)) (Venue.mk "v1" "NFT1" "NFT1")
  = Venue.hash (fun s => Z.of_nat (String.length s)) (Venue.mk "v1" "NFT3" "NFT3").
Proof.
  apply (C10_venue_eq_and_hash (fun s => Z.of_nat (String.length s))
           (Venue.mk "v1" "NFT1" "NFT1") (Venue.mk "v1" "NFT3" "NFT3")).
  reflexivity.
Defined.

(* ================================================================== *)
(** * Further properties *)
(* ================================================================== *)

(** ** The row decoder *)

Lemma index_ok {X} (xs : list X) i x :
  Py.index xs i = Ok x -> xs !! i = Some x /\ (i < length xs)%nat.
Proof.
  unfold Py.index. destruct (xs !! i) as [y |] eqn:E; [| discriminate].
  intros [= <-]. split; [reflexivity |]. now apply lookup_lt_Some in E.
Qed.

Lemma index_raise {X} (xs : list X) i e :
  Py.index xs i = Raise e -> e = IndexError /\ (length xs <= i)%nat.
Proof.
  unfold Py.index. destruct (xs !! i) as [y |] eqn:E; [discriminate |].
  intros [= <-]. split; [reflexivity |]. now apply lookup_ge_None in E.
Qed.

Lemma field_or_id r i :
  field_or (fun s => s) EmptyString r i = Ok (default EmptyString (r !! i)).
Proof.
  destruct (Nat.lt_ge_cases i (length r)) as [Hi | Hi].
  - destruct (field_or_present (fun s => s) EmptyString r i Hi) as (x & Hx & ->).
    now rewrite Hx.
  - rewrite (field_or_absent _ _ r i Hi). now rewrite (lookup_ge_None_2 r i Hi).
Qed.

Lemma field_or_some r i : field_or Some None r i = Ok (r !! i).
Proof.
  destruct (Nat.lt_ge_cases i (length r)) as [Hi | Hi].
  - destruct (field_or_present Some None r i Hi) as (x & Hx & ->).
    now rewrite Hx.
  - rewrite (field_or_absent _ _ r i Hi). now rewrite (lookup_ge_None_2 r i Hi).
Qed.

(** The decoder, column by column. *)
Lemma parse_screening_unfold r :
  parse_screening r
  = (screening_dt_ ← screening_dt r;
     seats ← seats_of (r !! Fields.SEATS_AVAILABLE);
     id_ ← Py.index r Fields.ID;
     title_ ← Py.index r Fields.TITLE;
     availability_ ← Py.index r Fields.AVAILABILITY;
     sales_status_ ← Py.index r Fields.SALES_STATUS;
     Ok (Screening.mk id_ (Html.unescape title_) screening_dt_
           (Venue.mk (default EmptyString (r !! Fields.VENUE_ID))
              (default EmptyString (r !! Fields.VENUE_NAME))
              (normalise_venue_short (default EmptyString (r !! Fields.VENUE_SHORT))))
           (Availability.from_code availability_)
           (SalesStatus.from_code sales_status_)
           seats (keywords_of (default EmptyString (r !! Fields.KEYWORDS)))
           (r !! Fields.MIN_PRICE) (r !! Fields.MAX_PRICE)
           (r !! Fields.ARTICLE_URL))).
Proof.
  unfold parse_screening. rewrite !field_or_id, !field_or_some.
  destruct (screening_dt r); [| reflexivity]. cbn [mbind result_bind].
  destruct (seats_of _); [| reflexivity]. cbn [mbind result_bind].
  destruct (Py.index r Fields.ID); [| reflexivity]. cbn [mbind result_bind].
  destruct (Py.index r Fields.TITLE); [| reflexivity].
  cbn [mbind result_bind fmap result_fmap].
  destruct (Py.index r Fields.AVAILABILITY); [| reflexivity].
  cbn [mbind result_bind fmap result_fmap].
  destruct (Py.index r Fields.SALES_STATUS); reflexivity.
Qed.

(** What a decoded record holds, column by column. *)
Lemma parse_screening_columns r s :
  parse_screening r = Ok s ->
  screening_dt r = Ok (Screening.datetime s)
  /\ seats_of (r !! Fields.SEATS_AVAILABLE) = Ok (Screening.seats_available s)
  /\ r !! Fields.ID = Some (Screening.id s)
  /\ (exists t, r !! Fields.TITLE = Some t /\ Screening.title s = Html.unescape t)
  /\ (exists a, r !! Fields.AVAILABILITY = Some a
                /\ Screening.availability s = Availability.from_code a)
  /\ (exists a, r !! Fields.SALES_STATUS = Some a
                /\ Screening.sales_status s = SalesStatus.from_code a)
  /\ Screening.keywords s = keywords_of (default EmptyString (r !! Fields.KEYWORDS))
  /\ Screening.venue s
     = Venue.mk (default EmptyString (r !! Fields.VENUE_ID))
         (default EmptyString (r !! Fields.VENUE_NAME))
         (normalise_venue_short (default EmptyString (r !! Fields.VENUE_SHORT)))
  /\ Screening.min_price s = r !! Fields.MIN_PRICE
  /\ Screening.max_price s = r !! Fields.MAX_PRICE
  /\ Screening.article_url s = r !! Fields.ARTICLE_URL.
Proof.
  rewrite parse_screening_unfold. intros H.
  apply bind_ok in H as (dt & Hdt & H).
  apply bind_ok in H as (seats & Hseats & H).
  apply bind_ok in H as (id_ & Hid & H).
  apply bind_ok in H as (title_ & Htitle & H).
  apply bind_ok in H as (av & Hav & H).
  apply bind_ok in H as (sa & Hsa & H).
  injection H as <-. cbn.
  apply index_ok in Hid as [Hid _], Htitle as [Htitle _], Hav as [Hav _], Hsa as [Hsa _].
  repeat split; eauto.
Qed.

Lemma bind_raise {A B} (m : result A) (f : A -> result B) e :
  m ≫= f = Raise e -> m = Raise e \/ exists a, m = Ok a /\ f a = Raise e.
Proof. destruct m as [a | e']; cbn; [eauto | intros [= ->]; now left]. Qed.

Lemma int_raise s e : Py.int s = Raise e -> e = ValueError.
Proof. unfold Py.int. destruct (Py.int_unsigned _); [discriminate | now intros [= <-]]. Qed.

Lemma make_raise y m d hh mm ss e :
  Datetime.make y m d hh mm ss = Raise e -> e = ValueError \/ e = OverflowError.
Proof.
  unfold Datetime.make. destruct (forallb _ _).
  - destruct (Datetime.in_range _ _ _ _ _ _); [discriminate |]. intros [= <-]. now left.
  - intros [= <-]. now right.
Qed.

Lemma index_int_raise r i (f : string -> string) e :
  (Py.index r i ≫= fun t => Py.int (f t)) = Raise e -> decode_error e.
Proof.
  intros [H | (t & _ & H)]%bind_raise.
  - apply index_raise in H as [-> _]. now left.
  - apply int_raise in H as ->. right. now left.
Qed.

Lemma screening_dt_raise r e : screening_dt r = Raise e -> decode_error e.
Proof.
  unfold screening_dt. intros H.
  apply bind_raise in H as [H | (year & _ & H)];
    [exact (index_int_raise r _ (fun t => t) e H) |].
  apply bind_raise in H as [H | (month & _ & H)];
    [exact (index_int_raise r _ (fun t => t) e H) |].
  apply bind_raise in H as [H | (day & _ & H)];
    [exact (index_int_raise r _ (fun t => t) e H) |].
  apply bind_raise in H as [H | (hour & _ & H)];
    [exact (index_int_raise r _ (Py.slice 0 2) e H) |].
  apply bind_raise in H as [H | (minute & _ & H)];
    [exact (index_int_raise r _ (Py.slice 3 5) e H) |].
  apply make_raise in H as [-> | ->]; unfold decode_error; auto.
Qed.

Lemma seats_of_raise o e : seats_of o = Raise e -> e = ValueError.
Proof.
  destruct o as [s |]; cbn; [| discriminate].
  destruct (Py.truthy s && Py.isdigit s); [| discriminate].
  destruct (Py.int s) as [n | e'] eqn:E; cbn; [discriminate |].
  intros [= <-]. now apply int_raise in E.
Qed.

Lemma parse_screening_raise_cases (r : row) (e : exn) :
  parse_screening r = Raise e -> decode_error e.
Proof.
  rewrite parse_screening_unfold. intros H.
  apply bind_raise in H as [H | (dt & _ & H)]; [now apply screening_dt_raise in H |].
  apply bind_raise in H as [H | (seats & _ & H)].
  { apply seats_of_raise in H as ->. right. now left. }
  apply bind_raise in H as [H | (id_ & _ & H)];
    [apply index_raise in H as [-> _]; now left |].
  apply bind_raise in H as [H | (title_ & _ & H)];
    [apply index_raise in H as [-> _]; now left |].
  apply bind_raise in H as [H | (av & _ & H)];
    [apply index_raise in H as [-> _]; now left |].
  apply bind_raise in H as [H | (sa & _ & H)];
    [apply index_raise in H as [-> _]; now left | discriminate].
Qed.

(** X2.  The decoder raises nothing but [IndexError], [ValueError] and
    [OverflowError]. *)
Theorem parse_screening_raises (r : row) (e : exn) :
  parse_screening r = Raise e -> decode_error e.
Proof. apply parse_screening_raise_cases. Qed.

Lemma parse_screening_raises_witness :
  parse_screening scenario_row = Raise ValueError /\ decode_error ValueError.
Proof.
  split; [reflexivity |].
  apply (parse_screening_raises scenario_row ValueError). reflexivity.
Defined.

(** X1.  A row of fewer than sixteen fields never decodes: the decoder
    raises one of its three errors, and [IndexError] when the row has no
    year column, that is twelve fields at least. *)
Theorem parse_screening_too_short (r : row) :
  (length r <= Fields.AVAILABILITY)%nat ->
  exists e,
    parse_screening r = Raise e
    /\ decode_error e
    /\ ((length r <= Fields.YEAR)%nat -> e = IndexError).
Proof.
  intros Hlen. destruct (parse_screening r) as [s | e] eqn:E.
  - apply parse_screening_columns in E as (_ & _ & _ & _ & (a & Ha & _) & _).
    apply lookup_lt_Some in Ha. lia.
  - exists e. split; [reflexivity |]. split; [now apply parse_screening_raise_cases in E |].
    intros Hy.
    assert (Py.index r Fields.YEAR = Raise IndexError) as Hidx
      by (unfold Py.index; now rewrite (lookup_ge_None_2 r Fields.YEAR Hy)).
    rewrite parse_screening_unfold in E. unfold screening_dt in E.
    rewrite Hidx in E. now injection E.
Qed.

Lemma parse_screening_too_short_witness :
  exists e, parse_screening ["1"; "2"; "3"] = Raise e /\ decode_error e
            /\ ((length ["1"; "2"; "3"] <= Fields.YEAR)%nat -> e = IndexError).
Proof. apply (parse_screening_too_short ["1"; "2"; "3"]). vm_compute. lia. Defined.

Lemma row_step_raise st r e : row_step st r = Raise e -> e = OverflowError.
Proof.
  unfold row_step. destruct (parse_screening r) as [s | e'] eqn:E.
  - destruct (Py.str_eq _ _); [discriminate |]. now case_bool_decide.
  - apply parse_screening_raise_cases in E as [-> | [-> | ->]];
      [discriminate .. | now intros [= <-]].
Qed.

Lemma rows_loop_overflow rows st r :
  In r rows -> parse_screening r = Raise OverflowError ->
  for_each rows row_step st = Raise OverflowError.
Proof.
  revert st. induction rows as [| r' rows IH]; intros st; [intros [] |].
  intros [<- | Hin] Hr; cbn [for_each].
  - assert (row_step st r' = Raise OverflowError) as ->
      by (unfold row_step; now rewrite Hr).
    reflexivity.
  - destruct (row_step st r') as [st' | e] eqn:E; cbn [mbind result_bind].
    + now apply IH.
    + now apply row_step_raise in E as ->.
Qed.

Lemma gather_day_raises get embedded_rows cookies days_ahead i st e :
  (i < Z.to_nat days_ahead)%nat ->
  for_each (seq 0 i) (day_step get embedded_rows cookies) ([], ∅) = Ok st ->
  day_step get embedded_rows cookies st i = Raise e ->
  gather get embedded_rows cookies days_ahead = Raise e.
Proof.
  intros Hi Hbefore Hday. unfold gather.
  replace (Z.to_nat days_ahead) with (i + S (Z.to_nat days_ahead - S i))%nat by lia.
  rewrite seq_app, for_each_app, Hbefore. cbn [mbind result_bind plus seq for_each].
  now rewrite Hday.
Qed.

(** X3.  A row whose date fields do not fit a C [int] is not skipped:
    [OverflowError] is outside the handler of the row loop, and the whole
    run ends with it, whatever the other rows of that day hold. *)
Theorem overflow_row_ends_run
    (get : gmap string string -> nat -> result response)
    (embedded_rows : string -> list row) (e : Store.env) (days_ahead : Z)
    (fs fs' : gset string) (cookies : gmap string string) (i : nat)
    (st : acc) (rows : list row) (r : row) :
  load_cookies e "whatson.bfi.org.uk" fs = (Ok cookies, fs') ->
  (i < Z.to_nat days_ahead)%nat ->
  for_each (seq 0 i) (day_step get embedded_rows cookies) ([], ∅) = Ok st ->
  fetch_single_day get i cookies ≫= extract_search_results embedded_rows = Ok rows ->
  In r rows ->
  parse_screening r = Raise OverflowError ->
  scrape_screenings get embedded_rows e days_ahead fs = (Raise OverflowError, fs').
Proof.
  intros Hc Hi Hbefore Hday Hin Hr. unfold scrape_screenings.
  rewrite run_bind, Hc, run_bind. unfold lift.
  rewrite (gather_day_raises get embedded_rows cookies days_ahead i st OverflowError Hi Hbefore);
    [reflexivity |].
  unfold day_step. apply bind_ok in Hday as (html_content & -> & Hx).
  cbn [mbind result_bind]. rewrite Hx. cbn [mbind result_bind].
  now apply (rows_loop_overflow rows st r).
Qed.

Lemma overflow_row_ends_run_witness :
  scrape_screenings two_days_get overflow_rows demo_env 2 demo_fs
  = (Raise OverflowError, demo_fs).
Proof.
  apply (overflow_row_ends_run two_days_get overflow_rows demo_env 2 demo_fs demo_fs
           demo_cookies 0 ([], ∅) (overflow_rows EmptyString) overflow_row).
  - vm_compute. reflexivity.
  - vm_compute. lia.
  - reflexivity.
  - reflexivity.
  - right. now left.
  - reflexivity.
Defined.

Lemma keywords_of_canonical raw k :
  In k (keywords_of raw) ->
  Py.truthy k = true /\ Py.strip k = k /\ Py.str_in k UNWANTED_KEYWORDS = false.
Proof.
  unfold keywords_of, filter_keywords. rewrite filter_In, in_map_iff.
  intros [(x & <- & Hx) Hk]. apply filter_In in Hx as [_ Hx].
  rewrite strip_idem in Hk |- *. apply negb_true_iff in Hk. auto.
Qed.

(** X4.  Every keyword of a decoded record is non-empty, carries no white
    space at either end and is none of the unwanted platform terms. *)
Theorem decoded_keywords_canonical (r : row) (s : Screening.t) :
  parse_screening r = Ok s ->
  Forall (fun k => Py.truthy k = true /\ Py.strip k = k
                   /\ Py.str_in k UNWANTED_KEYWORDS = false)
    (Screening.keywords s).
Proof.
  intros H. apply parse_screening_columns in H as (_ & _ & _ & _ & _ & _ & -> & _).
  apply List.Forall_forall. intros k. apply keywords_of_canonical.
Qed.

Lemma decoded_keywords_canonical_witness :
  Forall (fun k => Py.truthy k = true /\ Py.strip k = k
                   /\ Py.str_in k UNWANTED_KEYWORDS = false) ["Q&A"].
Proof.
  apply (decoded_keywords_canonical scenario_row_at_schema scenario_record).
  reflexivity.
Defined.

Lemma in_range_bounds y m d hh mm ss :
  Datetime.in_range y m d hh mm ss = true ->
  1 <= y <= 9999 /\ 1 <= m <= 12 /\ 1 <= d <= Datetime.days_in_month y m
  /\ 0 <= hh <= 23 /\ 0 <= mm <= 59 /\ 0 <= ss <= 59.
Proof.
  unfold Datetime.in_range. rewrite !andb_true_iff, !Z.leb_le. tauto.
Qed.

(** X5.  The date-time of a decoded record is a date of the calendar
    between the years 1 and 9999, at a minute of the day, with no
    seconds; its month is the month field of the row plus one. *)
Theorem decoded_datetime_valid (r : row) (s : Screening.t) :
  parse_screening r = Ok s ->
  let d := Screening.datetime s in
  1 <= Datetime.year d <= 9999
  /\ 1 <= Datetime.month d <= 12
  /\ 1 <= Datetime.day d <= Datetime.days_in_month (Datetime.year d) (Datetime.month d)
  /\ 0 <= Datetime.hour d <= 23
  /\ 0 <= Datetime.minute d <= 59
  /\ Datetime.second d = 0
  /\ exists month, Py.index r Fields.MONTH ≫= Py.int = Ok month
                   /\ Datetime.month d = month + 1.
Proof.
  intros H. apply parse_screening_columns in H as (Hdt & _).
  unfold screening_dt in Hdt.
  apply bind_ok in Hdt as (year & _ & Hdt).
  apply bind_ok in Hdt as (month & Hmonth & Hdt).
  apply bind_ok in Hdt as (day & _ & Hdt).
  apply bind_ok in Hdt as (hour & _ & Hdt).
  apply bind_ok in Hdt as (minute & _ & Hdt).
  apply make_ok in Hdt as [-> Hr]. cbn.
  apply in_range_bounds in Hr. repeat split; try tauto. eauto.
Qed.

Lemma decoded_datetime_valid_witness :
  Datetime.second (Screening.datetime scenario_record) = 0.
Proof.
  apply (decoded_datetime_valid scenario_row_at_schema scenario_record).
  reflexivity.
Defined.

(** ** Codes and venue names *)

Lemma availability_from_code_cases code :
  (exists m, Availability.value m = code /\ Availability.from_code code = m)
  \/ (Availability.from_code code = Availability.UNKNOWN
      /\ forall m, Availability.value m <> code).
Proof.
  unfold Availability.from_code, Availability.members. cbn [List.find Availability.value].
  destruct (Py.str_eq "E" code) eqn:E1;
    [apply str_eq_true in E1 as <-; left; now exists Availability.EXCELLENT |].
  destruct (Py.str_eq "G" code) eqn:E2;
    [apply str_eq_true in E2 as <-; left; now exists Availability.GOOD |].
  destruct (Py.str_eq "L" code) eqn:E3;
    [apply str_eq_true in E3 as <-; left; now exists Availability.LIMITED |].
  destruct (Py.str_eq "S" code) eqn:E4;
    [apply str_eq_true in E4 as <-; left; now exists Availability.SOLD_OUT |].
  destruct (Py.str_eq "?" code) eqn:E5;
    [apply str_eq_true in E5 as <-; left; now exists Availability.UNKNOWN |].
  right. split; [reflexivity |].
  intros [] Hm; cbn in Hm; subst code;
    rewrite str_eq_refl in *; discriminate.
Qed.

Lemma sales_status_from_code_cases code :
  (exists m, SalesStatus.value m = code /\ SalesStatus.from_code code = m)
  \/ (SalesStatus.from_code code = SalesStatus.UNKNOWN
      /\ forall m, SalesStatus.value m <> code).
Proof.
  unfold SalesStatus.from_code, SalesStatus.members. cbn [List.find SalesStatus.value].
  destruct (Py.str_eq "S" code) eqn:E1;
    [apply str_eq_true in E1 as <-; left; now exists SalesStatus.ON_SALE |].
  destruct (Py.str_eq "N" code) eqn:E2;
    [apply str_eq_true in E2 as <-; left; now exists SalesStatus.NOT_ON_SALE |].
  destruct (Py.str_eq "?" code) eqn:E3;
    [apply str_eq_true in E3 as <-; left; now exists SalesStatus.UNKNOWN |].
  right. split; [reflexivity |].
  intros [] Hm; cbn in Hm; subst code;
    rewrite str_eq_refl in *; discriminate.
Qed.

(** X6.  Decoding a status code never fails and loses nothing: a code is
    decoded to the member that carries it, and to [UNKNOWN] when no
    member does; so a member other than [UNKNOWN] is the decoding of its
    own code only.  This holds of availability and of sales status. *)
Theorem from_code_exact (code : string) :
  (forall m, Availability.from_code code = m <->
             Availability.value m = code
             \/ (m = Availability.UNKNOWN /\ forall m', Availability.value m' <> code))
  /\ (forall m, SalesStatus.from_code code = m <->
                SalesStatus.value m = code
                \/ (m = SalesStatus.UNKNOWN /\ forall m', SalesStatus.value m' <> code)).
Proof.
  split; intros m.
  - destruct (availability_from_code_cases code) as [(m0 & <- & H0) | [H0 Hno]].
    + rewrite availability_from_code_value. split.
      * intros <-. now left.
      * intros [H | [_ H]]; [| now destruct (H m0)].
        destruct m0, m; cbn in H; congruence.
    + rewrite H0. split.
      * intros <-. now right.
      * intros [H | [-> _]]; [now destruct (Hno m) | reflexivity].
  - destruct (sales_status_from_code_cases code) as [(m0 & <- & H0) | [H0 Hno]].
    + rewrite sales_status_from_code_value. split.
      * intros <-. now left.
      * intros [H | [_ H]]; [| now destruct (H m0)].
        destruct m0, m; cbn in H; congruence.
    + rewrite H0. split.
      * intros <-. now right.
      * intros [H | [-> _]]; [now destruct (Hno m) | reflexivity].
Qed.

(** X7.  A decoded record is unavailable exactly when the availability
    column of its row holds the code "S". *)
Theorem decoded_sold_out (r : row) (s : Screening.t) :
  parse_screening r = Ok s ->
  (Screening.is_available s = false <-> r !! Fields.AVAILABILITY = Some "S").
Proof.
  intros H. apply parse_screening_columns in H as (_ & _ & _ & _ & (a & Ha & Hav) & _).
  unfold Screening.is_available. rewrite Hav, Ha, negb_false_iff, bool_decide_eq_true.
  destruct (availability_from_code_cases a) as [(m & <- & ->) | [-> Hno]].
  - destruct m; cbn; split; (discriminate || reflexivity || congruence).
  - split; [discriminate |]. intros [= ->]. now destruct (Hno Availability.SOLD_OUT).
Qed.

Lemma decoded_sold_out_witness :
  Screening.is_available vertigo_sold_out = false.
Proof.
  apply (decoded_sold_out
           (required_row "999" "Vertigo" "18:00" "6" "0" "2024" "S" "S") vertigo_sold_out);
    reflexivity.
Defined.

(** X8.  A normalised short venue code has no white space at either end
    and is never one of the two aliases of NFT2; normalising it again
    changes nothing. *)
Theorem normalise_venue_short_canonical (short : string) :
  Py.strip (normalise_venue_short short) = normalise_venue_short short
  /\ Py.str_in (normalise_venue_short short) ["Southbank NFT2 GA"; "NFT2 GA"] = false
  /\ normalise_venue_short (normalise_venue_short short) = normalise_venue_short short.
Proof.
  split; [| split; [| apply normalise_venue_short_idem]].
  - destruct short as [| c r]; [reflexivity |].
    set (s := String c r).
    assert (normalise_venue_short s
            = if Py.str_in (Py.strip s) ["Southbank NFT2 GA"; "NFT2 GA"]
              then "NFT2" else Py.strip s) as -> by reflexivity.
    destruct (Py.str_in _ _); [reflexivity | apply strip_idem].
  - destruct short as [| c r]; [reflexivity |].
    set (s := String c r).
    assert (normalise_venue_short s
            = if Py.str_in (Py.strip s) ["Southbank NFT2 GA"; "NFT2 GA"]
              then "NFT2" else Py.strip s) as -> by reflexivity.
    destruct (Py.str_in (Py.strip s) _) eqn:E; [reflexivity | exact E].
Qed.

(** ** The persisted dictionary, read back *)

Lemma fromisoformat_ok s dt :
  Datetime.fromisoformat s = Ok dt ->
  exists y m d hh mm ss, Datetime.make y m d hh mm ss = Ok dt.
Proof.
  unfold Datetime.fromisoformat.
  generalize (list_ascii_of_string s) as l. intros l.
  do 20 (destruct l as [| ? l]; try (intros H; discriminate H)).
  destruct (_ && _); [| intros H; discriminate H].
  destruct (Datetime.num4 _ _ _ _); [| intros H; discriminate H].
  do 5 (destruct (Datetime.num2 _ _); [| intros H; discriminate H]).
  eauto 8.
Qed.

Lemma item_ok data key s :
  Screening.item data key = Ok s -> data !! key = Some (VStr s).
Proof.
  unfold Screening.item. destruct (data !! key) as [[] |]; try discriminate.
  now intros [= ->].
Qed.

Lemma get_int_absent data key o :
  Screening.get_int data key = Ok o -> data !! key = None -> o = None.
Proof. unfold Screening.get_int. intros H E. rewrite E in H. now injection H. Qed.

Lemma get_str_absent data key o :
  Screening.get_str data key = Ok o -> data !! key = None -> o = None.
Proof. unfold Screening.get_str. intros H E. rewrite E in H. now injection H. Qed.

Lemma get_list_absent data key l :
  Screening.get_list data key = Ok l -> data !! key = None -> l = [].
Proof. unfold Screening.get_list. intros H E. rewrite E in H. now injection H. Qed.

(** What [from_dict] has read when it returns. *)
Lemma from_dict_ok data s :
  Screening.from_dict data = Ok s ->
  exists id_ title_ iso venue_id venue_name venue_short av sa seats kws mn mx url,
    Screening.item data "id" = Ok id_
    /\ Screening.item data "title" = Ok title_
    /\ Screening.item data "datetime" = Ok iso
    /\ Screening.item data "venue_id" = Ok venue_id
    /\ Screening.item data "venue_name" = Ok venue_name
    /\ Screening.item data "venue_short" = Ok venue_short
    /\ Screening.item data "availability" = Ok av
    /\ Screening.item data "sales_status" = Ok sa
    /\ Screening.get_int data "seats_available" = Ok seats
    /\ Screening.get_list data "keywords" = Ok kws
    /\ Screening.get_str data "min_price" = Ok mn
    /\ Screening.get_str data "max_price" = Ok mx
    /\ Screening.get_str data "article_url" = Ok url
    /\ exists dt,
         Datetime.fromisoformat iso = Ok dt
         /\ s = Screening.mk id_ title_ dt
                  (Venue.mk venue_id venue_name (normalise_venue_short venue_short))
                  (Availability.from_code av) (SalesStatus.from_code sa)
                  seats (filter_keywords kws) mn mx url.
Proof.
  unfold Screening.from_dict. intros H.
  apply bind_ok in H as (id_ & Hid & H).
  apply bind_ok in H as (title_ & Htitle & H).
  apply bind_ok in H as (dt & Hdt & H).
  apply bind_ok in Hdt as (iso & Hiso & Hdt).
  apply bind_ok in H as (venue_id & Hvid & H).
  apply bind_ok in H as (venue_name & Hvname & H).
  apply bind_ok in H as (venue_short & Hvshort & H).
  apply bind_ok in H as (av & Hav & H).
  apply bind_ok in H as (sa & Hsa & H).
  apply bind_ok in H as (seats & Hseats & H).
  apply bind_ok in H as (kws & Hkws & H).
  apply bind_ok in H as (mn & Hmn & H).
  apply bind_ok in H as (mx & Hmx & H).
  apply bind_ok in H as (url & Hurl & H).
  injection H as <-.
  exists id_, title_, iso, venue_id, venue_name, venue_short, av, sa, seats, kws, mn, mx, url.
  repeat (split; [assumption |]). now exists dt.
Qed.

(** X9.  A record that [from_dict] returns is written and read back
    unchanged: saving a loaded catalog again and loading it gives the
    same records, whatever dictionary they first came from. *)
Theorem loaded_record_round_trip (data : gmap string pyval) (s : Screening.t) :
  Screening.from_dict data = Ok s ->
  Screening.from_dict (Screening.to_dict s) = Ok s.
Proof.
  intros H. apply from_dict_ok in H
    as (id_ & title_ & iso & vid & vname & vshort & av & sa & seats & kws & mn & mx & url
        & _ & _ & _ & _ & _ & _ & _ & _ & _ & _ & _ & _ & _ & dt & Hdt & ->).
  apply fromisoformat_ok in Hdt as (y & m & d & hh & mm & ss & Hmk).
  rewrite from_dict_to_dict.
  cbn [Screening.id Screening.title Screening.datetime Screening.venue
       Screening.availability Screening.sales_status Screening.seats_available
       Screening.keywords Screening.min_price Screening.max_price
       Screening.article_url Venue.id Venue.name Venue.short_name].
  rewrite (fromisoformat_isoformat _ _ _ _ _ _ _ Hmk). cbn [mbind result_bind].
  now rewrite normalise_venue_short_idem, filter_keywords_idem,
    availability_from_code_value, sales_status_from_code_value.
Qed.

Lemma loaded_record_round_trip_witness :
  Screening.from_dict (Screening.to_dict vertigo) = Ok vertigo.
Proof.
  apply (loaded_record_round_trip (Screening.to_dict vertigo) vertigo).
  vm_compute. reflexivity.
Defined.

Lemma from_dict_required (data : gmap string pyval) (s : Screening.t) :
  Screening.from_dict data = Ok s ->
  Forall (fun key => is_Some (data !! key)) required_keys.
Proof.
  intros H. apply from_dict_ok in H
    as (id_ & title_ & iso & vid & vname & vshort & av & sa & seats & kws & mn & mx & url
        & H1 & H2 & H3 & H4 & H5 & H6 & H7 & H8 & _).
  apply item_ok in H1, H2, H3, H4, H5, H6, H7, H8.
  repeat constructor; eauto.
Qed.

(** X10.  When [from_dict] returns, the dictionary has each of the eight
    keys id, title, datetime, venue_id, venue_name, venue_short,
    availability and sales_status; the five other keys may be missing,
    and a missing one reads as no seat count, no keywords, no price and
    no link. *)
Theorem from_dict_keys (data : gmap string pyval) (s : Screening.t) :
  Screening.from_dict data = Ok s ->
  Forall (fun key => is_Some (data !! key)) required_keys
  /\ (data !! "seats_available" = None -> Screening.seats_available s = None)
  /\ (data !! "keywords" = None -> Screening.keywords s = [])
  /\ (data !! "min_price" = None -> Screening.min_price s = None)
  /\ (data !! "max_price" = None -> Screening.max_price s = None)
  /\ (data !! "article_url" = None -> Screening.article_url s = None).
Proof.
  intros H. split; [exact (from_dict_required data s H) |].
  apply from_dict_ok in H
    as (id_ & title_ & iso & vid & vname & vshort & av & sa & seats & kws & mn & mx & url
        & _ & _ & _ & _ & _ & _ & _ & _ & Hseats & Hkws & Hmn & Hmx & Hurl
        & dt & Hdt & ->).
  cbn.
  split; [apply (get_int_absent _ _ _ Hseats) |].
  split; [intros E; now rewrite (get_list_absent _ _ _ Hkws E) |].
  split; [apply (get_str_absent _ _ _ Hmn) |].
  split; [apply (get_str_absent _ _ _ Hmx) | apply (get_str_absent _ _ _ Hurl)].
Qed.

Lemma from_dict_keys_witness :
  Forall (fun key => is_Some (Screening.to_dict vertigo !! key)) required_keys.
Proof.
  apply (from_dict_keys (Screening.to_dict vertigo) vertigo).
  vm_compute. reflexivity.
Defined.

(** ** The domain list in general *)

Lemma join_app sep a b :
  a <> [] -> b <> [] ->
  Py.join sep (a ++ b) = Py.join sep a +:+ sep +:+ Py.join sep b.
Proof.
  intros Ha Hb. induction a as [| x a IH]; [contradiction |].
  destruct a as [| x' a'].
  - destruct b as [| y ys]; [contradiction |]. reflexivity.
  - cbn [app] in IH |- *. rewrite !join_cons, IH by discriminate.
    now rewrite !append_assoc.
Qed.

Lemma last_n_split {X} (xs : list X) k :
  Py.last_n k xs = drop (length xs - k) xs /\ xs = take (length xs - k) xs ++ Py.last_n k xs.
Proof. unfold Py.last_n. split; [reflexivity | now rewrite take_drop]. Qed.

(** A host with more labels than its parent keeps is a prefix, a dot and
    the parent. *)
Lemma join_last_n domain k :
  (0 < k < length (Py.split "." domain))%nat ->
  exists pre, domain = pre +:+ "." +:+ Py.join "." (Py.last_n k (Py.split "." domain)).
Proof.
  intros Hk. set (parts := Py.split "." domain) in *.
  exists (Py.join "." (take (length parts - k) parts)).
  rewrite <- (join_split domain) at 1. fold parts.
  rewrite (proj2 (last_n_split parts k)) at 1.
  apply join_app.
  - intros E. apply (f_equal length) in E. rewrite length_take in E. cbn in E. lia.
  - intros E. apply (f_equal length) in E. unfold Py.last_n in E.
    rewrite length_drop in E. cbn in E. lia.
Qed.

Lemma parent_domain_suffix domain parent :
  parent_domain domain = Some parent ->
  (2 < length (Py.split "." domain))%nat
  /\ exists pre, domain = pre +:+ "." +:+ parent.
Proof.
  unfold parent_domain.
  destruct (2 <=? length (Py.split "." domain))%nat eqn:E2; [| discriminate].
  destruct (Py.str_in _ two_part_tlds && (3 <? length (Py.split "." domain))%nat) eqn:E3.
  - apply andb_true_iff in E3 as [_ E3]. apply Nat.ltb_lt in E3.
    intros [= <-]. split; [lia |]. apply join_last_n. lia.
  - destruct (2 <? length (Py.split "." domain))%nat eqn:E4; [| discriminate].
    apply Nat.ltb_lt in E4. intros [= <-]. split; [lia |]. apply join_last_n. lia.
Qed.

(** X11.  The domains searched are the host, the host with a leading dot
    and, at most, one more name with and without a leading dot; that name
    is what follows a dot inside the host, so no cookie of an unrelated
    domain is ever asked for.  A host of one or two labels is searched
    alone. *)
Theorem domains_to_search_shape (domain : string) :
  exists tail,
    domains_to_search domain = [domain; "." +:+ domain] ++ tail
    /\ (tail = []
        \/ exists pre parent,
             tail = ["." +:+ parent; parent] /\ domain = pre +:+ "." +:+ parent)
    /\ ((length (Py.split "." domain) <= 2)%nat -> tail = []).
Proof.
  unfold domains_to_search.
  destruct (parent_domain domain) as [parent |] eqn:E.
  - apply parent_domain_suffix in E as [Hlen [pre Hpre]].
    destruct (Py.truthy parent && negb (Py.str_eq parent domain)).
    + eexists. split; [reflexivity |]. split; [right; eauto | lia].
    + exists []. split; [reflexivity |]. split; [now left | reflexivity].
  - exists []. split; [reflexivity |]. split; [now left | reflexivity].
Qed.

(** X12.  For a host of three labels or more whose last two labels are
    not a known suffix, the parent is the last two labels: the list is
    the host, the dotted host, the dotted parent and the parent. *)
Theorem domains_two_label_parent (domain : string) (pre : list string) (x l2 l1 : string) :
  Py.split "." domain = pre ++ [x; l2; l1] ->
  Py.str_in (Py.join "." [l2; l1]) two_part_tlds = false ->
  domains_to_search domain
  = [domain; "." +:+ domain; "." +:+ Py.join "." [l2; l1]; Py.join "." [l2; l1]].
Proof.
  intros Hsplit Htld.
  assert (Py.last_n 2 (pre ++ [x; l2; l1]) = [l2; l1]) as H2.
  { replace (pre ++ [x; l2; l1]) with ((pre ++ [x]) ++ [l2; l1])
      by now rewrite <- app_assoc.
    now apply last_n_app. }
  assert (parent_domain domain = Some (Py.join "." [l2; l1])) as Hp.
  { unfold parent_domain. rewrite Hsplit, H2, Htld, length_app. cbn [length andb].
    replace (2 <=? length pre + 3)%nat with true by (symmetry; apply Nat.leb_le; lia).
    now replace (2 <? length pre + 3)%nat with true by (symmetry; apply Nat.ltb_lt; lia). }
  unfold domains_to_search. rewrite Hp.
  assert (Py.truthy (Py.join "." [l2; l1]) = true) as -> by (destruct l2; reflexivity).
  destruct (Py.str_eq _ domain) eqn:E; [| reflexivity].
  apply str_eq_true in E. apply parent_domain_suffix in Hp as [_ [pre' Hpre]].
  apply (f_equal String.length) in Hpre. rewrite <- E, !length_append in Hpre.
  cbn in Hpre. lia.
Qed.

Lemma domains_two_label_parent_witness :
  domains_to_search "www.example.com"
  = ["www.example.com"; ".www.example.com"; ".example.com"; "example.com"].
Proof.
  apply (domains_two_label_parent "www.example.com" [] "www" "example" "com");
    reflexivity.
Defined.

(** ** What [load_cookies] returns *)

Lemma collect_snoc rows c :
  collect (rows ++ [c]) = <[Store.name c := Store.value c]> (collect rows).
Proof. unfold collect. now rewrite foldl_app. Qed.

Lemma collect_lookup_Some rows n v :
  collect rows !! n = Some v ->
  exists c, In c rows /\ Store.name c = n /\ Store.value c = v.
Proof.
  induction rows as [| c rows IH] using rev_ind; [discriminate |].
  rewrite collect_snoc. destruct (decide (Store.name c = n)) as [<- | Hne].
  - rewrite lookup_insert_eq. intros [= <-]. exists c.
    rewrite in_app_iff. cbn. auto.
  - rewrite lookup_insert_ne by assumption. intros H.
    destruct (IH H) as (c' & Hin & Hn & Hv). exists c'.
    rewrite in_app_iff. auto.
Qed.

Lemma collect_lookup_last pre c post :
  (forall c', In c' post -> Store.name c' <> Store.name c) ->
  collect (pre ++ c :: post) !! Store.name c = Some (Store.value c).
Proof.
  induction post as [| c' post IH] using rev_ind; intros Hpost.
  - change (pre ++ [c]) with (pre ++ [c]). rewrite collect_snoc. apply lookup_insert_eq.
  - replace (pre ++ c :: post ++ [c']) with ((pre ++ c :: post) ++ [c'])
      by now rewrite <- app_assoc.
    rewrite collect_snoc, lookup_insert_ne.
    + apply IH. intros c'' Hin. apply Hpost. rewrite in_app_iff. auto.
    + apply Hpost. rewrite in_app_iff. cbn. auto.
Qed.

Lemma collect_empty rows : collect rows = ∅ <-> rows = [].
Proof.
  split; [| now intros ->].
  destruct rows as [| c rows] using rev_ind; [reflexivity |].
  rewrite collect_snoc. intros H. now apply insert_non_empty in H.
Qed.

Lemma filter_split_last {X} (p : X -> bool) pre c post :
  p c = true ->
  List.filter p (pre ++ c :: post) = List.filter p pre ++ c :: List.filter p post.
Proof. intros Hc. rewrite List.filter_app. cbn. now rewrite Hc. Qed.

(** The mapping [load_cookies] returns is collected from the rows of the
    table whose host is searched. *)
Lemma load_cookies_ok e domain fs cookies :
  (load_cookies e domain fs).1 = Ok cookies ->
  exists table,
    Store.moz_cookies e = Some table
    /\ cookies = collect (List.filter (searched domain) table)
    /\ List.filter (searched domain) table <> [].
Proof.
  unfold load_cookies. destruct (Store.profile_path e) as [profile |]; [| discriminate].
  rewrite run_bind, run_path_exists. destruct (bool_decide _); [| discriminate].
  cbn [negb]. rewrite run_bind. unfold copy2.
  destruct (Store.copy_fails e || _); [discriminate |].
  rewrite try_finally_result. unfold query_store. rewrite run_bind. unfold lift at 1.
  destruct (Store.connect_fails e); [discriminate |].
  rewrite run_bind. unfold lift, select_cookies.
  destruct (Store.moz_cookies e) as [table |]; [| discriminate].
  fold (searched domain). case_bool_decide as Hempty; [discriminate |].
  intros [= <-]. exists table. repeat split.
  intros E. apply Hempty. now rewrite E.
Qed.

(** X13.  When [load_cookies] returns, the mapping is not empty, every
    entry is the name and value of a stored cookie whose host is one of
    the domains searched, and every such cookie has its name in the
    mapping. *)
Theorem load_cookies_sound (e : Store.env) (domain : string) (fs : gset string)
    (cookies : gmap string string) :
  (load_cookies e domain fs).1 = Ok cookies ->
  exists table,
    Store.moz_cookies e = Some table
    /\ cookies <> ∅
    /\ (forall n v, cookies !! n = Some v ->
          exists c, In c table /\ In (Store.host c) (domains_to_search domain)
                    /\ Store.name c = n /\ Store.value c = v)
    /\ (forall c, In c table -> In (Store.host c) (domains_to_search domain) ->
          is_Some (cookies !! Store.name c)).
Proof.
  intros H. apply load_cookies_ok in H as (table & Ht & -> & Hne).
  assert (forall c, searched domain c = true <-> In (Store.host c) (domains_to_search domain))
    as Hs.
  { intros c. unfold searched, Py.str_in. rewrite existsb_exists. split.
    - intros (x & Hx & Heq). apply str_eq_true in Heq. now subst.
    - intros Hin. exists (Store.host c). split; [assumption | apply str_eq_refl]. }
  exists table. split; [assumption |]. split; [now rewrite collect_empty |]. split.
  - intros n v Hnv. apply collect_lookup_Some in Hnv as (c & Hin & Hn & Hv).
    apply filter_In in Hin as [Hin Hc]. exists c. rewrite <- Hs. auto.
  - intros c Hin Hc. apply Hs in Hc.
    assert (In c (List.filter (searched domain) table)) as Hf by (apply filter_In; auto).
    apply in_split in Hf as (pre & post & Hf). rewrite Hf.
    clear -post. revert pre. induction post as [| c' post IH] using rev_ind; intros pre.
    + rewrite collect_snoc, lookup_insert_eq. eauto.
    + replace (pre ++ c :: post ++ [c']) with ((pre ++ c :: post) ++ [c'])
        by now rewrite <- app_assoc.
      rewrite collect_snoc. destruct (decide (Store.name c' = Store.name c)) as [-> | Hn].
      * rewrite lookup_insert_eq. eauto.
      * rewrite lookup_insert_ne by assumption. apply IH.
Qed.

Lemma load_cookies_sound_witness :
  exists table,
    Store.moz_cookies demo_env = Some table
    /\ demo_cookies <> ∅
    /\ (forall n v, demo_cookies !! n = Some v ->
          exists c, In c table /\ In (Store.host c) (domains_to_search "whatson.bfi.org.uk")
                    /\ Store.name c = n /\ Store.value c = v)
    /\ (forall c, In c table -> In (Store.host c) (domains_to_search "whatson.bfi.org.uk") ->
          is_Some (demo_cookies !! Store.name c)).
Proof.
  apply (load_cookies_sound demo_env "whatson.bfi.org.uk" demo_fs demo_cookies).
  vm_compute. reflexivity.
Defined.

(** X14.  When two stored cookies of the searched domains have the same
    name, the mapping holds the value of the one that comes last in the
    table. *)
Theorem load_cookies_last_wins (e : Store.env) (domain : string) (fs : gset string)
    (cookies : gmap string string) (pre post : list Store.cookie) (c : Store.cookie) :
  (load_cookies e domain fs).1 = Ok cookies ->
  Store.moz_cookies e = Some (pre ++ c :: post) ->
  searched domain c = true ->
  (forall c', In c' post -> searched domain c' = true -> Store.name c' <> Store.name c) ->
  cookies !! Store.name c = Some (Store.value c).
Proof.
  intros H Ht Hc Hpost. apply load_cookies_ok in H as (table & Ht' & -> & _).
  rewrite Ht in Ht'. injection Ht' as <-.
  rewrite (filter_split_last _ _ _ _ Hc). apply collect_lookup_last.
  intros c' Hin. apply filter_In in Hin as [Hin Hs]. now apply Hpost.
Qed.

Lemma load_cookies_last_wins_witness :
  ({[ "sid" := "new" ]} : gmap string string) !! "sid" = Some "new".
Proof.
  apply (load_cookies_last_wins env_two_values "whatson.bfi.org.uk" demo_fs
           {[ "sid" := "new" ]} [Store.Cookie "sid" "old" "whatson.bfi.org.uk"] []
           (Store.Cookie "sid" "new" ".bfi.org.uk")).
  - vm_compute. reflexivity.
  - reflexivity.
  - reflexivity.
  - intros c' [].
Defined.

(** X15.  [load_cookies] creates and removes no file but the temporary
    copy: whatever the store and the outcome, every other path exists
    afterwards exactly when it existed before, the cookie store among
    them. *)
Theorem load_cookies_touches_temp_only (e : Store.env) (domain path : string)
    (fs : gset string) :
  path <> temp_db ->
  (path ∈ (load_cookies e domain fs).2 <-> path ∈ fs).
Proof.
  intros Hp. unfold load_cookies.
  destruct (Store.profile_path e) as [profile |]; [| reflexivity].
  rewrite run_bind, run_path_exists.
  destruct (bool_decide (profile +:+ "/cookies.sqlite" ∈ fs)); [| reflexivity].
  cbn [negb]. rewrite run_bind. unfold copy2.
  destruct (Store.copy_fails e || _); [reflexivity |].
  rewrite try_finally_files, query_store_files. set_solver.
Qed.

Lemma load_cookies_touches_temp_only_witness :
  "/home/u/.mozilla/firefox/abc.default-release/cookies.sqlite"
    ∈ (load_cookies demo_env "whatson.bfi.org.uk" demo_fs).2
  <-> "/home/u/.mozilla/firefox/abc.default-release/cookies.sqlite" ∈ demo_fs.
Proof.
  apply (load_cookies_touches_temp_only demo_env "whatson.bfi.org.uk"
           "/home/u/.mozilla/firefox/abc.default-release/cookies.sqlite" demo_fs).
  vm_compute. discriminate.
Defined.

(** X16.  With a profile, a store file, a copy and a connection that all
    succeed and a table that can be read, [load_cookies] raises the
    no-cookies error exactly when no stored cookie has a searched host,
    and returns otherwise. *)
Theorem load_cookies_no_match (e : Store.env) (domain profile : string)
    (fs : gset string) (table : list Store.cookie) :
  Store.profile_path e = Some profile ->
  profile +:+ "/cookies.sqlite" ∈ fs ->
  Store.copy_fails e = false ->
  Store.connect_fails e = false ->
  Store.moz_cookies e = Some table ->
  ((load_cookies e domain fs).1 = Raise no_cookies
   <-> forall c, In c table -> searched domain c = false)
  /\ ((exists c, In c table /\ searched domain c = true)
      -> exists cookies, (load_cookies e domain fs).1 = Ok cookies).
Proof.
  intros Hp Hdb Hcopy Hconn Ht.
  assert ((load_cookies e domain fs).1
          = if bool_decide (collect (List.filter (searched domain) table) = ∅)
            then Raise no_cookies
            else Ok (collect (List.filter (searched domain) table))) as ->.
  { unfold load_cookies. rewrite Hp, run_bind, run_path_exists.
    rewrite (bool_decide_eq_true_2 _ Hdb). cbn [negb]. rewrite run_bind. unfold copy2.
    rewrite Hcopy, (bool_decide_eq_true_2 _ Hdb). cbn [negb orb].
    rewrite try_finally_result. unfold query_store. rewrite run_bind. unfold lift at 1.
    rewrite Hconn, run_bind. unfold lift, select_cookies. rewrite Ht.
    fold (searched domain). now case_bool_decide. }
  assert (List.filter (searched domain) table = []
          <-> forall c, In c table -> searched domain c = false) as Hnone.
  { split.
    - intros E c Hin. destruct (searched domain c) eqn:Hc; [| reflexivity].
      assert (In c (List.filter (searched domain) table)) as Hf by (apply filter_In; auto).
      rewrite E in Hf. destruct Hf.
    - intros Hall. destruct (List.filter (searched domain) table) as [| c l] eqn:E;
        [reflexivity |].
      assert (In c (List.filter (searched domain) table)) as Hf by (rewrite E; now left).
      apply filter_In in Hf as [Hin Hc]. rewrite (Hall c Hin) in Hc. discriminate. }
  case_bool_decide as Hempty; rewrite collect_empty in Hempty.
  - split; [split; [intros _; now apply Hnone | reflexivity] |].
    intros (c & Hin & Hc). rewrite (proj1 Hnone Hempty c Hin) in Hc. discriminate.
  - split; [split; [discriminate | intros Hall; now destruct (Hempty (proj2 Hnone Hall))] |].
    eauto.
Qed.

Lemma load_cookies_no_match_witness :
  (load_cookies env_no_match "whatson.bfi.org.uk" demo_fs).1 = Raise no_cookies
  <-> forall c, In c [Store.Cookie "other" "x" "example.com"] ->
                searched "whatson.bfi.org.uk" c = false.
Proof.
  apply (load_cookies_no_match env_no_match "whatson.bfi.org.uk"
           "/home/u/.mozilla/firefox/abc.default-release" demo_fs
           [Store.Cookie "other" "x" "example.com"]).
  - reflexivity.
  - vm_compute. reflexivity.
  - reflexivity.
  - reflexivity.
  - reflexivity.
Defined.

(** ** Substrings and lower case *)

Lemma prefix_app a s :
  String.prefix a s = true <-> exists post, s = a +:+ post.
Proof.
  revert s. induction a as [| c a IH]; intros s.
  - split; [intros _; now exists s | intros _; now destruct s].
  - destruct s as [| c' s]; cbn;
      [split; [discriminate | intros [post H]; discriminate H] |].
    destruct (Ascii.ascii_dec c c') as [<- | Hne].
    + rewrite IH. split; intros [post H]; exists post.
      * now rewrite append_cons, H.
      * rewrite append_cons in H. now injection H.
    + split; [discriminate |]. intros [post H]. rewrite append_cons in H.
      injection H as H _. now destruct Hne.
Qed.

Lemma contains_app a s :
  Py.contains a s = true <-> exists pre post, s = pre +:+ a +:+ post.
Proof.
  induction s as [| c s IH].
  - cbn [Py.contains]. rewrite orb_false_r, prefix_app. split.
    + intros [post H]. now exists EmptyString, post.
    + intros (pre & post & H). destruct pre as [| c' pre]; [now exists post |].
      rewrite append_cons in H. discriminate H.
  - cbn [Py.contains]. rewrite orb_true_iff, prefix_app, IH. split.
    + intros [[post H] | (pre & post & H)].
      * now exists EmptyString, post.
      * exists (String c pre), post. now rewrite append_cons, H.
    + intros (pre & post & H). destruct pre as [| c' pre].
      * left. now exists post.
      * right. rewrite append_cons in H. injection H as _ H. eauto.
Qed.

Lemma lower_app a b : lower (a +:+ b) = lower a +:+ lower b.
Proof.
  induction a as [| c a IH]; [reflexivity |].
  rewrite append_cons. cbn [lower]. now rewrite append_cons, IH.
Qed.

Lemma lower_char_idem c : lower_char (lower_char c) = lower_char c.
Proof. destruct c as [[] [] [] [] [] [] [] []]; reflexivity. Qed.

Lemma lower_idem s : lower (lower s) = lower s.
Proof.
  induction s as [| c s IH]; [reflexivity |].
  cbn [lower]. now rewrite lower_char_idem, IH.
Qed.

(** What contains a string contains it in lower case too. *)
Lemma contains_lower a s :
  Py.contains a s = true -> Py.contains (lower a) (lower s) = true.
Proof.
  rewrite !contains_app. intros (pre & post & ->).
  exists (lower pre), (lower post). now rewrite !lower_app.
Qed.

Lemma contains_tail c a s :
  Py.contains (String c a) s = true -> Py.contains a s = true.
Proof.
  rewrite !contains_app. intros (pre & post & ->).
  exists (pre +:+ String c EmptyString), post.
  now rewrite append_assoc, append_cons.
Qed.

(** ** The Firefox profile *)

Lemma is_profile_dir_lower i :
  is_profile_dir i = Host.is_dir i && Py.contains "default" (lower (Host.name i)).
Proof.
  unfold is_profile_dir. destruct (Host.is_dir i); [| reflexivity]. cbn [andb].
  destruct (Py.contains ".default" (Host.name i)) eqn:E; [| reflexivity].
  apply contains_lower, contains_tail in E. cbn [orb]. symmetry. exact E.
Qed.

(** X17.  An entry of the Firefox directory counts as a profile exactly
    when it is a directory whose name, in lower case, contains "default":
    the test for ".default" in the name as it is written selects nothing
    more. *)
Theorem profile_test_redundant (i : Host.item) :
  is_profile_dir i = Host.is_dir i && Py.contains "default" (lower (Host.name i)).
Proof. apply is_profile_dir_lower. Qed.

Lemma find_first {X} (p : X -> bool) xs x :
  List.find p xs = Some x ->
  exists before after,
    xs = before ++ x :: after /\ p x = true /\ forall y, In y before -> p y = false.
Proof.
  induction xs as [| z xs IH]; [discriminate |]. cbn.
  destruct (p z) eqn:E.
  - intros [= <-]. exists [], xs. repeat split; [assumption | intros y []].
  - intros H. destruct (IH H) as (before & after & -> & Hx & Hb).
    exists (z :: before), after. repeat split; [assumption |].
    intros y [<- | Hy]; [assumption | now apply Hb].
Qed.

Lemma find_filter {X} (p q : X -> bool) xs :
  List.find p (List.filter q xs) = List.find (fun x => q x && p x) xs.
Proof.
  induction xs as [| z xs IH]; [reflexivity |]. cbn.
  destruct (q z); cbn; [now rewrite IH | exact IH].
Qed.

Lemma find_none_all {X} (p : X -> bool) xs :
  List.find p xs = None <-> forall y, In y xs -> p y = false.
Proof.
  split; [apply find_none |].
  induction xs as [| z xs IH]; [reflexivity |]. intros H. cbn.
  rewrite (H z) by now left. apply IH. intros y Hy. apply H. now right.
Qed.

Lemma filter_head {X} (q : X -> bool) xs x rest :
  List.filter q xs = x :: rest ->
  exists before after,
    xs = before ++ x :: after /\ q x = true /\ forall y, In y before -> q y = false.
Proof.
  induction xs as [| z xs IH]; [discriminate |]. cbn.
  destruct (q z) eqn:E.
  - intros [= <- _]. exists [], xs. repeat split; [assumption | intros y []].
  - intros H. destruct (IH H) as (before & after & -> & Hx & Hb).
    exists (z :: before), after. repeat split; [assumption |].
    intros y [<- | Hy]; [assumption | now apply Hb].
Qed.

(** X18.  The profile [get_firefox_profile_path] returns is an entry of
    the Firefox directory of the platform, a directory whose lower-case
    name contains "default".  It is the first entry, in the order the
    directory is listed, that is a profile named ".default-release" when
    there is one, and the first profile otherwise. *)
Theorem profile_selected (h : Host.env) (profile : list string) :
  get_firefox_profile_path h = Ok (Some profile) ->
  exists dir before item after,
    firefox_dir h = Some dir
    /\ Host.path_exists h dir = true
    /\ Host.iterdir h dir = Ok (before ++ item :: after)
    /\ profile = dir ++ [Host.name item]
    /\ Host.is_dir item = true
    /\ Py.contains "default" (lower (Host.name item)) = true
    /\ ((is_release_profile item = true
         /\ forall j, In j before -> is_release_profile j = false)
        \/ ((forall j, In j (before ++ item :: after) -> is_release_profile j = false)
            /\ forall j, In j before -> is_profile_dir j = false)).
Proof.
  unfold get_firefox_profile_path.
  destruct (firefox_dir h) as [dir |]; [| discriminate].
  destruct (Host.path_exists h dir) eqn:Hex; [| discriminate]. cbn [negb].
  destruct (Host.iterdir h dir) as [items | e] eqn:Hit; [| discriminate].
  cbn [mbind result_bind]. rewrite find_filter. fold is_release_profile.
  destruct (List.find is_release_profile items) as [item |] eqn:Hfind.
  - intros [= <-]. apply find_first in Hfind as (before & after & -> & Hitem & Hb).
    exists dir, before, item, after.
    pose proof Hitem as Hp. unfold is_release_profile in Hp.
    apply andb_true_iff in Hp as [Hp _]. rewrite is_profile_dir_lower in Hp.
    apply andb_true_iff in Hp as [Hd Hn]. repeat split; auto.
  - destruct (List.filter is_profile_dir items) as [| item rest] eqn:Hf; [discriminate |].
    intros [= <-]. apply filter_head in Hf as (before & after & -> & Hitem & Hb).
    exists dir, before, item, after.
    pose proof Hitem as Hp. rewrite is_profile_dir_lower in Hp.
    apply andb_true_iff in Hp as [Hd Hn]. repeat split; auto.
    right. split; [now apply find_none_all | assumption].
Qed.

Lemma profile_selected_witness :
  exists dir before item after,
    firefox_dir linux_host = Some dir
    /\ Host.path_exists linux_host dir = true
    /\ Host.iterdir linux_host dir = Ok (before ++ item :: after)
    /\ ["/home/u"; ".mozilla"; "firefox"; "abc.default-release"] = dir ++ [Host.name item]
    /\ Host.is_dir item = true
    /\ Py.contains "default" (lower (Host.name item)) = true
    /\ ((is_release_profile item = true
         /\ forall j, In j before -> is_release_profile j = false)
        \/ ((forall j, In j (before ++ item :: after) -> is_release_profile j = false)
            /\ forall j, In j before -> is_profile_dir j = false)).
Proof.
  apply (profile_selected linux_host
           ["/home/u"; ".mozilla"; "firefox"; "abc.default-release"]).
  reflexivity.
Defined.

(** X19.  [get_firefox_profile_path] finds no profile exactly when the
    platform is none of Linux, Darwin and Windows, or the Firefox
    directory does not exist, or none of its entries is a directory with
    "default" in its lower-case name. *)
Theorem profile_not_found (h : Host.env) :
  get_firefox_profile_path h = Ok None <->
  firefox_dir h = None
  \/ (exists dir, firefox_dir h = Some dir /\ Host.path_exists h dir = false)
  \/ (exists dir items,
        firefox_dir h = Some dir /\ Host.path_exists h dir = true
        /\ Host.iterdir h dir = Ok items
        /\ forall j, In j items ->
             Host.is_dir j && Py.contains "default" (lower (Host.name j)) = false).
Proof.
  unfold get_firefox_profile_path.
  destruct (firefox_dir h) as [dir |]; [| split; [now left | reflexivity]].
  destruct (Host.path_exists h dir) eqn:Hex; cbn [negb].
  - destruct (Host.iterdir h dir) as [items | e] eqn:Hit; cbn [mbind result_bind].
    + rewrite find_filter. fold is_release_profile.
      destruct (List.find is_release_profile items) as [item |] eqn:Hfind.
      * split; [discriminate |].
        intros [H | [(d & [= <-] & H) | (d & its & [= <-] & _ & Hi & H)]];
          [discriminate | congruence |].
        rewrite Hit in Hi. injection Hi as <-.
        apply find_some in Hfind as [Hin Hr]. unfold is_release_profile in Hr.
        apply andb_true_iff in Hr as [Hr _]. rewrite is_profile_dir_lower in Hr.
        rewrite (H item Hin) in Hr. discriminate.
      * destruct (List.filter is_profile_dir items) as [| item rest] eqn:Hf.
        -- split; [intros _ | reflexivity]. right. right. exists dir, items.
           split; [reflexivity |]. split; [assumption |]. split; [assumption |].
           intros j Hj. rewrite <- is_profile_dir_lower.
           destruct (is_profile_dir j) eqn:Ej; [| reflexivity].
           assert (In j (List.filter is_profile_dir items)) as Hin by (apply filter_In; auto).
           rewrite Hf in Hin. destruct Hin.
        -- split; [discriminate |].
           intros [H | [(d & [= <-] & H) | (d & its & [= <-] & _ & Hi & H)]];
             [discriminate | congruence |].
           rewrite Hit in Hi. injection Hi as <-.
           assert (In item (List.filter is_profile_dir items)) as Hin by (rewrite Hf; now left).
           apply filter_In in Hin as [Hin Hp]. rewrite is_profile_dir_lower in Hp.
           rewrite (H item Hin) in Hp. discriminate.
    + split; [discriminate |].
      intros [H | [(d & [= <-] & H) | (d & its & [= <-] & _ & H & _)]]; congruence.
  - split; [intros _; right; left; eauto | reflexivity].
Qed.

(** ** The scrape as a whole *)

Lemma decoded_in rows s :
  In s (decoded rows) <->
  exists r, In r rows /\ parse_screening r = Ok s /\ is_placeholder s = false.
Proof.
  unfold decoded. rewrite in_flat_map. split.
  - intros (r & Hr & Hs). exists r. split; [assumption |].
    destruct (parse_screening r) as [s' | e]; [| destruct Hs].
    destruct (is_placeholder s') eqn:E; [destruct Hs |].
    destruct Hs as [<- | []]. now split.
  - intros (r & Hr & Hp & Hn). exists r. split; [assumption |].
    rewrite Hp, Hn. now left.
Qed.

Lemma day_records_ok get embedded_rows cookies i recs :
  day_records get embedded_rows cookies i = Ok recs ->
  exists response rows,
    get cookies i = Ok response
    /\ ~ (400 <= status_code response < 600)
    /\ extract_search_results embedded_rows (text response) = Ok rows
    /\ recs = decoded rows.
Proof.
  unfold day_records. intros H.
  apply bind_ok in H as (html_content & Hf & H).
  apply bind_ok in H as (rows & Hx & H). injection H as <-.
  unfold fetch_single_day in Hf. apply bind_ok in Hf as (response & Hg & Hf).
  case_bool_decide as H403; [discriminate |].
  case_bool_decide as Herr; [discriminate |]. injection Hf as <-.
  now exists response, rows.
Qed.

Lemma Forall2_seq_lookup {X} (P : nat -> X -> Prop) n (xs : list X) :
  Forall2 P (seq 0 n) xs ->
  (forall i, (i < n)%nat -> exists x, xs !! i = Some x /\ P i x)
  /\ (forall x, In x xs -> exists i, (i < n)%nat /\ P i x).
Proof.
  intros H. split.
  - intros i Hi.
    assert (seq 0 n !! i = Some i) as Hs by (apply lookup_seq; lia).
    destruct (Forall2_lookup_l _ _ _ _ _ H Hs) as (x & Hx & HP). eauto.
  - intros x Hx. apply list_elem_of_In, list_elem_of_lookup in Hx as [i Hx].
    destruct (Forall2_lookup_r _ _ _ _ _ H Hx) as (j & Hj & HP).
    apply lookup_seq in Hj as [-> Hlt]. eauto.
Qed.

(** X20.  Every record a scrape returns was decoded from a row of the
    page of one of the days asked for, fetched with a status outside 400
    to 599, and is not the placeholder entry "Library Research Session". *)
Theorem scrape_provenance
    (get : gmap string string -> nat -> result response)
    (embedded_rows : string -> list row) (e : Store.env) (days_ahead : Z)
    (fs : gset string) (result : list Screening.t) (s : Screening.t) :
  (scrape_screenings get embedded_rows e days_ahead fs).1 = Ok result ->
  In s result ->
  Py.strip (Screening.title s) <> "Library Research Session"
  /\ exists cookies i response rows r,
       (load_cookies e "whatson.bfi.org.uk" fs).1 = Ok cookies
       /\ (i < Z.to_nat days_ahead)%nat
       /\ get cookies i = Ok response
       /\ ~ (400 <= status_code response < 600)
       /\ extract_search_results embedded_rows (text response) = Ok rows
       /\ In r rows
       /\ parse_screening r = Ok s.
Proof.
  intros H Hs.
  apply scrape_screenings_ok in H as (cookies & all_screenings & Hc & Hg & ->).
  apply gather_ok in Hg as (days & Hdays & ->).
  apply (Permutation_in _ (Permutation_sym (sort_by_perm by_datetime _))) in Hs.
  apply kept_first_seen in Hs as (before & after & Hcat & _).
  assert (In s (concat days)) as Hin by (rewrite Hcat, in_app_iff; cbn; auto).
  apply in_concat in Hin as (recs & Hrecs & Hin).
  apply Forall2_seq_lookup in Hdays as [_ Hdays].
  destruct (Hdays recs Hrecs) as (i & Hi & Hday).
  apply day_records_ok in Hday as (response & rows & Hget & Hstatus & Hx & ->).
  apply decoded_in in Hin as (r & Hr & Hp & Hn).
  split.
  - unfold is_placeholder in Hn. intros E. rewrite E in Hn. discriminate.
  - exists cookies, i, response, rows, r. auto 10.
Qed.

Lemma scrape_provenance_witness :
  Py.strip (Screening.title psycho) <> "Library Research Session".
Proof.
  apply (scrape_provenance two_days_get two_days_rows demo_env 2 demo_fs [psycho; vertigo] psycho).
  - vm_compute. reflexivity.
  - now left.
Defined.

(** X21.  A scrape returns only when every one of the days asked for was
    fetched with a status outside 400 to 599 and gave a page that is no
    challenge page. *)
Theorem scrape_every_day_fetched
    (get : gmap string string -> nat -> result response)
    (embedded_rows : string -> list row) (e : Store.env) (days_ahead : Z)
    (fs : gset string) (result : list Screening.t) :
  (scrape_screenings get embedded_rows e days_ahead fs).1 = Ok result ->
  exists cookies,
    (load_cookies e "whatson.bfi.org.uk" fs).1 = Ok cookies
    /\ forall i, (i < Z.to_nat days_ahead)%nat ->
         exists response rows,
           get cookies i = Ok response
           /\ ~ (400 <= status_code response < 600)
           /\ extract_search_results embedded_rows (text response) = Ok rows.
Proof.
  intros H.
  apply scrape_screenings_ok in H as (cookies & all_screenings & Hc & Hg & ->).
  apply gather_ok in Hg as (days & Hdays & ->).
  exists cookies. split; [assumption |]. intros i Hi.
  apply Forall2_seq_lookup in Hdays as [Hdays _].
  destruct (Hdays i Hi) as (recs & _ & Hday).
  apply day_records_ok in Hday as (response & rows & Hget & Hstatus & Hx & _).
  eauto.
Qed.

Lemma scrape_every_day_fetched_witness :
  exists cookies,
    (load_cookies demo_env "whatson.bfi.org.uk" demo_fs).1 = Ok cookies
    /\ forall i, (i < Z.to_nat 2)%nat ->
         exists response rows,
           two_days_get cookies i = Ok response
           /\ ~ (400 <= status_code response < 600)
           /\ extract_search_results two_days_rows (text response) = Ok rows.
Proof.
  apply (scrape_every_day_fetched two_days_get two_days_rows demo_env 2 demo_fs
           [psycho; vertigo]).
  vm_compute. reflexivity.
Defined.

(** X22.  Asking for more days only appends: the collection gathered
    over the first [m] days, before the sort, is the beginning of the
    collection gathered over [n] days for every [n] from [m] on. *)
Theorem gather_prefix
    (get : gmap string string -> nat -> result response)
    (embedded_rows : string -> list row) (cookies : gmap string string)
    (m n : Z) (longer : list Screening.t) :
  m <= n ->
  gather get embedded_rows cookies n = Ok longer ->
  exists shorter extra,
    gather get embedded_rows cookies m = Ok shorter
    /\ longer = shorter ++ extra.
Proof.
  intros Hmn. unfold gather.
  replace (Z.to_nat n) with (Z.to_nat m + (Z.to_nat n - Z.to_nat m))%nat by lia.
  rewrite seq_app, for_each_app. intros H.
  apply bind_ok in H as (st' & H & Heq). injection Heq as <-.
  apply bind_ok in H as (st & Hm & Hrest). rewrite Hm.
  apply days_loop_ok in Hrest as (days & _ & H1 & _).
  exists st.1, (kept st.2 (concat days)). split; [reflexivity | exact H1].
Qed.

Lemma gather_prefix_witness :
  exists shorter extra,
    gather two_days_get two_days_rows demo_cookies 1 = Ok shorter
    /\ [vertigo; psycho] = shorter ++ extra.
Proof.
  apply (gather_prefix two_days_get two_days_rows demo_cookies 1 2 [vertigo; psycho]).
  - lia.
  - vm_compute. reflexivity.
Defined.

(** ** Filtering *)

Lemma filter_filter {X} (p q : X -> bool) xs :
  List.filter p (List.filter q xs) = List.filter (fun x => q x && p x) xs.
Proof.
  induction xs as [| x xs IH]; [reflexivity |]. cbn.
  destruct (q x); cbn; [destruct (p x); now rewrite IH | exact IH].
Qed.

Lemma filter_ext_bool {X} (p q : X -> bool) xs :
  (forall x, p x = q x) -> List.filter p xs = List.filter q xs.
Proof. intros H. apply List.filter_ext. exact H. Qed.

Lemma filter_true {X} (xs : list X) : List.filter (fun _ => true) xs = xs.
Proof. induction xs as [| x xs IH]; [reflexivity |]. cbn. now rewrite IH. Qed.

Lemma when_given_filter criterion keep xs :
  when_given criterion keep xs = List.filter (given criterion keep) xs.
Proof.
  unfold when_given, given. destruct criterion as [c |]; [| now rewrite filter_true].
  destruct (Py.truthy c); [reflexivity | now rewrite filter_true].
Qed.

Lemma filter_screenings_filter xs venue available_only title_contains keyword :
  filter_screenings xs venue available_only title_contains keyword
  = List.filter (satisfies venue available_only title_contains keyword) xs.
Proof.
  unfold filter_screenings. rewrite !when_given_filter.
  assert ((if available_only
           then List.filter Screening.is_available (List.filter (given venue venue_matches) xs)
           else List.filter (given venue venue_matches) xs)
          = List.filter (fun s => negb available_only || Screening.is_available s)
              (List.filter (given venue venue_matches) xs)) as ->.
  { destruct available_only; [reflexivity | now rewrite filter_true]. }
  rewrite !filter_filter. apply filter_ext_bool. intros s. unfold satisfies.
  cbn beta. now rewrite ?andb_assoc.
Qed.

(** X23.  [filter_screenings] keeps, in their order, the records that
    satisfy every criterion given: a criterion that is [None] or the
    empty string, and an availability flag that is off, exclude nothing. *)
Theorem filter_screenings_conjunction (xs : list Screening.t) (venue : option string)
    (available_only : bool) (title_contains keyword : option string) :
  filter_screenings xs venue available_only title_contains keyword
  = List.filter (satisfies venue available_only title_contains keyword) xs
  /\ filter_screenings xs None false None None = xs
  /\ filter_screenings xs (Some EmptyString) false (Some EmptyString) (Some EmptyString) = xs.
Proof.
  split; [apply filter_screenings_filter |].
  split; rewrite filter_screenings_filter; apply filter_true.
Qed.

Lemma StronglySorted_filter {X} (R : X -> X -> Prop) (p : X -> bool) xs :
  StronglySorted R xs -> StronglySorted R (List.filter p xs).
Proof.
  induction 1 as [| x xs Hs IH Hall]; cbn; [constructor |].
  destruct (p x); [| exact IH]. constructor; [exact IH |].
  rewrite List.Forall_forall in *. intros y Hy. apply filter_In in Hy as [Hy _]. auto.
Qed.

Lemma sublist_filter {X} (p : X -> bool) xs : sublist (List.filter p xs) xs.
Proof.
  induction xs as [| x xs IH]; cbn; [constructor |].
  destruct (p x); now constructor.
Qed.

(** X24.  The result of [filter_screenings] is the input with some
    records left out, the others in their order; filtering a catalog that
    is sorted by date-time leaves it sorted. *)
Theorem filter_screenings_keeps_order (xs : list Screening.t) (venue : option string)
    (available_only : bool) (title_contains keyword : option string) :
  sublist (filter_screenings xs venue available_only title_contains keyword) xs
  /\ (Sorted datetime_le xs ->
      Sorted datetime_le (filter_screenings xs venue available_only title_contains keyword)).
Proof.
  rewrite filter_screenings_filter. split; [apply sublist_filter |].
  intros Hs. apply StronglySorted_Sorted, StronglySorted_filter, Sorted_StronglySorted;
    [| exact Hs].
  intros a b c. apply by_datetime_trans.
Qed.

(** X25.  Filtering twice with the same criteria is filtering once, and
    two filterings commute: narrowing a result by further criteria does
    not depend on the order in which the criteria are applied. *)
Theorem filter_screenings_compose (xs : list Screening.t)
    (venue venue' : option string) (available_only available_only' : bool)
    (title_contains title_contains' keyword keyword' : option string) :
  filter_screenings (filter_screenings xs venue available_only title_contains keyword)
    venue available_only title_contains keyword
  = filter_screenings xs venue available_only title_contains keyword
  /\ filter_screenings (filter_screenings xs venue available_only title_contains keyword)
       venue' available_only' title_contains' keyword'
     = filter_screenings (filter_screenings xs venue' available_only' title_contains' keyword')
         venue available_only title_contains keyword.
Proof.
  rewrite !filter_screenings_filter. split; [apply filter_idem |].
  rewrite !filter_filter. apply filter_ext_bool. intros s. apply andb_comm.
Qed.

Lemma given_lower criterion criterion' keep s :
  (forall c c' s, lower c = lower c' -> keep c s = keep c' s) ->
  lower criterion = lower criterion' ->
  given (Some criterion) keep s = given (Some criterion') keep s.
Proof.
  intros Hkeep Hl. unfold given.
  assert (Py.truthy criterion = Py.truthy criterion') as ->.
  { destruct criterion, criterion'; try reflexivity; discriminate Hl. }
  destruct (Py.truthy criterion'); [now apply Hkeep | reflexivity].
Qed.

(** X26.  The text criteria are compared without regard to case: criteria
    that agree once in lower case select the same records. *)
Theorem filter_screenings_ignores_case (xs : list Screening.t)
    (venue venue' title_contains title_contains' keyword keyword' : string)
    (available_only : bool) :
  lower venue = lower venue' ->
  lower title_contains = lower title_contains' ->
  lower keyword = lower keyword' ->
  filter_screenings xs (Some venue) available_only (Some title_contains) (Some keyword)
  = filter_screenings xs (Some venue') available_only (Some title_contains') (Some keyword').
Proof.
  intros Hv Ht Hk. rewrite !filter_screenings_filter. apply filter_ext_bool.
  intros s. unfold satisfies.
  rewrite (given_lower venue venue' venue_matches s), (given_lower title_contains title_contains' title_matches s),
    (given_lower keyword keyword' keyword_matches s); try assumption; try reflexivity.
  - intros c c' s' H. unfold keyword_matches. now rewrite H.
  - intros c c' s' H. unfold title_matches. now rewrite H.
  - intros c c' s' H. unfold venue_matches. now rewrite H.
Qed.

Lemma filter_screenings_ignores_case_witness :
  filter_screenings [psycho; rear_window; the_birds] (Some "nft1") true (Some "BIRDS")
    (Some "hitch")
  = filter_screenings [psycho; rear_window; the_birds] (Some "NFT1") true (Some "birds")
      (Some "Hitch").
Proof.
  apply (filter_screenings_ignores_case [psycho; rear_window; the_birds]); reflexivity.
Defined.

Example filter_screenings_forms :
  filter_screenings [psycho; rear_window; the_birds] (Some "imax") false None None
    = [rear_window]
  /\ filter_screenings [psycho; rear_window; the_birds] None true None (Some "HITCH")
     = [the_birds]
  /\ filter_screenings [psycho; rear_window; the_birds] None false (Some "o") None
     = [psycho; rear_window].
Proof. repeat split; reflexivity. Qed.

(** ** Persistence *)

Lemma traverse_map {X Y} (f : X -> result Y) (g : Y -> X) ys :
  Forall (fun y => f (g y) = Ok y) ys -> traverse f (map g ys) = Ok ys.
Proof.
  induction 1 as [| y ys Hy _ IH]; [reflexivity |].
  cbn [map traverse]. now rewrite Hy, IH.
Qed.

Lemma load_save path now xs files :
  load_screenings path (save_screenings now xs path files)
  = traverse Screening.from_dict (map Screening.to_dict xs).
Proof.
  unfold load_screenings, save_screenings. rewrite lookup_insert_eq.
  now replace (_ !! "screenings")
    with (Some (CScreenings (map Screening.to_dict xs))) by reflexivity.
Qed.

(** X27.  A catalog of decoded records that is saved and loaded again is
    the same list of records; the count written beside it is its length,
    and the catalogs at other paths are left as they were. *)
Theorem save_then_load (now path : string) (xs : list Screening.t)
    (files : gmap string (gmap string catval)) :
  Forall (fun s => exists r, parse_screening r = Ok s) xs ->
  load_screenings path (save_screenings now xs path files) = Ok xs
  /\ (save_screenings now xs path files !! path ≫= (.!! "count"))
     = Some (CInt (Z.of_nat (length xs)))
  /\ forall path', path' <> path ->
       load_screenings path' (save_screenings now xs path files)
       = load_screenings path' files.
Proof.
  intros Hxs. split; [| split].
  - rewrite load_save. apply traverse_map.
    eapply Forall_impl; [exact Hxs |]. cbn beta.
    intros s [r Hr]. apply parse_screening_ok in Hr as (Hdt & [raw Hk] & [short Hv]).
    destruct (screening_dt_ok _ _ Hdt) as (y & m & d & hh & mm & Hmk).
    rewrite from_dict_to_dict, (fromisoformat_isoformat _ _ _ _ _ _ _ Hmk).
    cbn [mbind result_bind].
    rewrite Hv, normalise_venue_short_idem, <- Hv.
    rewrite Hk, filter_keywords_idem, <- Hk.
    rewrite availability_from_code_value, sales_status_from_code_value.
    now destruct s as [? ? ? [? ? ?] ? ? ? ? ? ? ?].
  - unfold save_screenings. now rewrite lookup_insert_eq.
  - intros path' Hne. unfold load_screenings, save_screenings.
    now rewrite lookup_insert_ne by congruence.
Qed.

Lemma save_then_load_witness :
  load_screenings "bfi_screenings.json"
    (save_screenings "2024-01-01T09:00:00" [scenario_record] "bfi_screenings.json" ∅)
  = Ok [scenario_record].
Proof.
  apply (save_then_load "2024-01-01T09:00:00" "bfi_screenings.json" [scenario_record] ∅).
  constructor; [| constructor]. exists scenario_row_at_schema. reflexivity.
Defined.

Lemma traverse_ok {X Y} (f : X -> result Y) xs ys :
  traverse f xs = Ok ys -> Forall2 (fun x y => f x = Ok y) xs ys.
Proof.
  revert ys. induction xs as [| x xs IH]; intros ys H; cbn [traverse] in H.
  - injection H as <-. constructor.
  - apply bind_ok in H as (y & Hy & H). apply bind_ok in H as (ys' & Hys & H).
    injection H as <-. constructor; [exact Hy | now apply IH].
Qed.

Lemma traverse_in_raise {X Y} (f : X -> result Y) xs x e :
  In x xs -> f x = Raise e -> exists e', traverse f xs = Raise e'.
Proof.
  intros Hin Hx. destruct (traverse f xs) as [ys | e'] eqn:Ht; [| eauto].
  apply traverse_ok in Ht. exfalso.
  induction Ht as [| x' y xs ys Hx' _ IH]; [destruct Hin |].
  destruct Hin as [-> | Hin]; [congruence | now apply IH].
Qed.

Lemma from_dict_missing (d : gmap string pyval) (key : string) :
  In key required_keys -> d !! key = None -> exists e, Screening.from_dict d = Raise e.
Proof.
  intros Hkey Hnone. destruct (Screening.from_dict d) as [s | e] eqn:H; [| eauto].
  apply from_dict_required in H. rewrite Forall_forall in H.
  destruct (H key) as [v Hv]; [now apply list_elem_of_In | congruence].
Qed.

(** X28.  A catalog loads whole or not at all.  When the load returns,
    it returns one record for each stored screening, in the order of the
    file, each read by [from_dict]; one stored screening without one of
    the eight required keys, wherever it stands, makes the load raise and
    no record is returned. *)
Theorem load_screenings_whole_or_nothing (path : string)
    (files : gmap string (gmap string catval)) (data : gmap string catval)
    (l : list (gmap string pyval)) :
  files !! path = Some data ->
  data !! "screenings" = Some (CScreenings l) ->
  (forall xs, load_screenings path files = Ok xs ->
     Forall2 (fun d s => Screening.from_dict d = Ok s) l xs)
  /\ (forall d key, In d l -> In key required_keys -> d !! key = None ->
        exists e, load_screenings path files = Raise e).
Proof.
  intros Hf Hd. unfold load_screenings. rewrite Hf, Hd. split.
  - intros xs. apply traverse_ok.
  - intros d key Hin Hkey Hnone.
    destruct (from_dict_missing d key Hkey Hnone) as [e He].
    exact (traverse_in_raise _ _ _ _ Hin He).
Qed.

Lemma load_screenings_whole_or_nothing_witness :
  exists e,
    load_screenings "bfi_screenings.json"
      {[ "bfi_screenings.json" :=
           {[ "screenings" := CScreenings [Screening.to_dict vertigo; ∅] ]} ]}
    = Raise e.
Proof.
  destruct (load_screenings_whole_or_nothing "bfi_screenings.json"
              {[ "bfi_screenings.json" :=
                   {[ "screenings" := CScreenings [Screening.to_dict vertigo; ∅] ]} ]}
              {[ "screenings" := CScreenings [Screening.to_dict vertigo; ∅] ]}
              [Screening.to_dict vertigo; ∅]) as [_ H]; [reflexivity | reflexivity |].
  apply (H ∅ "id").
  - right. left. reflexivity.
  - left. reflexivity.
  - reflexivity.
Defined.

(** ** The time shown *)

Lemma decimal_inv c x :
  Py.decimal c = Some x -> 0 <= x < 10 /\ c = ascii_of_N (Z.to_N (48 + x)).
Proof.
  destruct c as [[] [] [] [] [] [] [] []]; cbn;
    (discriminate || (intros [= <-]; split; [lia | reflexivity])).
Qed.

Lemma decimal_is_dec c x : Py.decimal c = Some x -> Html.is_dec c = true.
Proof. intros H. unfold Html.is_dec. apply bool_decide_eq_true_2. rewrite H. eauto. Qed.

Lemma int_two_digits a b x y :
  Py.decimal a = Some x -> Py.decimal b = Some y ->
  Py.int (String a (String b EmptyString)) = Ok (10 * x + y).
Proof.
  intros Ha Hb.
  pose proof (decimal_is_dec a x Ha) as Da. pose proof (decimal_is_dec b y Hb) as Db.
  assert (Py.strip_by Py.int_space (String a (String b EmptyString))
          = String a (String b EmptyString)) as Hstrip.
  { unfold Py.strip_by.
    rewrite lstrip_by_fixed by now apply is_dec_not_space.
    apply rstrip_by_fixed. cbn [Py.all_chars].
    now rewrite (is_dec_not_space a Da), (is_dec_not_space b Db). }
  unfold Py.int. rewrite Hstrip.
  destruct (is_dec_not_sign a Da) as [-> ->]. cbn [fst snd Py.int_unsigned Py.int_digits].
  now rewrite Ha, Hb.
Qed.

Lemma pad2_two_digits a b x y k :
  Py.decimal a = Some x -> Py.decimal b = Some y ->
  Datetime.pad2 (10 * x + y) k = String a (String b k).
Proof.
  intros Ha Hb. apply decimal_inv in Ha as [Hx ->], Hb as [Hy ->].
  unfold Datetime.pad2, Datetime.digit.
  replace ((10 * x + y) / 10 mod 10) with x by div_lia.
  now replace ((10 * x + y) mod 10) with y by div_lia.
Qed.

(** X29.  When the time column of a row is two decimal digits, a colon
    and two decimal digits, the time shown for the decoded record is that
    very text. *)
Theorem time_str_of_row (r : row) (s : Screening.t) (a b c d : ascii) :
  parse_screening r = Ok s ->
  r !! Fields.TIME = Some (String a (String b (String ":" (String c (String d EmptyString))))) ->
  Html.is_dec a = true -> Html.is_dec b = true ->
  Html.is_dec c = true -> Html.is_dec d = true ->
  time_str s = String a (String b (String ":" (String c (String d EmptyString)))).
Proof.
  intros H Ht Da Db Dc Dd.
  destruct (is_dec_decimal a Da) as [x Hx]. destruct (is_dec_decimal b Db) as [y Hy].
  destruct (is_dec_decimal c Dc) as [z Hz]. destruct (is_dec_decimal d Dd) as [w Hw].
  apply parse_screening_columns in H as (Hdt & _).
  assert (Py.index r Fields.TIME
          = Ok (String a (String b (String ":" (String c (String d EmptyString))))))
    as Hidx by (unfold Py.index; now rewrite Ht).
  unfold screening_dt in Hdt.
  apply bind_ok in Hdt as (year & _ & Hdt).
  apply bind_ok in Hdt as (month & _ & Hdt).
  apply bind_ok in Hdt as (day & _ & Hdt).
  apply bind_ok in Hdt as (hour & Hh & Hdt).
  apply bind_ok in Hdt as (minute & Hm & Hdt).
  rewrite Hidx in Hh, Hm. cbn [mbind result_bind] in Hh, Hm.
  change (Py.slice 0 2 _) with (String a (String b EmptyString)) in Hh.
  change (Py.slice 3 5 _) with (String c (String d EmptyString)) in Hm.
  rewrite (int_two_digits a b x y Hx Hy) in Hh. injection Hh as <-.
  rewrite (int_two_digits c d z w Hz Hw) in Hm. injection Hm as <-.
  apply make_ok in Hdt as [Hdt _]. unfold time_str. rewrite Hdt.
  cbn [Datetime.hour Datetime.minute].
  now rewrite (pad2_two_digits a b x y _ Hx Hy), (pad2_two_digits c d z w _ Hz Hw).
Qed.

Lemma time_str_of_row_witness : time_str scenario_record = "14:30".
Proof.
  apply (time_str_of_row scenario_row_at_schema scenario_record "1" "4" "3" "0");
    reflexivity.
Defined.
